(** * Kettlebell threshold analysis: rep segmentation and ANT detection

    A shallow embedding of [api/services/rep_detector.py] and
    [api/services/ant_calculator.py].

    Python [float] and [np.float64] values are IEEE-754 binary64 numbers and
    are modelled by the kernel's primitive floats, so every arithmetic
    operation and comparison below rounds and treats NaN as the program does.
    Python [int] is [Z]; array positions that can never be negative are
    [nat].  Exceptions are values of [PyResult]. *)

From Stdlib Require Import String Floats ZArith List Bool Lia Arith Sorted.
From Stdlib Require Uint63 DecimalString.
Import ListNotations.

Set Warnings "-inexact-float".

Local Open Scope float_scope.

(** ** Python and numpy primitives *)

Module Py.

(** Python exceptions the modelled code can raise. *)
Inductive PyExn : Type :=
| ValueError (msg : string)
| IndexError.
Arguments ValueError msg%_string.

Inductive PyResult (A : Type) : Type :=
| Ok (a : A)
| Raise (e : PyExn).
Arguments Ok {A} a.
Arguments Raise {A} e.

Definition bind {A B : Type} (m : PyResult A) (k : A -> PyResult B) : PyResult B :=
  match m with
  | Ok a => k a
  | Raise e => Raise e
  end.

Notation "x <- m ;; k" := (bind m (fun x => k))
  (at level 61, m at next level, right associativity).

(** [a > b] and [a >= b] on floats; false as soon as one side is NaN. *)
Definition fgtb (a b : float) : bool := b <? a.
Definition fgeb (a b : float) : bool := b <=? a.

(** The float of a Python int that is a small natural number. *)
Definition float_of_nat (n : nat) : float :=
  of_uint63 (Uint63.of_Z (Z.of_nat n)).

(** [range(n)] *)
Definition range (n : nat) : list nat := seq 0 n.

(** Normalisation of one bound of a slice of a sequence of length [len]:
    negative bounds count from the end, and both are clamped. *)
Definition slice_bound (len i : Z) : Z :=
  if (i <? 0)%Z then Z.max 0 (len + i) else Z.min len i.

(** [l[start:stop]] *)
Definition slice {A : Type} (l : list A) (start stop : Z) : list A :=
  let len := Z.of_nat (length l) in
  let lo := slice_bound len start in
  let hi := slice_bound len stop in
  firstn (Z.to_nat (hi - lo)) (skipn (Z.to_nat lo) l).

(** [l[i]] for a Python int [i]: negative positions count from the end,
    anything outside [-len, len) raises IndexError. *)
Definition getitem {A : Type} (l : list A) (i : Z) : PyResult A :=
  let len := Z.of_nat (length l) in
  let j := if (i <? 0)%Z then (len + i)%Z else i in
  if (j <? 0)%Z then Raise IndexError
  else match nth_error l (Z.to_nat j) with
       | Some a => Ok a
       | None => Raise IndexError
       end.

(** [np.diff]: first difference. *)
Fixpoint np_diff (a : list float) : list float :=
  match a with
  | x :: (y :: _) as rest => (y - x) :: np_diff rest
  | _ => []
  end.

(** [np.sign] on one float: -1, 0 or 1, and NaN for NaN. *)
Definition np_sign (x : float) : float :=
  if x <? 0 then -1
  else if 0 <? x then 1
  else if x =? 0 then 0
  else nan.

(** [np.max] and [np.min] of a non-empty array: a left-to-right reduction with
    numpy's [maximum] and [minimum], which propagate NaN. *)
Definition np_maximum (a b : float) : float :=
  if fgeb a b || is_nan a then a else b.
Definition np_minimum (a b : float) : float :=
  if (a <=? b) || is_nan a then a else b.
Definition np_max (a : list float) : float :=
  match a with
  | [] => nan
  | x :: rest => fold_left np_maximum rest x
  end.
Definition np_min (a : list float) : float :=
  match a with
  | [] => nan
  | x :: rest => fold_left np_minimum rest x
  end.

(** [np.pad(a, (before, after), mode='edge')] *)
Definition np_pad_edge (a : list float) (before after : nat) : list float :=
  match a with
  | [] => []
  | x :: _ => repeat x before ++ a ++ repeat (last a x) after
  end.

(** The two numpy reductions whose rounding depends on the order in which
    numpy (and the platform's BLAS or fused multiply-add) accumulates: the
    mean of an array, and the dot product of one window with the kernel in
    [np.convolve].  The code is modelled over any such pair. *)
Class Numpy : Type := {
  np_mean : list float -> float;
  np_dot : list float -> list float -> float
}.

(** Left-to-right accumulation from zero: what numpy does on arrays of fewer
    than eight elements, and for kernels of at most eleven taps. *)
Definition sum_seq (a : list float) : float := fold_left PrimFloat.add a 0.
Definition mean_seq (a : list float) : float := sum_seq a / float_of_nat (length a).
Fixpoint dot_seq_from (acc : float) (a b : list float) : float :=
  match a, b with
  | x :: a', y :: b' => dot_seq_from (acc + x * y) a' b'
  | _, _ => acc
  end.
Definition dot_seq (a b : list float) : float := dot_seq_from 0 a b.

Definition numpy_seq : Numpy := {| np_mean := mean_seq; np_dot := dot_seq |}.

(** [np.convolve(a, kernel, mode='valid')] for [len(a) >= len(kernel)]: one
    dot product of the reversed kernel per window of [a]. *)
Definition np_convolve_valid `{Numpy} (a kernel : list float) : list float :=
  let w := length kernel in
  map (fun i => np_dot (firstn w (skipn i a)) (rev kernel))
      (range (length a + 1 - w)).

End Py.
Import Py.

(** ** models/schemas.py *)

Module schemas.

Inductive MovementType : Type :=
| SNATCH_LEFT
| SNATCH_RIGHT
| SWING_LEFT
| SWING_RIGHT
| TWO_ARM_SWING.

(** A single position sample: timestamp in seconds, normalized position,
    confidence. *)
Record PositionSample : Type := {
  t : float;
  x : float;
  y : float;
  confidence : float
}.

(** Metrics for a single rep. *)
Record RepMetric : Type := {
  rep_index : nat;
  start_time : float;
  end_time : float;
  duration : float;
  peak_speed : float;
  is_valid : bool;
  is_below_threshold : bool
}.

End schemas.

(** ** services/rep_detector.py *)

Module rep_detector.

(** A single detected repetition. *)
Record DetectedRep : Type := {
  start_idx : nat;
  end_idx : nat;
  start_time : float;
  end_time : float;
  duration : float;
  peak_speed : float;
  vertical_displacement : float;
  is_valid : bool
}.

(** The attributes of a [RepDetector] object. *)
Record RepDetector : Type := {
  movement_type : schemas.MovementType;
  min_confidence : float;
  min_vertical_displacement : float
}.

Definition MIN_VERTICAL_DISPLACEMENT_SWING : float := 0.15.
Definition MIN_VERTICAL_DISPLACEMENT_SNATCH : float := 0.25.
Definition MAX_REP_DURATION : float := 4.0.
Definition MIN_REP_DURATION : float := 0.4.
Definition VELOCITY_SMOOTHING_WINDOW : nat := 3.
Definition MIN_SAMPLES_BETWEEN_PEAKS : nat := 5.

(** [RepDetector.__init__] *)
Definition RepDetector_init (movement_type : schemas.MovementType)
    (min_confidence : float) : RepDetector :=
  {| movement_type := movement_type;
     min_confidence := min_confidence;
     min_vertical_displacement :=
       match movement_type with
       | schemas.SNATCH_LEFT | schemas.SNATCH_RIGHT => MIN_VERTICAL_DISPLACEMENT_SNATCH
       | _ => MIN_VERTICAL_DISPLACEMENT_SWING
       end |}.

(** The default of [min_confidence]. *)
Definition default_min_confidence : float := 0.5.

Section WithNumpy.
Context `{NP : Numpy}.

(** [RepDetector._smooth_signal]: moving average, edge-replicated padding. *)
Definition _smooth_signal (signal : list float) (window : nat) : list float :=
  if (window <=? 1)%nat || (length signal <? window)%nat then signal
  else
    let kernel := repeat (1 / float_of_nat window) window in
    let padded := np_pad_edge signal (window / 2) (window - 1 - window / 2) in
    np_convolve_valid padded kernel.

(** One iteration of the loop of [_find_peaks], at position [i]. *)
Definition find_peaks_step (signal : list float) (min_distance : nat)
    (peaks : list nat) (i : nat) : list nat :=
  if fgtb (nth i signal nan) (nth (i - 1) signal nan)
     && fgtb (nth i signal nan) (nth (i + 1) signal nan)
  then
    if match peaks with [] => true | _ => false end
       || (Z.of_nat min_distance <=? Z.of_nat i - Z.of_nat (last peaks 0%nat))%Z
    then peaks ++ [i]
    else if fgtb (nth i signal nan) (nth (last peaks 0%nat) signal nan)
    then removelast peaks ++ [i]
    else peaks
  else peaks.

(** [RepDetector._find_peaks]: [for i in range(1, len(signal) - 1)]. *)
Definition _find_peaks (signal : list float) (min_distance : nat) : list nat :=
  fold_left (find_peaks_step signal min_distance)
            (seq 1 (length signal - 1 - 1)) [].

(** [RepDetector._calculate_peak_speed] *)
Definition _calculate_peak_speed (times : list float)
    (samples : list schemas.PositionSample) : float :=
  if (length times <? 2)%nat then 0
  else
    let y_positions := map schemas.y samples in
    let dt := np_diff times in
    let dy := np_diff y_positions in
    let dt := map (fun d => if fgtb d 0 then d else 0.001) dt in
    let velocities := map (fun p => abs (fst p / snd p)) (combine dy dt) in
    let velocities :=
      if (VELOCITY_SMOOTHING_WINDOW <=? length velocities)%nat
      then _smooth_signal velocities VELOCITY_SMOOTHING_WINDOW
      else velocities in
    if (0 <? length velocities)%nat then np_max velocities else 0.

(** The sign-change count of [_validate_rep]:
    [np.sum(np.abs(np.diff(np.sign(dy_smooth))) > 0)]. *)
Definition sign_changes (dy_smooth : list float) : nat :=
  length (filter (fun d => fgtb (abs d) 0) (np_diff (map np_sign dy_smooth))).

(** [RepDetector._validate_rep] *)
Definition _validate_rep (self : RepDetector) (duration vertical_displacement : float)
    (y_segment : list float) : bool :=
  if (duration <? MIN_REP_DURATION) || fgtb duration MAX_REP_DURATION then false
  else if vertical_displacement <? min_vertical_displacement self then false
  else if (length y_segment <? 5)%nat then true
  else
    let dy := np_diff y_segment in
    let dy_smooth := if (3 <=? length dy)%nat then _smooth_signal dy 3 else dy in
    if (Nat.max 8 (length y_segment / 3) <? sign_changes dy_smooth)%nat then false
    else true.

(** [RepDetector._segment_reps]: the loop over [range(len(peaks) - 1)] visits
    the consecutive pairs [peaks[i], peaks[i + 1]]. *)
Fixpoint _segment_reps (self : RepDetector) (times y_raw y_smooth : list float)
    (peaks valleys : list nat) (samples : list schemas.PositionSample)
    : list DetectedRep :=
  match peaks with
  | start_idx :: ((end_idx :: _) as rest) =>
    let start_time := nth start_idx times nan in
    let end_time := nth end_idx times nan in
    let duration := end_time - start_time in
    let y_segment := slice y_raw (Z.of_nat start_idx) (Z.of_nat end_idx + 1) in
    if (length y_segment <? 2)%nat
    then _segment_reps self times y_raw y_smooth rest valleys samples
    else
      let vertical_displacement := np_max y_segment - np_min y_segment in
      let peak_speed :=
        _calculate_peak_speed
          (slice times (Z.of_nat start_idx) (Z.of_nat end_idx + 1))
          (slice samples (Z.of_nat start_idx) (Z.of_nat end_idx + 1)) in
      let is_valid := _validate_rep self duration vertical_displacement y_segment in
      {| start_idx := start_idx;
         end_idx := end_idx;
         start_time := start_time;
         end_time := end_time;
         duration := duration;
         peak_speed := peak_speed;
         vertical_displacement := vertical_displacement;
         is_valid := is_valid |}
      :: _segment_reps self times y_raw y_smooth rest valleys samples
  | _ => []
  end.

(** The samples [detect_reps] keeps:
    [[s for s in samples if s.confidence >= self.min_confidence]]. *)
Definition valid_samples_of (self : RepDetector)
    (samples : list schemas.PositionSample) : list schemas.PositionSample :=
  filter (fun s => fgeb (schemas.confidence s) (min_confidence self)) samples.

(** [RepDetector.detect_reps] *)
Definition detect_reps (self : RepDetector)
    (samples : list schemas.PositionSample) : list DetectedRep :=
  if (length samples <? MIN_SAMPLES_BETWEEN_PEAKS * 2)%nat then []
  else
    let valid_samples := valid_samples_of self samples in
    if (length valid_samples <? MIN_SAMPLES_BETWEEN_PEAKS * 2)%nat then []
    else
      let times := map schemas.t valid_samples in
      let y_positions := map schemas.y valid_samples in
      let y_smooth := _smooth_signal y_positions VELOCITY_SMOOTHING_WINDOW in
      let peaks := _find_peaks (map opp y_smooth) MIN_SAMPLES_BETWEEN_PEAKS in
      let valleys := _find_peaks y_smooth MIN_SAMPLES_BETWEEN_PEAKS in
      if (length peaks <? 2)%nat && (length valleys <? 2)%nat then []
      else _segment_reps self times y_positions y_smooth peaks valleys valid_samples.

(** The attributes of a [StreamingRepDetector] object. *)
Record StreamingRepDetector : Type := {
  s_movement_type : schemas.MovementType;
  buffer_seconds : float;
  s_min_confidence : float;
  detector : RepDetector;
  samples : list schemas.PositionSample;
  detected_reps : list DetectedRep;
  _last_processed_idx : Z
}.

(** [StreamingRepDetector.__init__] *)
Definition StreamingRepDetector_init (movement_type : schemas.MovementType)
    (buffer_seconds min_confidence : float) : StreamingRepDetector :=
  {| s_movement_type := movement_type;
     buffer_seconds := buffer_seconds;
     s_min_confidence := min_confidence;
     detector := RepDetector_init movement_type min_confidence;
     samples := [];
     detected_reps := [];
     _last_processed_idx := 0 |}.

(** The pruning loop of [add_sample]:
    [while self.samples and self.samples[0].t < cutoff_time]. *)
Fixpoint prune (cutoff_time : float) (samples : list schemas.PositionSample)
    (last_processed_idx : Z) : list schemas.PositionSample * Z :=
  match samples with
  | [] => ([], last_processed_idx)
  | s :: rest =>
    if schemas.t s <? cutoff_time
    then prune cutoff_time rest (Z.max 0 (last_processed_idx - 1))
    else (samples, last_processed_idx)
  end.

(** Membership of a [(start_time, end_time)] pair in a Python set of such
    pairs: some member is [==] to it on both components. *)
Definition time_key : Type := float * float.
Definition key_of (r : DetectedRep) : time_key := (start_time r, end_time r).
Definition key_eqb (k k' : time_key) : bool :=
  (fst k =? fst k') && (snd k =? snd k').
Definition key_in (k : time_key) (keys : list time_key) : bool :=
  existsb (key_eqb k) keys.

(** [StreamingRepDetector.add_sample]: the updated object and the reps
    returned. *)
Definition add_sample (self : StreamingRepDetector) (sample : schemas.PositionSample)
    : StreamingRepDetector * list DetectedRep :=
  let samples1 := samples self ++ [sample] in
  let '(samples2, idx) :=
    match samples1 with
    | [] => (samples1, _last_processed_idx self)
    | s0 :: _ =>
      let cutoff_time := schemas.t (last samples1 s0) - buffer_seconds self in
      prune cutoff_time samples1 (_last_processed_idx self)
    end in
  let all_reps := detect_reps (detector self) samples2 in
  let existing_times := map key_of (detected_reps self) in
  let new_reps := filter (fun rep => negb (key_in (key_of rep) existing_times)) all_reps in
  ({| s_movement_type := s_movement_type self;
      buffer_seconds := buffer_seconds self;
      s_min_confidence := s_min_confidence self;
      detector := detector self;
      samples := samples2;
      detected_reps := detected_reps self ++ new_reps;
      _last_processed_idx := idx |},
   new_reps).

(** [StreamingRepDetector.get_all_reps] *)
Definition get_all_reps (self : StreamingRepDetector) : list DetectedRep :=
  detected_reps self.

(** [StreamingRepDetector.reset] *)
Definition reset (self : StreamingRepDetector) : StreamingRepDetector :=
  {| s_movement_type := s_movement_type self;
     buffer_seconds := buffer_seconds self;
     s_min_confidence := s_min_confidence self;
     detector := detector self;
     samples := [];
     detected_reps := [];
     _last_processed_idx := 0 |}.

(** Feeding a sequence one sample at a time. *)
Definition feed (self : StreamingRepDetector) (samples : list schemas.PositionSample)
    : StreamingRepDetector :=
  fold_left (fun d s => fst (add_sample d s)) samples self.

End WithNumpy.

End rep_detector.

(** ** services/ant_calculator.py *)

Module ant_calculator.
Import rep_detector.

(** Result of ANT calculation. *)
Record ANTResult : Type := {
  ant_reached : bool;
  ant_rep_index : option Z;
  ant_timestamp_seconds : option float;
  baseline_speed : float;
  drop_percent_at_ant : option float;
  smoothed_speeds : list float;
  threshold_flags : list bool
}.

(** The attributes of an [ANTCalculator] object. *)
Record ANTCalculator : Type := {
  baseline_reps : Z;
  drop_threshold : float;
  smoothing_window : Z;
  sustain_count : Z
}.

(** [ANTCalculator.__init__] *)
Definition ANTCalculator_init (baseline_reps : Z) (drop_threshold : float)
    (smoothing_window sustain_count : Z) : PyResult ANTCalculator :=
  if (baseline_reps <? 3)%Z
  then Raise (ValueError "baseline_reps must be at least 3")
  else if negb ((0 <? drop_threshold) && (drop_threshold <? 1))
  then Raise (ValueError "drop_threshold must be between 0 and 1")
  else if (smoothing_window <? 1)%Z
  then Raise (ValueError "smoothing_window must be at least 1")
  else if (sustain_count <? 1)%Z
  then Raise (ValueError "sustain_count must be at least 1")
  else Ok {| baseline_reps := baseline_reps;
             drop_threshold := drop_threshold;
             smoothing_window := smoothing_window;
             sustain_count := sustain_count |}.

(** The result returned when there are not enough valid reps. *)
Definition insufficient_data : ANTResult :=
  {| ant_reached := false;
     ant_rep_index := None;
     ant_timestamp_seconds := None;
     baseline_speed := 0;
     drop_percent_at_ant := None;
     smoothed_speeds := [];
     threshold_flags := [] |}.

Section WithNumpy.
Context `{NP : Numpy}.

(** [ANTCalculator._smooth]: centered moving average over the data that is
    there. *)
Definition _smooth (data : list float) (window : Z) : list float :=
  if (window <=? 1)%Z || (Z.of_nat (length data) <? window)%Z then data
  else
    let half_window := (window / 2)%Z in
    map (fun i : nat =>
           let start := Z.max 0 (Z.of_nat i - half_window) in
           let end_ := Z.min (Z.of_nat (length data)) (Z.of_nat i + half_window + 1) in
           np_mean (slice data start end_))
        (range (length data)).

(** The loop of [_find_sustained_drop], entered at position [i] with
    [consecutive_count] below-threshold reps just before it. *)
Fixpoint find_sustained_drop_from (below_threshold : list bool) (sustain_count : Z)
    (i consecutive_count : Z) : option Z :=
  match below_threshold with
  | [] => None
  | is_below :: rest =>
    if is_below then
      let consecutive_count := (consecutive_count + 1)%Z in
      if (consecutive_count >=? sustain_count)%Z
      then Some (i - sustain_count + 1)%Z
      else find_sustained_drop_from rest sustain_count (i + 1)%Z consecutive_count
    else find_sustained_drop_from rest sustain_count (i + 1)%Z 0%Z
  end.

(** [ANTCalculator._find_sustained_drop] *)
Definition _find_sustained_drop (below_threshold : list bool) (sustain_count : Z)
    : option Z :=
  find_sustained_drop_from below_threshold sustain_count 0%Z 0%Z.

(** [ANTCalculator.calculate] *)
Definition calculate (self : ANTCalculator) (reps : list DetectedRep)
    : PyResult ANTResult :=
  let valid_reps := filter is_valid reps in
  if (Z.of_nat (length valid_reps) <? baseline_reps self + sustain_count self)%Z
  then Ok insufficient_data
  else
    let speeds := map peak_speed valid_reps in
    let baseline_speed := np_mean (slice speeds 0 (baseline_reps self)) in
    if baseline_speed <=? 0
    then Ok {| ant_reached := false;
               ant_rep_index := None;
               ant_timestamp_seconds := None;
               baseline_speed := 0;
               drop_percent_at_ant := None;
               smoothed_speeds := speeds;
               threshold_flags := repeat false (length speeds) |}
    else
      let smoothed_speeds := _smooth speeds (smoothing_window self) in
      let threshold_speed := baseline_speed * (1 - drop_threshold self) in
      let below_threshold := map (fun s => s <? threshold_speed) smoothed_speeds in
      let threshold_flags := below_threshold in
      let ant_rep_index := _find_sustained_drop below_threshold (sustain_count self) in
      match ant_rep_index with
      | Some idx =>
        rep <- getitem valid_reps idx ;;
        current_speed <- getitem smoothed_speeds idx ;;
        let ant_timestamp := start_time rep in
        let drop_percent := (baseline_speed - current_speed) / baseline_speed in
        Ok {| ant_reached := true;
              ant_rep_index := Some idx;
              ant_timestamp_seconds := Some ant_timestamp;
              baseline_speed := baseline_speed;
              drop_percent_at_ant := Some drop_percent;
              smoothed_speeds := smoothed_speeds;
              threshold_flags := threshold_flags |}
      | None =>
        Ok {| ant_reached := false;
              ant_rep_index := None;
              ant_timestamp_seconds := None;
              baseline_speed := baseline_speed;
              drop_percent_at_ant := None;
              smoothed_speeds := smoothed_speeds;
              threshold_flags := threshold_flags |}
      end.

End WithNumpy.

End ant_calculator.

(** ** services/ant_calculator.py, the streaming calculator *)

Module streaming_ant_calculator.
Import rep_detector ant_calculator.

(** The attributes of a [StreamingANTCalculator] object. *)
Record StreamingANTCalculator : Type := {
  calculator : ANTCalculator;
  reps : list DetectedRep;
  _last_result : option ANTResult
}.

(** [StreamingANTCalculator.__init__] *)
Definition StreamingANTCalculator_init (baseline_reps : Z) (drop_threshold : float)
    (smoothing_window sustain_count : Z) : PyResult StreamingANTCalculator :=
  calculator <-
    ANTCalculator_init baseline_reps drop_threshold smoothing_window sustain_count ;;
  Ok {| calculator := calculator; reps := []; _last_result := None |}.

Section WithNumpy.
Context `{NP : Numpy}.

(** The object after [self.reps] became [reps] and [calculate] was called on
    it: [_last_result] is assigned only when the call returns. *)
Definition recalculate (self : StreamingANTCalculator) (reps : list DetectedRep)
    : StreamingANTCalculator * PyResult ANTResult :=
  match calculate (calculator self) reps with
  | Ok result =>
    ({| calculator := calculator self; reps := reps; _last_result := Some result |},
     Ok result)
  | Raise e =>
    ({| calculator := calculator self; reps := reps;
        _last_result := _last_result self |},
     Raise e)
  end.

(** [StreamingANTCalculator.add_rep]: the object after the call and what the
    call returns. *)
Definition add_rep (self : StreamingANTCalculator) (rep : DetectedRep)
    : StreamingANTCalculator * PyResult ANTResult :=
  recalculate self (reps self ++ [rep]).

(** [StreamingANTCalculator.add_reps] *)
Definition add_reps (self : StreamingANTCalculator) (new_reps : list DetectedRep)
    : StreamingANTCalculator * PyResult ANTResult :=
  recalculate self (reps self ++ new_reps).

End WithNumpy.

(** [StreamingANTCalculator.get_current_result] *)
Definition get_current_result (self : StreamingANTCalculator) : option ANTResult :=
  _last_result self.

(** [StreamingANTCalculator.reset] *)
Definition reset (self : StreamingANTCalculator) : StreamingANTCalculator :=
  {| calculator := calculator self; reps := []; _last_result := None |}.

End streaming_ant_calculator.

(** ** services/pose_estimator.py *)

Module pose_estimator.

(** A landmark of MediaPipe's pose result, as far as the code reads it. *)
Record NormalizedLandmark : Type := {
  x : float;
  y : float;
  visibility : float
}.

(** Pose data extracted from a single frame. *)
Record FramePose : Type := {
  timestamp : float;
  left_wrist : option (float * float);
  right_wrist : option (float * float);
  left_wrist_confidence : float;
  right_wrist_confidence : float;
  frame_valid : bool
}.

Definition MIN_VISIBILITY : float := 0.5.

(** [PoseEstimator.process_frame], from MediaPipe's result for the frame:
    [None] when it found no pose, else its landmarks at [LEFT_WRIST_IDX] and
    [RIGHT_WRIST_IDX]. *)
Definition process_frame
    (pose_landmarks : option (NormalizedLandmark * NormalizedLandmark))
    (timestamp : float) : FramePose :=
  match pose_landmarks with
  | None =>
    {| timestamp := timestamp;
       left_wrist := None;
       right_wrist := None;
       left_wrist_confidence := 0;
       right_wrist_confidence := 0;
       frame_valid := false |}
  | Some (left_wrist_lm, right_wrist_lm) =>
    let left_valid := fgeb (visibility left_wrist_lm) MIN_VISIBILITY in
    let right_valid := fgeb (visibility right_wrist_lm) MIN_VISIBILITY in
    {| timestamp := timestamp;
       left_wrist :=
         if left_valid then Some (x left_wrist_lm, y left_wrist_lm) else None;
       right_wrist :=
         if right_valid then Some (x right_wrist_lm, y right_wrist_lm) else None;
       left_wrist_confidence := visibility left_wrist_lm;
       right_wrist_confidence := visibility right_wrist_lm;
       frame_valid := left_valid || right_valid |}
  end.

End pose_estimator.

(** ** services/video_processor.py *)

Module video_processor.
Import rep_detector ant_calculator pose_estimator.

Definition TARGET_FPS : float := 15.0.
Definition BASELINE_REPS : Z := 5.
Definition DROP_THRESHOLD : float := 0.20.
Definition SMOOTHING_WINDOW : Z := 3.
Definition SUSTAIN_COUNT : Z := 2.

(** The attributes of a [VideoProcessor] object: whether a progress callback
    is set.  The calls made to the callback are returned as a list of
    [(progress, message)] pairs. *)
Record VideoProcessor : Type := {
  progress_callback : bool
}.

Definition ProgressReport : Type := (float * string)%type.

(** [VideoProcessor._report_progress] *)
Definition _report_progress (self : VideoProcessor) (progress : float)
    (message : string) : list ProgressReport :=
  if progress_callback self then [(progress, message)] else [].

(** [VideoProcessor._pose_to_sample] *)
Definition _pose_to_sample (pose : FramePose) (use_left use_right use_both : bool)
    : option schemas.PositionSample :=
  if negb (frame_valid pose) then None
  else if use_both then
    match left_wrist pose, right_wrist pose with
    | Some l, Some r =>
      Some {| schemas.t := timestamp pose;
              schemas.x := (fst l + fst r) / 2;
              schemas.y := (snd l + snd r) / 2;
              schemas.confidence :=
                (left_wrist_confidence pose + right_wrist_confidence pose) / 2 |}
    | Some l, None =>
      Some {| schemas.t := timestamp pose;
              schemas.x := fst l;
              schemas.y := snd l;
              schemas.confidence := left_wrist_confidence pose |}
    | None, Some r =>
      Some {| schemas.t := timestamp pose;
              schemas.x := fst r;
              schemas.y := snd r;
              schemas.confidence := right_wrist_confidence pose |}
    | None, None => None
    end
  else
    match (if use_left then left_wrist pose else None) with
    | Some l =>
      Some {| schemas.t := timestamp pose;
              schemas.x := fst l;
              schemas.y := snd l;
              schemas.confidence := left_wrist_confidence pose |}
    | None =>
      match (if use_right then right_wrist pose else None) with
      | Some r =>
        Some {| schemas.t := timestamp pose;
                schemas.x := fst r;
                schemas.y := snd r;
                schemas.confidence := right_wrist_confidence pose |}
      | None => None
      end
    end.

(** The text of a Python int that is a natural number. *)
Definition str_of_nat (n : nat) : string :=
  DecimalString.NilEmpty.string_of_uint (Nat.to_uint n).

(** The loop of [_extract_positions] over the poses the estimator yields,
    from frame [frame_idx] on: the samples appended and the progress
    reported. *)
Fixpoint extract_positions_from (self : VideoProcessor) (poses : list FramePose)
    (use_left use_right use_both : bool) (total_frames : Z) (frame_idx : nat)
    : list schemas.PositionSample * list ProgressReport :=
  match poses with
  | [] => ([], [])
  | pose :: rest =>
    let reports :=
      if (total_frames >? 0)%Z then
        let progress :=
          0.7 * (float_of_nat frame_idx
                 / (float_of_nat (Z.to_nat total_frames) / (30 / TARGET_FPS))) in
        let progress := if progress <? 0.7 then progress else 0.7 in
        _report_progress self progress
          ("Processing frame " ++ str_of_nat frame_idx ++ "...")
      else [] in
    let sample := _pose_to_sample pose use_left use_right use_both in
    let '(samples, later) :=
      extract_positions_from self rest use_left use_right use_both total_frames
                             (S frame_idx) in
    (match sample with Some s => s :: samples | None => samples end,
     reports ++ later)
  end.

(** [VideoProcessor._extract_positions], over the poses the estimator yields
    for the video. *)
Definition _extract_positions (self : VideoProcessor) (poses : list FramePose)
    (movement_type : schemas.MovementType) (total_frames : Z)
    : list schemas.PositionSample * list ProgressReport :=
  let use_left :=
    match movement_type with
    | schemas.SNATCH_LEFT | schemas.SWING_LEFT => true
    | _ => false
    end in
  let use_right :=
    match movement_type with
    | schemas.SNATCH_RIGHT | schemas.SWING_RIGHT => true
    | _ => false
    end in
  let use_both :=
    match movement_type with
    | schemas.TWO_ARM_SWING => true
    | _ => false
    end in
  extract_positions_from self poses use_left use_right use_both total_frames 0.

(** [VideoProcessor._build_rep_metrics], from position [i] of the
    enumeration on. *)
Fixpoint build_rep_metrics_from (i : nat) (valid_reps : list DetectedRep)
    (threshold_flags : list bool) : list schemas.RepMetric :=
  match valid_reps with
  | [] => []
  | rep :: rest =>
    let is_below :=
      if (i <? length threshold_flags)%nat then nth i threshold_flags false
      else false in
    {| schemas.rep_index := i;
       schemas.start_time := start_time rep;
       schemas.end_time := end_time rep;
       schemas.duration := duration rep;
       schemas.peak_speed := peak_speed rep;
       schemas.is_valid := true;
       schemas.is_below_threshold := is_below |}
    :: build_rep_metrics_from (S i) rest threshold_flags
  end.

(** [VideoProcessor._build_rep_metrics] *)
Definition _build_rep_metrics (valid_reps : list DetectedRep)
    (ant_result : ANTResult) : list schemas.RepMetric :=
  build_rep_metrics_from 0 valid_reps (threshold_flags ant_result).

Section WithNumpy.
Context `{NP : Numpy}.

(** [analyze_position_stream]; [smoothing_window] and [sustain_count] take
    the defaults of [ANTCalculator]. *)
Definition analyze_position_stream (samples : list schemas.PositionSample)
    (movement_type : schemas.MovementType) (baseline_reps : Z)
    (drop_threshold : float) : PyResult (list DetectedRep * ANTResult) :=
  let detector := RepDetector_init movement_type default_min_confidence in
  let detected_reps := detect_reps detector samples in
  calculator <- ANTCalculator_init baseline_reps drop_threshold 3 2 ;;
  ant_result <- calculate calculator detected_reps ;;
  Ok (detected_reps, ant_result).

End WithNumpy.

End video_processor.

(** ** The two analysis methods as Python executes them

    [detect_reps] and [calculate] once more, this time over a store of
    objects, statement by statement: an attribute of [self] and an argument
    are read through the reference the caller passes, a list or array the
    method builds and then changes in place ([peaks.append(i)],
    [peaks[-1] = i], [reps.append(...)], [result[i] = ...]) is an object of
    the store, and a [return] of a list gives a reference to it.  The arrays
    and lists that are built by one expression and never changed afterwards
    are values, and so are the samples and reps inside a list: the methods
    read their fields and assign none.  [_smooth_signal],
    [_calculate_peak_speed] and [_find_sustained_drop] read no attribute and
    change no object in place (they rebind local names only), so the
    functions above stand for them; the upper-case names are class
    attributes that no statement of the repository assigns. *)

Module heap.
Import rep_detector ant_calculator.

(** The kinds of objects the two methods meet. *)
Inductive Object : Type :=
| Detector (d : RepDetector)
| Calculator (c : ANTCalculator)
| SampleList (l : list schemas.PositionSample)
| RepList (l : list DetectedRep)
| IntList (l : list nat)
| FloatArray (l : list float).

(** The store: a reference is a position in it. *)
Definition Heap : Type := list Object.

(** What a computation over the store comes to: a value or an exception,
    with the store it leaves; or nothing, when a reference does not hold an
    object of the kind the statement needs. *)
Inductive Outcome (A : Type) : Type :=
| Returns (a : A) (h : Heap)
| Raises (e : PyExn) (h : Heap)
| Stuck.
Arguments Returns {A} a h.
Arguments Raises {A} e h.
Arguments Stuck {A}.

Definition M (A : Type) : Type := Heap -> Outcome A.

Definition ret {A : Type} (a : A) : M A := fun h => Returns a h.

Definition bind {A B : Type} (m : M A) (k : A -> M B) : M B :=
  fun h =>
    match m h with
    | Returns a h' => k a h'
    | Raises e h' => Raises e h'
    | Stuck => Stuck
    end.

Notation "x <<- m ;; k" := (bind m (fun x => k))
  (at level 61, m at next level, right associativity).

(** A computation that touches no object. *)
Definition lift {A : Type} (r : PyResult A) : M A :=
  fun h =>
    match r with
    | Ok a => Returns a h
    | Raise e => Raises e h
    end.

(** A new object; its reference is returned. *)
Definition alloc (o : Object) : M nat :=
  fun h => Returns (length h) (h ++ [o]).

(** The object at a reference is replaced by its new state. *)
Definition put (r : nat) (o : Object) : M unit :=
  fun h =>
    if (r <? length h)%nat
    then Returns tt (firstn r h ++ o :: skipn (S r) h)
    else Stuck.

Definition get_detector (r : nat) : M RepDetector :=
  fun h => match nth_error h r with
           | Some (Detector d) => Returns d h
           | _ => Stuck
           end.

Definition get_calculator (r : nat) : M ANTCalculator :=
  fun h => match nth_error h r with
           | Some (Calculator c) => Returns c h
           | _ => Stuck
           end.

Definition get_sample_list (r : nat) : M (list schemas.PositionSample) :=
  fun h => match nth_error h r with
           | Some (SampleList l) => Returns l h
           | _ => Stuck
           end.

Definition get_rep_list (r : nat) : M (list DetectedRep) :=
  fun h => match nth_error h r with
           | Some (RepList l) => Returns l h
           | _ => Stuck
           end.

Definition get_int_list (r : nat) : M (list nat) :=
  fun h => match nth_error h r with
           | Some (IntList l) => Returns l h
           | _ => Stuck
           end.

Definition get_float_array (r : nat) : M (list float) :=
  fun h => match nth_error h r with
           | Some (FloatArray l) => Returns l h
           | _ => Stuck
           end.

(** [for a in l: body(a)] *)
Fixpoint for_each {A : Type} (l : list A) (body : A -> M unit) : M unit :=
  match l with
  | [] => ret tt
  | a :: rest => _ <<- body a ;; for_each rest body
  end.

(** [a[i] = v] for a position [i] of the array. *)
Definition setitem {A : Type} (a : list A) (i : nat) (v : A) : list A :=
  firstn i a ++ v :: skipn (S i) a.

End heap.

Module stateful.
Import heap rep_detector ant_calculator.

Section WithNumpy.
Context `{NP : Numpy}.

(** [RepDetector._find_peaks]; returns the reference of [peaks]. *)
Definition _find_peaks (signal : list float) (min_distance : nat) : M nat :=
  peaks <<- alloc (IntList []) ;;
  _ <<- for_each (seq 1 (length signal - 1 - 1))
          (fun i =>
             if fgtb (nth i signal nan) (nth (i - 1) signal nan)
                && fgtb (nth i signal nan) (nth (i + 1) signal nan)
             then
               ps <<- get_int_list peaks ;;
               if match ps with [] => true | _ => false end
                  || (Z.of_nat min_distance
                      <=? Z.of_nat i - Z.of_nat (last ps 0%nat))%Z
               then put peaks (IntList (ps ++ [i]))
               else if fgtb (nth i signal nan) (nth (last ps 0%nat) signal nan)
               then put peaks (IntList (removelast ps ++ [i]))
               else ret tt
             else ret tt) ;;
  ret peaks.

(** [RepDetector._validate_rep]; reads [self.min_vertical_displacement]. *)
Definition _validate_rep (self : nat) (duration vertical_displacement : float)
    (y_segment : list float) : M bool :=
  if (duration <? MIN_REP_DURATION) || fgtb duration MAX_REP_DURATION
  then ret false
  else
    d <<- get_detector self ;;
    if vertical_displacement <? min_vertical_displacement d then ret false
    else if (length y_segment <? 5)%nat then ret true
    else
      let dy := np_diff y_segment in
      let dy_smooth :=
        if (3 <=? length dy)%nat then _smooth_signal dy 3 else dy in
      if (Nat.max 8 (length y_segment / 3) <? sign_changes dy_smooth)%nat
      then ret false
      else ret true.

(** [RepDetector._segment_reps]: [peaks] and [valleys] are references;
    returns the reference of [reps].  [peaks[i]] and [peaks[i + 1]] are
    positions of [peaks] for every [i] in [range(len(peaks) - 1)]. *)
Definition _segment_reps (self : nat) (times y_raw y_smooth : list float)
    (peaks valleys : nat) (samples : list schemas.PositionSample) : M nat :=
  reps <<- alloc (RepList []) ;;
  ps <<- get_int_list peaks ;;
  _ <<- for_each (range (length ps - 1))
          (fun i =>
             ps <<- get_int_list peaks ;;
             let start_idx := nth i ps 0%nat in
             let end_idx := nth (i + 1) ps 0%nat in
             let start_time := nth start_idx times nan in
             let end_time := nth end_idx times nan in
             let duration := end_time - start_time in
             let y_segment :=
               slice y_raw (Z.of_nat start_idx) (Z.of_nat end_idx + 1) in
             if (length y_segment <? 2)%nat then ret tt
             else
               let vertical_displacement :=
                 np_max y_segment - np_min y_segment in
               let peak_speed :=
                 _calculate_peak_speed
                   (slice times (Z.of_nat start_idx) (Z.of_nat end_idx + 1))
                   (slice samples (Z.of_nat start_idx) (Z.of_nat end_idx + 1)) in
               is_valid <<-
                 _validate_rep self duration vertical_displacement y_segment ;;
               rs <<- get_rep_list reps ;;
               put reps
                 (RepList
                    (rs ++ [{| start_idx := start_idx;
                               end_idx := end_idx;
                               start_time := start_time;
                               end_time := end_time;
                               duration := duration;
                               peak_speed := peak_speed;
                               vertical_displacement := vertical_displacement;
                               is_valid := is_valid |}]))) ;;
  ret reps.

(** [RepDetector.detect_reps]: [self] and [samples] are references; returns
    the reference of the list of reps, a new list on every path. *)
Definition detect_reps (self samples : nat) : M nat :=
  ss <<- get_sample_list samples ;;
  if (length ss <? MIN_SAMPLES_BETWEEN_PEAKS * 2)%nat then alloc (RepList [])
  else
    d <<- get_detector self ;;
    let valid_samples :=
      filter (fun s => fgeb (schemas.confidence s) (min_confidence d)) ss in
    if (length valid_samples <? MIN_SAMPLES_BETWEEN_PEAKS * 2)%nat
    then alloc (RepList [])
    else
      let times := map schemas.t valid_samples in
      let y_positions := map schemas.y valid_samples in
      let y_smooth := _smooth_signal y_positions VELOCITY_SMOOTHING_WINDOW in
      peaks <<- _find_peaks (map opp y_smooth) MIN_SAMPLES_BETWEEN_PEAKS ;;
      valleys <<- _find_peaks y_smooth MIN_SAMPLES_BETWEEN_PEAKS ;;
      ps <<- get_int_list peaks ;;
      vs <<- get_int_list valleys ;;
      if (length ps <? 2)%nat && (length vs <? 2)%nat then alloc (RepList [])
      else
        _segment_reps self times y_positions y_smooth peaks valleys
                      valid_samples.

(** [ANTCalculator._smooth]; returns the reference of the copy of [data] or
    of [result]. *)
Definition _smooth (data : list float) (window : Z) : M nat :=
  if (window <=? 1)%Z || (Z.of_nat (length data) <? window)%Z
  then alloc (FloatArray data)
  else
    result <<- alloc (FloatArray (repeat 0 (length data))) ;;
    let half_window := (window / 2)%Z in
    _ <<- for_each (range (length data))
            (fun i =>
               let start := Z.max 0 (Z.of_nat i - half_window) in
               let end_ :=
                 Z.min (Z.of_nat (length data))
                       (Z.of_nat i + half_window + 1) in
               r <<- get_float_array result ;;
               put result
                 (FloatArray (setitem r i (np_mean (slice data start end_))))) ;;
    ret result.

(** [ANTCalculator.calculate]: [self] and [reps] are references; the result
    is a new [ANTResult]. *)
Definition calculate (self reps : nat) : M ANTResult :=
  rs <<- get_rep_list reps ;;
  let valid_reps := filter is_valid rs in
  c <<- get_calculator self ;;
  if (Z.of_nat (length valid_reps) <? baseline_reps c + sustain_count c)%Z
  then ret insufficient_data
  else
    let speeds := map peak_speed valid_reps in
    let baseline_speed := np_mean (slice speeds 0 (baseline_reps c)) in
    if baseline_speed <=? 0
    then ret {| ant_reached := false;
                ant_rep_index := None;
                ant_timestamp_seconds := None;
                baseline_speed := 0;
                drop_percent_at_ant := None;
                smoothed_speeds := speeds;
                threshold_flags := repeat false (length speeds) |}
    else
      smoothed <<- _smooth speeds (smoothing_window c) ;;
      smoothed_speeds <<- get_float_array smoothed ;;
      let threshold_speed := baseline_speed * (1 - drop_threshold c) in
      let below_threshold :=
        map (fun s => s <? threshold_speed) smoothed_speeds in
      let threshold_flags := below_threshold in
      let ant_rep_index :=
        _find_sustained_drop below_threshold (sustain_count c) in
      match ant_rep_index with
      | Some idx =>
        rep <<- lift (getitem valid_reps idx) ;;
        current_speed <<- lift (getitem smoothed_speeds idx) ;;
        let ant_timestamp := start_time rep in
        let drop_percent := (baseline_speed - current_speed) / baseline_speed in
        ret {| ant_reached := true;
               ant_rep_index := Some idx;
               ant_timestamp_seconds := Some ant_timestamp;
               baseline_speed := baseline_speed;
               drop_percent_at_ant := Some drop_percent;
               smoothed_speeds := smoothed_speeds;
               threshold_flags := threshold_flags |}
      | None =>
        ret {| ant_reached := false;
               ant_rep_index := None;
               ant_timestamp_seconds := None;
               baseline_speed := baseline_speed;
               drop_percent_at_ant := None;
               smoothed_speeds := smoothed_speeds;
               threshold_flags := threshold_flags |}
      end.

End WithNumpy.

End stateful.

(** * The properties the specification states *)

Module Spec.
Import rep_detector ant_calculator.

(** ** Rep segmentation engine *)

(** Timestamps strictly increasing along the sequence: every sample is
    earlier than every later one. *)
Definition strictly_increasing_times (samples : list schemas.PositionSample) : Prop :=
  StronglySorted (fun a b => (a <? b) = true) (map schemas.t samples).

(** Peaks in increasing order, all below a bound. *)
Definition peaks_below (bound : nat) (peaks : list nat) : Prop :=
  StronglySorted lt peaks /\ Forall (fun p => (p < bound)%nat) peaks.

(** The rep the segmentation builds between two positions [a] and [b] of the
    confidence-filtered samples. *)
Definition rep_between `{Numpy} (self : RepDetector)
    (samples : list schemas.PositionSample) (a b : nat) : DetectedRep :=
  let times := map schemas.t samples in
  let y_raw := map schemas.y samples in
  let y_segment := slice y_raw (Z.of_nat a) (Z.of_nat b + 1) in
  let duration := nth b times nan - nth a times nan in
  let vertical_displacement := np_max y_segment - np_min y_segment in
  {| start_idx := a;
     end_idx := b;
     start_time := nth a times nan;
     end_time := nth b times nan;
     duration := duration;
     peak_speed :=
       _calculate_peak_speed (slice times (Z.of_nat a) (Z.of_nat b + 1))
                             (slice samples (Z.of_nat a) (Z.of_nat b + 1));
     vertical_displacement := vertical_displacement;
     is_valid := _validate_rep self duration vertical_displacement y_segment |}.

(** The peaks [detect_reps] segments at: the local maxima of the negated
    smoothed vertical coordinate of the confidence-filtered samples. *)
Definition peaks_of `{Numpy} (self : RepDetector)
    (samples : list schemas.PositionSample) : list nat :=
  _find_peaks
    (map opp (_smooth_signal (map schemas.y (valid_samples_of self samples))
                             VELOCITY_SMOOTHING_WINDOW))
    MIN_SAMPLES_BETWEEN_PEAKS.

(** The raw vertical coordinates a rep spans: those of the kept samples from
    [start_idx] to [end_idx] inclusive. *)
Definition span_of (self : RepDetector) (samples : list schemas.PositionSample)
    (r : DetectedRep) : list float :=
  firstn (end_idx r + 1 - start_idx r)
         (skipn (start_idx r) (map schemas.y (valid_samples_of self samples))).

(** The movement-specific minimum displacement. *)
Definition minimum_displacement (m : schemas.MovementType) : float :=
  match m with
  | schemas.SNATCH_LEFT | schemas.SNATCH_RIGHT => 0.25
  | schemas.SWING_LEFT | schemas.SWING_RIGHT | schemas.TWO_ARM_SWING => 0.15
  end.

(** The sign of a number; NaN has none. *)
Inductive Sign : Type := Negative | Zero | Positive.

Definition sign_of (v : float) : option Sign :=
  if v <? 0 then Some Negative
  else if 0 <? v then Some Positive
  else if v =? 0 then Some Zero
  else None.

Definition sign_differs (a b : option Sign) : bool :=
  match a, b with
  | Some Negative, Some Negative => false
  | Some Zero, Some Zero => false
  | Some Positive, Some Positive => false
  | Some _, Some _ => true
  | _, _ => false
  end.

(** The number of positions at which the sign changes from one element to
    the next. *)
Fixpoint count_sign_changes (l : list float) : nat :=
  match l with
  | a :: (b :: _) as rest =>
    (if sign_differs (sign_of a) (sign_of b) then 1 else 0)%nat
    + count_sign_changes rest
  | _ => 0%nat
  end.

(** The first difference of a sequence: every element but the first, minus
    the element before it. *)
Definition first_difference (v : list float) : list float :=
  map (fun i => nth (i + 1) v nan - nth i v nan) (seq 0 (length v - 1)).

(** The 3-sample average of [d] around position [i]: the element before, the
    element and the element after, each weighted by a third (as numpy sums
    the three products); at an edge the first or the last element stands in
    for the neighbour that is missing. *)
Definition a_third : float := 1 / 3.

Definition average_of_three `{Numpy} (d : list float) (i : nat) : float :=
  np_dot [nth (i - 1) d nan;
          nth i d nan;
          nth (Nat.min (i + 1) (length d - 1)) d nan]
         [a_third; a_third; a_third].

(** The first difference of a span, smoothed over 3 samples when it has at
    least 3 points. *)
Definition smoothed_first_difference `{Numpy} (span : list float) : list float :=
  let dy := first_difference span in
  if (3 <=? length dy)%nat
  then map (average_of_three dy) (seq 0 (length dy))
  else dy.

(** The arc-smoothness criterion. *)
Definition arc_smooth `{Numpy} (span : list float) : Prop :=
  (length span < 5)%nat \/
  (count_sign_changes (smoothed_first_difference span)
   <= Nat.max 8 (length span / 3))%nat.

(** The three validity criteria of a rep. *)
Definition validity_criteria `{Numpy} (m : schemas.MovementType)
    (duration displacement : float) (span : list float) : Prop :=
  ((0.4 <=? duration) = true /\ (duration <=? 4.0) = true) /\
  (minimum_displacement m <=? displacement) = true /\
  arc_smooth span.

(** The input with every sample of confidence below the minimum removed. *)
Definition remove_low_confidence (self : RepDetector)
    (samples : list schemas.PositionSample) : list schemas.PositionSample :=
  filter (fun s => negb (schemas.confidence s <? min_confidence self)) samples.

(** ** Streaming rep segmenter *)

(** The buffer is long enough for the sequence: the first sample is never
    older than the cutoff any later sample sets. *)
Definition never_evicts (buffer_seconds : float)
    (samples : list schemas.PositionSample) : Prop :=
  match samples with
  | [] => True
  | s0 :: _ =>
    Forall (fun s => (schemas.t s0 <? schemas.t s - buffer_seconds) = false)
           samples
  end.

(** The set of [(start_time, end_time)] keys of a list of reps, as a
    membership test. *)
Definition has_key (reps : list DetectedRep) (k : time_key) : bool :=
  key_in k (map key_of reps).

(** A sample every quarter of a second, at full confidence, with the given
    vertical coordinates. *)
Definition sample_at (i : nat) (yv : float) : schemas.PositionSample :=
  {| schemas.t := float_of_nat i * 0.25;
     schemas.x := 0.5;
     schemas.y := yv;
     schemas.confidence := 1 |}.

Definition signal_of (ys : list float) : list schemas.PositionSample :=
  map (fun p => sample_at (fst p) (snd p)) (combine (seq 0 (length ys)) ys).

(** A signal with highest points at positions 2, 8 and 11, the one at 11
    higher than the one at 8 and only three samples after it. *)
Definition swing_signal : list schemas.PositionSample :=
  signal_of [0.9; 0.5; 0.1; 0.5; 0.9; 0.9; 0.9; 0.5;
             0.2; 0.5; 0.6; 0.0; 0.4; 0.9; 0.9].

Definition swing_detector : RepDetector :=
  RepDetector_init schemas.SWING_LEFT default_min_confidence.

(** The rep of [swing_signal] between its highest points at 2 and 11. *)
Definition swing_rep : DetectedRep :=
  @rep_between numpy_seq swing_detector swing_signal 2 11.

(** ** Threshold detector *)

(** [k] consecutive True flags start at position [j]. *)
Definition run_at (flags : list bool) (k j : nat) : Prop :=
  j + k <= length flags /\
  forall i, j <= i < j + k -> nth i flags false = true.

(** [j] is where the first run of [k] or more consecutive True flags begins:
    [k] True flags start at [j], the flag before [j] (if any) is False, and
    no [k] consecutive True flags start earlier. *)
Definition first_run_begins_at (flags : list bool) (k j : nat) : Prop :=
  run_at flags k j /\
  (j = 0%nat \/ nth (j - 1) flags false = false) /\
  (forall j', j' < j -> ~ run_at flags k j').

(** What the scan of the threshold flags must have put in a result [res]
    computed over the valid reps [valid] with a sustain count [k]. *)
Definition sustained_drop_outcome (valid : list DetectedRep) (k : nat)
    (res : ANTResult) : Prop :=
  (forall j, first_run_begins_at (threshold_flags res) k j ->
     ant_reached res = true /\
     ant_rep_index res = Some (Z.of_nat j) /\
     (exists rep, nth_error valid j = Some rep /\
                  ant_timestamp_seconds res = Some (start_time rep)) /\
     (exists s, nth_error (smoothed_speeds res) j = Some s /\
                drop_percent_at_ant res =
                  Some ((baseline_speed res - s) / baseline_speed res))) /\
  ((forall j, ~ run_at (threshold_flags res) k j) ->
     ant_reached res = false /\
     ant_rep_index res = None /\
     ant_timestamp_seconds res = None /\
     drop_percent_at_ant res = None).

(** The baseline of a rep sequence: the mean peak speed of the first
    [baseline_reps] valid reps. *)
Definition baseline_of `{Numpy} (baseline_reps : Z) (reps : list DetectedRep) : float :=
  np_mean (firstn (Z.to_nat baseline_reps) (map peak_speed (filter is_valid reps))).

(** The two gates of [calculate]: enough valid reps, and a positive baseline. *)
Definition past_gates `{Numpy} (baseline_reps sustain_count : Z)
    (reps : list DetectedRep) : Prop :=
  (baseline_reps + sustain_count <= Z.of_nat (length (filter is_valid reps)))%Z /\
  (0 <? baseline_of baseline_reps reps) = true.

(** The trimmed centred average the specification gives for position [i] of a
    speed sequence and window [w]: the mean over the positions from
    [max(0, i - w // 2)] to [min(n, i + w // 2 + 1)] exclusive. *)
Definition trimmed_mean `{Numpy} (speeds : list float) (w : Z) (i : nat) : float :=
  let n := Z.of_nat (length speeds) in
  let lo := Z.to_nat (Z.max 0 (Z.of_nat i - w / 2)) in
  let hi := Z.to_nat (Z.min n (Z.of_nat i + w / 2 + 1)) in
  np_mean (firstn (hi - lo) (skipn lo speeds)).

(** The configuration constraints of the threshold detector. *)
Definition valid_configuration (baseline_reps : Z) (drop_threshold : float)
    (smoothing_window sustain_count : Z) : Prop :=
  (3 <= baseline_reps)%Z /\
  ((0 <? drop_threshold) = true /\ (drop_threshold <? 1) = true) /\
  (1 <= smoothing_window)%Z /\
  (1 <= sustain_count)%Z.

(** A valid rep with a given start time and peak speed. *)
Definition rep_at (start speed : float) : DetectedRep :=
  {| start_idx := 0; end_idx := 6;
     start_time := start; end_time := start + 1; duration := 1;
     peak_speed := speed; vertical_displacement := 0.5; is_valid := true |}.

(** Reps starting one second apart with the given peak speeds. *)
Definition reps_with_speeds (speeds : list float) : list DetectedRep :=
  map (fun p => rep_at (float_of_nat (fst p)) (snd p))
      (combine (seq 0 (length speeds)) speeds).

Definition calculator (baseline_reps : Z) (drop_threshold : float)
    (smoothing_window sustain_count : Z) : ANTCalculator :=
  {| baseline_reps := baseline_reps; drop_threshold := drop_threshold;
     smoothing_window := smoothing_window; sustain_count := sustain_count |}.

(** Five reps at peak speed 1.0 followed by three at 0.5. *)
Definition sustained_drop_reps : list DetectedRep :=
  reps_with_speeds [1; 1; 1; 1; 1; 0.5; 0.5; 0.5].

(** Three reps at peak speed 1.0 followed by one at 3.0. *)
Definition short_reps : list DetectedRep := reps_with_speeds [1; 1; 1; 3].

(** Three reps at peak speed 1.0 followed by one at the largest binary64
    number below 0.5. *)
Definition just_below_half : float := 0x1.fffffffffffffp-2.
Definition rounding_reps : list DetectedRep :=
  reps_with_speeds [1; 1; 1; just_below_half].

(** ** Method calls on the objects of a store *)

(** Every object of [h] is still in [h'], at its reference and in the state
    it had. *)
Definition objects_unchanged (h h' : heap.Heap) : Prop :=
  forall r o, nth_error h r = Some o -> nth_error h' r = Some o.

(** A call that comes to the value or the exception [r] and leaves the store
    [h']. *)
Definition outcome_of {A : Type} (r : PyResult A) (h' : heap.Heap)
    : heap.Outcome A :=
  match r with
  | Ok a => heap.Returns a h'
  | Raise e => heap.Raises e h'
  end.

(** The calls a client makes of the two methods, on references of its
    choice. *)
Inductive MethodCall : Type :=
| CallDetectReps (self samples : nat)
| CallCalculate (self reps : nat).

(** The store a call leaves, whether it returns or raises. *)
Definition store_after {A : Type} (o : heap.Outcome A) : option heap.Heap :=
  match o with
  | heap.Returns _ h' => Some h'
  | heap.Raises _ h' => Some h'
  | heap.Stuck => None
  end.

Definition run_method `{Numpy} (c : MethodCall) (h : heap.Heap)
    : option heap.Heap :=
  match c with
  | CallDetectReps self samples =>
    store_after (stateful.detect_reps self samples h)
  | CallCalculate self reps =>
    store_after (stateful.calculate self reps h)
  end.

(** The store after a sequence of calls, each made on the store the one
    before left. *)
Fixpoint run_methods `{Numpy} (calls : list MethodCall) (h : heap.Heap)
    : option heap.Heap :=
  match calls with
  | [] => Some h
  | c :: rest =>
    match run_method c h with
    | Some h' => run_methods rest h'
    | None => None
    end
  end.

(** A store for the examples: a detector, the swing signal, a calculator and
    eight reps. *)
Definition example_store : heap.Heap :=
  [heap.Detector swing_detector;
   heap.SampleList swing_signal;
   heap.Calculator (calculator 5 0.20 1 2);
   heap.RepList sustained_drop_reps].

(** Calls for the examples: [detect_reps] on the signal, [calculate] on the
    eight reps, then [calculate] on the list the first call returned. *)
Definition example_calls : list MethodCall :=
  [CallDetectReps 0 1; CallCalculate 2 3; CallCalculate 2 6].

Definition store_after_example_calls : heap.Heap :=
  match @run_methods numpy_seq example_calls example_store with
  | Some h => h
  | None => []
  end.

(** ** Further properties of the code *)

(** The pairs of consecutive elements of a list. *)
Definition consecutive {A : Type} (l : list A) : list (A * A) :=
  combine l (tl l).

(** Consecutive positions at least [d] apart. *)
Definition spaced (d : nat) (peaks : list nat) : Prop :=
  forall a b, In (a, b) (consecutive peaks) -> (a + d <= b)%nat.

(** Position [p] is a strict local maximum of the signal, with a neighbour on
    each side. *)
Definition local_maximum (signal : list float) (p : nat) : Prop :=
  (1 <= p)%nat /\ (p + 1 < length signal)%nat /\
  fgtb (nth p signal nan) (nth (p - 1) signal nan) = true /\
  fgtb (nth p signal nan) (nth (p + 1) signal nan) = true.

(** No two reps of a log with the same [(start_time, end_time)] key. *)
Definition distinct_keys (log : list DetectedRep) : Prop :=
  ForallOrdPairs (fun r r' => key_eqb (key_of r) (key_of r') = false) log.

(** The calls a client makes on a streaming calculator. *)
Inductive StreamingCall : Type :=
| AddRep (rep : DetectedRep)
| AddReps (new_reps : list DetectedRep)
| Reset.

(** The object after a sequence of calls. *)
Definition run_call `{Numpy}
    (self : streaming_ant_calculator.StreamingANTCalculator)
    (c : StreamingCall) : streaming_ant_calculator.StreamingANTCalculator :=
  match c with
  | AddRep rep => fst (streaming_ant_calculator.add_rep self rep)
  | AddReps new_reps => fst (streaming_ant_calculator.add_reps self new_reps)
  | Reset => streaming_ant_calculator.reset self
  end.

Definition run_calls `{Numpy}
    (self : streaming_ant_calculator.StreamingANTCalculator)
    (calls : list StreamingCall) : streaming_ant_calculator.StreamingANTCalculator :=
  fold_left run_call calls self.

(** The reps a sequence of calls leaves in the log, starting from [log]. *)
Definition log_after (log : list DetectedRep) (calls : list StreamingCall)
    : list DetectedRep :=
  fold_left (fun log c =>
               match c with
               | AddRep rep => log ++ [rep]
               | AddReps new_reps => log ++ new_reps
               | Reset => []
               end) calls log.

(** Whether [add_rep] or [add_reps] was called since the last [reset] (or
    since [called] was recorded, when there is no [reset]); a call of
    [add_reps] counts whatever it adds, also when it adds no rep. *)
Definition add_called_after (called : bool) (calls : list StreamingCall) : bool :=
  fold_left (fun called c =>
               match c with
               | AddRep _ | AddReps _ => true
               | Reset => false
               end) calls called.

(** The pose [process_frame] builds from each MediaPipe result and
    timestamp. *)
Definition poses_of
    (results : list (option (pose_estimator.NormalizedLandmark
                             * pose_estimator.NormalizedLandmark) * float))
    : list pose_estimator.FramePose :=
  map (fun r => pose_estimator.process_frame (fst r) (snd r)) results.

(** The samples of a pose sequence: the sample of each pose that has one,
    in order. *)
Definition samples_of_poses (use_left use_right use_both : bool)
    (poses : list pose_estimator.FramePose) : list schemas.PositionSample :=
  flat_map (fun pose =>
              match video_processor._pose_to_sample pose use_left use_right
                      use_both with
              | Some s => [s]
              | None => []
              end) poses.

(** The movements that track one wrist. *)
Definition one_wrist (m : schemas.MovementType) : Prop :=
  m <> schemas.TWO_ARM_SWING.

(** What a MediaPipe result holds for the wrist or wrists a movement tracks:
    nothing when no pose was found, else the landmarks of the tracked
    wrists; with the frame's timestamp. *)
Definition tracked_landmarks (m : schemas.MovementType)
    (r : option (pose_estimator.NormalizedLandmark
                 * pose_estimator.NormalizedLandmark) * float)
    : option (list pose_estimator.NormalizedLandmark) * float :=
  (option_map
     (fun lr =>
        match m with
        | schemas.SNATCH_LEFT | schemas.SWING_LEFT => [fst lr]
        | schemas.SNATCH_RIGHT | schemas.SWING_RIGHT => [snd lr]
        | schemas.TWO_ARM_SWING => [fst lr; snd lr]
        end) (fst r),
   snd r).

(** A left-hand pose sequence for the examples: the wrist is seen in the
    first and third frame, no pose is found in the second. *)
Definition wrist_landmark (v : float) : pose_estimator.NormalizedLandmark :=
  {| pose_estimator.x := 0.5; pose_estimator.y := v;
     pose_estimator.visibility := 0.9 |}.
Definition hidden_landmark : pose_estimator.NormalizedLandmark :=
  {| pose_estimator.x := 0.1; pose_estimator.y := 0.1;
     pose_estimator.visibility := 0.2 |}.
Definition three_frames
    : list (option (pose_estimator.NormalizedLandmark
                    * pose_estimator.NormalizedLandmark) * float) :=
  [(Some (wrist_landmark 0.3, hidden_landmark), 0);
   (None, 0.5);
   (Some (wrist_landmark 0.6, hidden_landmark), 1)].

(** A swing signal for the examples: six wide swings, then four shallow
    ones of the same period. *)
Definition wide_swing : list float := [0.1; 0.4; 0.7; 0.9; 0.7; 0.4].
Definition shallow_swing : list float := [0.1; 0.2; 0.3; 0.35; 0.3; 0.2].
Definition fatigue_signal : list schemas.PositionSample :=
  signal_of ([0.9; 0.7; 0.4]
             ++ wide_swing ++ wide_swing ++ wide_swing
             ++ wide_swing ++ wide_swing ++ wide_swing
             ++ shallow_swing ++ shallow_swing ++ shallow_swing
             ++ shallow_swing ++ [0.1; 0.2; 0.3]).

End Spec.

(** * Proofs *)

(** ** Facts about binary64 comparisons *)

Module FloatFacts.

Lemma SFcompare_antisym (a b : spec_float) :
  SFcompare b a = option_map CompOpp (SFcompare a b).
Proof.
  destruct a as [sa|sa| |sa ma ea], b as [sb|sb| |sb mb eb]; simpl;
    try reflexivity;
    try (destruct sa; reflexivity);
    try (destruct sb; reflexivity);
    try (destruct sa, sb; reflexivity).
  assert (Hm : Pos.compare_cont Eq mb ma = CompOpp (Pos.compare_cont Eq ma mb))
    by (symmetry; apply (Pos.compare_cont_antisym ma mb Eq)).
  destruct sa, sb; cbn [option_map]; try reflexivity;
    rewrite (Z.compare_antisym ea eb), Hm;
    destruct (ea ?= eb)%Z; cbn [CompOpp]; try reflexivity;
    destruct (Pos.compare_cont Eq ma mb); reflexivity.
Qed.

Lemma SFcompare_refl (a : spec_float) :
  a <> S754_nan -> SFcompare a a = Some Eq.
Proof.
  destruct a as [s|s| |s m e]; simpl; intros H; try congruence.
  - destruct s; reflexivity.
  - rewrite Z.compare_refl.
    assert (Hm : Pos.compare_cont Eq m m = Eq) by apply Pos.compare_refl.
    rewrite Hm. destruct s; reflexivity.
Qed.

Lemma SFcompare_None (a b : spec_float) :
  SFcompare a b = None <-> a = S754_nan \/ b = S754_nan.
Proof.
  destruct a as [sa|sa| |sa ma ea], b as [sb|sb| |sb mb eb]; simpl;
    split; intros H; try discriminate; auto;
    destruct H as [H|H]; discriminate.
Qed.

Lemma is_nan_spec (a : float) : is_nan a = true <-> Prim2SF a = S754_nan.
Proof.
  unfold is_nan. rewrite FloatAxioms.eqb_spec. unfold SFeqb. split.
  - intros H. destruct (Prim2SF a) eqn:E; try reflexivity;
      rewrite SFcompare_refl in H by congruence; discriminate.
  - intros ->. reflexivity.
Qed.

Lemma not_nan_spec (a : float) : is_nan a = false <-> Prim2SF a <> S754_nan.
Proof.
  rewrite <- is_nan_spec. destruct (is_nan a); split; congruence.
Qed.

(** A float that compares with anything is a number. *)
Lemma ltb_not_nan_l (a b : float) : (a <? b) = true -> is_nan a = false.
Proof.
  rewrite FloatAxioms.ltb_spec, not_nan_spec. unfold SFltb. intros H E.
  rewrite E in H. discriminate.
Qed.

Lemma ltb_not_nan_r (a b : float) : (a <? b) = true -> is_nan b = false.
Proof.
  rewrite FloatAxioms.ltb_spec, not_nan_spec. unfold SFltb. intros H E.
  rewrite E in H. destruct (Prim2SF a); discriminate.
Qed.

Lemma leb_not_nan_l (a b : float) : (a <=? b) = true -> is_nan a = false.
Proof.
  rewrite FloatAxioms.leb_spec, not_nan_spec. unfold SFleb. intros H E.
  rewrite E in H. discriminate.
Qed.

Lemma leb_not_nan_r (a b : float) : (a <=? b) = true -> is_nan b = false.
Proof.
  rewrite FloatAxioms.leb_spec, not_nan_spec. unfold SFleb. intros H E.
  rewrite E in H. destruct (Prim2SF a); discriminate.
Qed.

Lemma eqb_refl (a : float) : is_nan a = false -> (a =? a) = true.
Proof.
  unfold is_nan. destruct (a =? a); [reflexivity | discriminate].
Qed.

Lemma leb_refl (a : float) : is_nan a = false -> (a <=? a) = true.
Proof.
  rewrite not_nan_spec, FloatAxioms.leb_spec. intros H. unfold SFleb.
  rewrite SFcompare_refl by assumption. reflexivity.
Qed.

Lemma ltb_leb (a b : float) : (a <? b) = true -> (a <=? b) = true.
Proof.
  rewrite FloatAxioms.ltb_spec, FloatAxioms.leb_spec. unfold SFltb, SFleb.
  destruct (SFcompare (Prim2SF a) (Prim2SF b)) as [[]|]; congruence.
Qed.

(** On numbers, [a < b] is the negation of [b <= a]. *)
Lemma ltb_negb_leb (a b : float) :
  is_nan a = false -> is_nan b = false -> (a <? b) = negb (b <=? a).
Proof.
  rewrite !not_nan_spec, FloatAxioms.ltb_spec, FloatAxioms.leb_spec. intros Ha Hb.
  unfold SFltb, SFleb. rewrite (SFcompare_antisym (Prim2SF a) (Prim2SF b)).
  destruct (SFcompare (Prim2SF a) (Prim2SF b)) as [[]|] eqn:E; try reflexivity.
  apply SFcompare_None in E. tauto.
Qed.

(** [a >= b] excludes [a < b], NaN or not. *)
Lemma leb_true_ltb_false (a b : float) : (b <=? a) = true -> (a <? b) = false.
Proof.
  intros H. rewrite ltb_negb_leb, H; try reflexivity.
  - eapply leb_not_nan_r; eassumption.
  - eapply leb_not_nan_l; eassumption.
Qed.

(** A positive baseline: not [<= 0], and some speed is below a multiple of it. *)
Lemma positive_of_not_leb (b c s : float) :
  (b <=? 0) = false -> (s <? b * c) = true -> (0 <? b) = true.
Proof.
  intros Hle Hlt.
  assert (Hb : is_nan b = false).
  { apply not_nan_spec. intros E.
    apply ltb_not_nan_r in Hlt. apply not_nan_spec in Hlt. apply Hlt.
    rewrite FloatAxioms.mul_spec, E. reflexivity. }
  rewrite ltb_negb_leb, Hle; [reflexivity | reflexivity | assumption].
Qed.

(** Rounding never produces NaN: the shifted mantissa stays non-negative. *)

Lemma shr_1_nonneg (mrs : shr_record) :
  (0 <= shr_m mrs)%Z -> (0 <= shr_m (shr_1 mrs))%Z.
Proof.
  destruct mrs as [m r s]. cbn [shr_m shr_1].
  destruct m as [|[p|p|]|p]; cbn [shr_m]; lia.
Qed.

Lemma iter_shr_1_nonneg (p : positive) :
  forall mrs : shr_record,
    (0 <= shr_m mrs)%Z -> (0 <= shr_m (SpecFloat.iter_pos shr_1 p mrs))%Z.
Proof.
  induction p as [p IH|p IH|]; intros mrs H; cbn [SpecFloat.iter_pos].
  - apply IH, IH, shr_1_nonneg, H.
  - apply IH, IH, H.
  - apply shr_1_nonneg, H.
Qed.

Lemma shr_fexp_nonneg (m e : Z) (l : location) :
  (0 <= m)%Z -> (0 <= shr_m (fst (shr_fexp prec emax m e l)))%Z.
Proof.
  intros Hm. unfold shr_fexp, shr.
  assert (H0 : (0 <= shr_m (shr_record_of_loc m l))%Z)
    by (destruct l as [|[]]; exact Hm).
  destruct (fexp prec emax (Zdigits2 m + e) - e)%Z; cbn [fst]; try exact H0.
  apply iter_shr_1_nonneg, H0.
Qed.

Lemma round_nearest_even_nonneg (m : Z) (l : location) :
  (0 <= m)%Z -> (0 <= round_nearest_even m l)%Z.
Proof.
  intros Hm. destruct l as [|[]]; cbn [round_nearest_even]; try lia.
  destruct (Z.even m); lia.
Qed.

Lemma binary_round_aux_not_nan (sx : bool) (mx ex : Z) (lx : location) :
  (0 <= mx)%Z -> binary_round_aux prec emax sx mx ex lx <> S754_nan.
Proof.
  intros Hm. unfold binary_round_aux.
  pose proof (shr_fexp_nonneg mx ex lx Hm) as H1.
  destruct (shr_fexp prec emax mx ex lx) as [mrs' e']. cbn [fst] in H1.
  pose proof (shr_fexp_nonneg
                (round_nearest_even (shr_m mrs') (loc_of_shr_record mrs'))
                e' loc_Exact
                (round_nearest_even_nonneg _ _ H1)) as H2.
  destruct (shr_fexp prec emax
              (round_nearest_even (shr_m mrs') (loc_of_shr_record mrs')) e'
              loc_Exact) as [mrs'' e'']. cbn [fst] in H2.
  destruct (shr_m mrs'') as [|m|m]; try discriminate; [|lia].
  destruct (e'' <=? emax - prec)%Z; discriminate.
Qed.

Lemma binary_normalize_not_nan (m e : Z) (szero : bool) :
  binary_normalize prec emax m e szero <> S754_nan.
Proof.
  unfold binary_normalize, binary_round.
  destruct m as [|m|m]; try discriminate;
    destruct (shl_align m e (fexp prec emax (Z.pos (digits2_pos m) + e)));
    apply binary_round_aux_not_nan; lia.
Qed.

(** The difference of two numbers is a number unless both are the same
    infinity. *)
Lemma SFsub_not_nan (a b : spec_float) :
  a <> S754_nan -> b <> S754_nan ->
  (forall s, ~ (a = S754_infinity s /\ b = S754_infinity s)) ->
  SFsub prec emax a b <> S754_nan.
Proof.
  intros Ha Hb Hinf.
  destruct a as [sa|sa| |sa ma ea], b as [sb|sb| |sb mb eb];
    cbn [SFsub]; try congruence; try discriminate.
  - destruct sa, sb; discriminate.
  - destruct sa, sb; try discriminate.
    + exfalso. apply (Hinf true). split; reflexivity.
    + exfalso. apply (Hinf false). split; reflexivity.
  - apply binary_normalize_not_nan.
Qed.

(** The difference of a number and a smaller one is a number. *)
Lemma sub_of_ltb_number (a b : float) :
  (a <? b) = true -> is_nan (b - a) = false.
Proof.
  intros Hlt. apply not_nan_spec. rewrite sub_spec. unfold SF64sub.
  pose proof (ltb_not_nan_l _ _ Hlt) as Ha. apply not_nan_spec in Ha.
  pose proof (ltb_not_nan_r _ _ Hlt) as Hb. apply not_nan_spec in Hb.
  apply SFsub_not_nan; try assumption.
  intros s [Eb Ea]. rewrite FloatAxioms.ltb_spec in Hlt. unfold SFltb in Hlt.
  rewrite Ea, Eb in Hlt. destruct s; discriminate.
Qed.

(** Finite numbers: neither NaN nor an infinity. *)
Lemma is_finite_spec (a : float) :
  is_finite a = true ->
  Prim2SF a <> S754_nan /\ forall s, Prim2SF a <> S754_infinity s.
Proof.
  unfold is_finite, is_infinity. intros H.
  apply negb_true_iff, orb_false_iff in H. destruct H as [Hn Hi].
  split; [now apply not_nan_spec|].
  intros s E. rewrite FloatAxioms.eqb_spec, abs_spec, E in Hi.
  discriminate.
Qed.

Lemma sub_of_finite_number (a b : float) :
  is_finite a = true -> is_finite b = true -> is_nan (a - b) = false.
Proof.
  intros Ha Hb. apply is_finite_spec in Ha, Hb.
  apply not_nan_spec. rewrite sub_spec. apply SFsub_not_nan.
  - apply Ha.
  - apply Hb.
  - intros s [E _]. exact (proj2 Ha s E).
Qed.

(** [==] on floats is symmetric, and excluded by [<]. *)
Lemma eqb_sym (a b : float) : (a =? b) = (b =? a).
Proof.
  rewrite !FloatAxioms.eqb_spec. unfold SFeqb.
  rewrite (SFcompare_antisym (Prim2SF a) (Prim2SF b)).
  destruct (SFcompare (Prim2SF a) (Prim2SF b)) as [[]|]; reflexivity.
Qed.

Lemma ltb_eqb_false (a b : float) : (a <? b) = true -> (a =? b) = false.
Proof.
  rewrite FloatAxioms.ltb_spec, FloatAxioms.eqb_spec. unfold SFltb, SFeqb.
  destruct (SFcompare (Prim2SF a) (Prim2SF b)) as [[]|]; congruence.
Qed.

End FloatFacts.

(** ** Lists and slices *)

Module ListFacts.

Lemma slice_nat {A : Type} (l : list A) (a b : nat) :
  slice l (Z.of_nat a) (Z.of_nat b) = firstn (b - a) (skipn a l).
Proof.
  unfold slice, slice_bound.
  destruct (Z.ltb_spec (Z.of_nat a) 0); [lia|].
  destruct (Z.ltb_spec (Z.of_nat b) 0); [lia|].
  set (n := length l).
  replace (Z.min (Z.of_nat n) (Z.of_nat a)) with (Z.of_nat (Nat.min n a)) by lia.
  replace (Z.min (Z.of_nat n) (Z.of_nat b)) with (Z.of_nat (Nat.min n b)) by lia.
  rewrite Nat2Z.id.
  replace (Z.to_nat (Z.of_nat (Nat.min n b) - Z.of_nat (Nat.min n a)))
    with (Nat.min n b - Nat.min n a)%nat by lia.
  destruct (Nat.le_gt_cases n a) as [Ha|Ha].
  - rewrite !skipn_all2 by (fold n; lia). now rewrite !firstn_nil.
  - rewrite (Nat.min_r n a) by lia.
    destruct (Nat.le_gt_cases n b) as [Hb|Hb].
    + rewrite (Nat.min_l n b) by lia.
      rewrite !firstn_all2; try reflexivity; rewrite length_skipn; fold n; lia.
    + rewrite (Nat.min_r n b) by lia. reflexivity.
Qed.

Lemma slice_prefix {A : Type} (l : list A) (n : Z) :
  (0 <= n)%Z -> slice l 0 n = firstn (Z.to_nat n) l.
Proof.
  intros Hn. rewrite <- (Z2Nat.id n) at 1 by assumption.
  change 0%Z with (Z.of_nat 0). rewrite slice_nat. simpl. f_equal. lia.
Qed.

Lemma getitem_nat {A : Type} (l : list A) (j : nat) (a : A) :
  nth_error l j = Some a -> getitem l (Z.of_nat j) = Ok a.
Proof.
  intros H. unfold getitem.
  destruct (Z.ltb_spec (Z.of_nat j) 0); [lia|].
  destruct (Z.ltb_spec (Z.of_nat j) 0); [lia|].
  now rewrite Nat2Z.id, H.
Qed.

End ListFacts.

(** ** The threshold detector *)

Module ANTFacts.
Import rep_detector ant_calculator Spec ListFacts.
Local Open Scope nat_scope.

Section WithNumpy.
Context `{NP : Numpy}.

Lemma length_smooth (data : list float) (w : Z) :
  length (_smooth data w) = length data.
Proof.
  unfold _smooth.
  destruct ((w <=? 1)%Z || (Z.of_nat (length data) <? w)%Z); [reflexivity|].
  unfold range. now rewrite length_map, length_seq.
Qed.

End WithNumpy.

(** Runs of True flags. *)

Lemma run_at_short (flags : list bool) (k j : nat) :
  length flags < k -> ~ run_at flags k j.
Proof. intros H [Hlen _]. lia. Qed.

Lemma nth_repeat_app_lt (c i : nat) (rest : list bool) :
  i < c -> nth i (repeat true c ++ rest) false = true.
Proof.
  intros H. rewrite app_nth1 by (rewrite repeat_length; lia).
  apply nth_repeat_lt. assumption.
Qed.

Lemma nth_repeat_app_ge (c i : nat) (rest : list bool) :
  c <= i -> nth i (repeat true c ++ rest) false = nth (i - c) rest false.
Proof.
  intros H. rewrite app_nth2 by (rewrite repeat_length; lia).
  now rewrite repeat_length.
Qed.

(** A False flag after [c < k] True ones: every run of [k] lies behind it. *)
Lemma run_at_after_false (c k j : nat) (rest : list bool) :
  c < k ->
  run_at (repeat true c ++ false :: rest) k j <->
  c + 1 <= j /\ run_at rest k (j - (c + 1)).
Proof.
  intros Hc. unfold run_at. rewrite length_app, repeat_length. simpl length.
  split.
  - intros [Hlen Hall].
    assert (Hj : c + 1 <= j).
    { destruct (Nat.le_gt_cases (c + 1) j) as [|Hlt]; [assumption|].
      specialize (Hall c ltac:(lia)).
      rewrite nth_repeat_app_ge, Nat.sub_diag in Hall by lia. discriminate. }
    repeat split; try lia.
    intros i Hi. specialize (Hall (i + (c + 1)) ltac:(lia)).
    rewrite nth_repeat_app_ge in Hall by lia.
    replace (i + (c + 1) - c) with (S i) in Hall by lia. exact Hall.
  - intros [Hj [Hlen Hall]]. split; [lia|].
    intros i Hi. rewrite nth_repeat_app_ge by lia.
    specialize (Hall (i - (c + 1)) ltac:(lia)).
    replace (i - c) with (S (i - (c + 1))) by lia. exact Hall.
Qed.

Lemma repeat_true_snoc (c : nat) (rest : list bool) :
  repeat true c ++ true :: rest = repeat true (S c) ++ rest.
Proof.
  induction c as [|c IH]; simpl; [reflexivity|]. now rewrite IH.
Qed.

(** The scan, entered with [c < k] True flags just seen, finds the start of
    the first run of [k] in those flags followed by the rest. *)
Lemma find_sustained_drop_from_spec (rest : list bool) (k : Z) :
  (1 <= k)%Z ->
  forall (i c : Z), (0 <= c < k)%Z ->
  match find_sustained_drop_from rest k i c with
  | Some r =>
    exists j : nat,
      r = (i - c + Z.of_nat j)%Z /\
      first_run_begins_at (repeat true (Z.to_nat c) ++ rest) (Z.to_nat k) j
  | None =>
    forall j, ~ run_at (repeat true (Z.to_nat c) ++ rest) (Z.to_nat k) j
  end.
Proof.
  intros Hk. induction rest as [|b rest IH]; intros i c Hc; simpl.
  - intros j. apply run_at_short. rewrite app_nil_r, repeat_length. lia.
  - destruct b.
    + destruct (Z.geb_spec (c + 1) k) as [Hge|Hlt].
      * exists 0%nat. split; [lia|]. repeat split.
        -- rewrite length_app, repeat_length. simpl. lia.
        -- intros n Hn. destruct (Nat.lt_ge_cases n (Z.to_nat c)).
           ++ now apply nth_repeat_app_lt.
           ++ rewrite nth_repeat_app_ge by assumption.
              replace (n - Z.to_nat c) with 0%nat by lia. reflexivity.
        -- now left.
        -- intros j' Hj'. lia.
      * specialize (IH (i + 1)%Z (c + 1)%Z ltac:(lia)).
        rewrite repeat_true_snoc.
        replace (S (Z.to_nat c)) with (Z.to_nat (c + 1)) by lia.
        destruct (find_sustained_drop_from rest k (i + 1) (c + 1)).
        -- destruct IH as [j [-> Hj]]. exists j. split; [lia | exact Hj].
        -- exact IH.
    + specialize (IH (i + 1)%Z 0%Z ltac:(lia)). simpl in IH.
      assert (Hck : Z.to_nat c < Z.to_nat k) by lia.
      destruct (find_sustained_drop_from rest k (i + 1) 0).
      * destruct IH as [j [-> [Hrun [Hprev Hmin]]]].
        exists (Z.to_nat c + 1 + j)%nat. split; [lia|]. repeat split.
        -- apply (proj2 (run_at_after_false _ _ _ rest Hck)). split; [lia|].
           replace (Z.to_nat c + 1 + j - (Z.to_nat c + 1)) with j by lia.
           exact Hrun.
        -- apply (proj2 (run_at_after_false _ _ _ rest Hck)). split; [lia|].
           replace (Z.to_nat c + 1 + j - (Z.to_nat c + 1)) with j by lia.
           exact Hrun.
        -- right. rewrite nth_repeat_app_ge by lia.
           destruct j as [|j0].
           ++ replace (Z.to_nat c + 1 + 0 - 1 - Z.to_nat c) with 0%nat by lia.
              reflexivity.
           ++ destruct Hprev as [Hprev|Hprev]; [discriminate|].
              replace (Z.to_nat c + 1 + S j0 - 1 - Z.to_nat c) with (S (S j0 - 1)) by lia.
              exact Hprev.
        -- intros j' Hj' Hrun'.
           apply (proj1 (run_at_after_false _ _ _ rest Hck)) in Hrun'.
           destruct Hrun' as [Hge Hrun'].
           apply (Hmin (j' - (Z.to_nat c + 1))); [lia | exact Hrun'].
      * intros j Hrun.
        apply (proj1 (run_at_after_false _ _ _ rest Hck)) in Hrun.
        destruct Hrun as [_ Hrun]. exact (IH _ Hrun).
Qed.

Lemma find_sustained_drop_spec (flags : list bool) (k : Z) :
  (1 <= k)%Z ->
  match _find_sustained_drop flags k with
  | Some r => exists j : nat,
      r = Z.of_nat j /\ first_run_begins_at flags (Z.to_nat k) j
  | None => forall j, ~ run_at flags (Z.to_nat k) j
  end.
Proof.
  intros Hk. unfold _find_sustained_drop.
  pose proof (find_sustained_drop_from_spec flags k Hk 0 0 ltac:(lia)) as H.
  simpl in H. destruct (find_sustained_drop_from flags k 0 0); [|exact H].
  destruct H as [j [-> Hj]]. exists j. split; [lia | exact Hj].
Qed.

Lemma first_run_unique (flags : list bool) (k j j' : nat) :
  first_run_begins_at flags k j -> first_run_begins_at flags k j' -> j = j'.
Proof.
  intros [Hr [_ Hm]] [Hr' [_ Hm']].
  destruct (Nat.lt_trichotomy j j') as [H|[H|H]]; [|assumption|].
  - exfalso. exact (Hm' _ H Hr).
  - exfalso. exact (Hm _ H Hr').
Qed.

End ANTFacts.

Module CalculateFacts.
Import rep_detector ant_calculator Spec ListFacts ANTFacts FloatFacts.

Lemma init_Ok (br : Z) (d : float) (w sc : Z) (self : ANTCalculator) :
  ANTCalculator_init br d w sc = Ok self ->
  valid_configuration br d w sc /\ self = calculator br d w sc.
Proof.
  unfold ANTCalculator_init, valid_configuration, calculator.
  destruct (Z.ltb_spec br 3); [discriminate|].
  destruct (0 <? d); [|discriminate].
  destruct (d <? 1); [|discriminate]. cbn [andb negb].
  destruct (Z.ltb_spec w 1); [discriminate|].
  destruct (Z.ltb_spec sc 1); [discriminate|].
  intros [= <-]. repeat split; assumption.
Qed.

Lemma init_valid (br : Z) (d : float) (w sc : Z) :
  valid_configuration br d w sc ->
  ANTCalculator_init br d w sc = Ok (calculator br d w sc).
Proof.
  intros (Hbr & (Hd0 & Hd1) & Hw & Hsc). unfold ANTCalculator_init.
  destruct (Z.ltb_spec br 3); [lia|].
  rewrite Hd0, Hd1. cbn [andb negb].
  destruct (Z.ltb_spec w 1); [lia|].
  destruct (Z.ltb_spec sc 1); [lia|]. reflexivity.
Qed.

Section WithNumpy.
Context `{NP : Numpy}.

(** What [calculate] returns once both gates are passed, by the outcome of
    the scan. *)
Lemma calculate_past_gates (self : ANTCalculator) (reps : list DetectedRep) :
  let valid := filter is_valid reps in
  let speeds := map peak_speed valid in
  let baseline := np_mean (slice speeds 0 (baseline_reps self)) in
  let smoothed := _smooth speeds (smoothing_window self) in
  let flags := map (fun s => s <? baseline * (1 - drop_threshold self)) smoothed in
  (1 <= sustain_count self)%Z ->
  (baseline_reps self + sustain_count self <= Z.of_nat (length valid))%Z ->
  (baseline <=? 0) = false ->
  match _find_sustained_drop flags (sustain_count self) with
  | Some idx =>
    exists (j : nat) (rep : DetectedRep) (s : float),
      idx = Z.of_nat j /\
      first_run_begins_at flags (Z.to_nat (sustain_count self)) j /\
      nth_error valid j = Some rep /\
      nth_error smoothed j = Some s /\
      calculate self reps =
        Ok {| ant_reached := true;
              ant_rep_index := Some idx;
              ant_timestamp_seconds := Some (start_time rep);
              baseline_speed := baseline;
              drop_percent_at_ant := Some ((baseline - s) / baseline);
              smoothed_speeds := smoothed;
              threshold_flags := flags |}
  | None =>
    (forall j, ~ run_at flags (Z.to_nat (sustain_count self)) j) /\
    calculate self reps =
      Ok {| ant_reached := false;
            ant_rep_index := None;
            ant_timestamp_seconds := None;
            baseline_speed := baseline;
            drop_percent_at_ant := None;
            smoothed_speeds := smoothed;
            threshold_flags := flags |}
  end.
Proof.
  intros valid speeds baseline smoothed flags Hsc Hlen Hb.
  pose proof (find_sustained_drop_spec flags (sustain_count self) Hsc) as Hscan.
  unfold calculate. fold valid.
  destruct (Z.ltb_spec (Z.of_nat (length valid))
              (baseline_reps self + sustain_count self)); [lia|].
  fold speeds. fold baseline. rewrite Hb. fold smoothed. fold flags.
  destruct (_find_sustained_drop flags (sustain_count self)) as [idx|].
  - destruct Hscan as [j [-> Hj]].
    assert (Hjlen : (j < length valid)%nat).
    { destruct Hj as [[Hjk _] _]. unfold flags, smoothed in Hjk.
      rewrite length_map, length_smooth in Hjk. unfold speeds in Hjk.
      rewrite length_map in Hjk. lia. }
    destruct (nth_error valid j) as [rep|] eqn:Erep;
      [|apply nth_error_None in Erep; lia].
    destruct (nth_error smoothed j) as [s|] eqn:Es.
    2:{ apply nth_error_None in Es. unfold smoothed in Es.
        rewrite length_smooth in Es. unfold speeds in Es.
        rewrite length_map in Es. lia. }
    exists j, rep, s. repeat split; try assumption; try apply Hj.
    rewrite (getitem_nat _ _ _ Erep). cbn [bind].
    rewrite (getitem_nat _ _ _ Es). reflexivity.
  - split; [exact Hscan | reflexivity].
Qed.

(** A calculator that was constructed never raises. *)
Lemma calculate_total (self : ANTCalculator) (reps : list DetectedRep) :
  (1 <= sustain_count self)%Z ->
  exists res, calculate self reps = Ok res.
Proof.
  intros Hsc.
  destruct (Z.ltb_spec (Z.of_nat (length (filter is_valid reps)))
              (baseline_reps self + sustain_count self)) as [Hlt|Hge].
  - exists insufficient_data. unfold calculate.
    destruct (Z.ltb_spec (Z.of_nat (length (filter is_valid reps)))
                (baseline_reps self + sustain_count self)); [reflexivity|lia].
  - destruct (np_mean (slice (map peak_speed (filter is_valid reps)) 0
                         (baseline_reps self)) <=? 0) eqn:Hb.
    + eexists. unfold calculate.
      destruct (Z.ltb_spec (Z.of_nat (length (filter is_valid reps)))
                  (baseline_reps self + sustain_count self)); [lia|].
      rewrite Hb. reflexivity.
    + pose proof (calculate_past_gates self reps Hsc Hge Hb) as H.
      cbv zeta in H.
      destruct (_find_sustained_drop _ _).
      * destruct H as (j & rep & s & _ & _ & _ & _ & H). eexists; exact H.
      * destruct H as [_ H]. eexists; exact H.
Qed.

End WithNumpy.

End CalculateFacts.

(** ** Sorted lists *)

Module SortedFacts.
Local Open Scope nat_scope.

Lemma Forall_removelast {A : Type} (P : A -> Prop) (l : list A) :
  Forall P l -> Forall P (removelast l).
Proof.
  induction 1 as [|a l Ha Hl IH]; [constructor|].
  simpl. destruct l; [constructor|]. constructor; assumption.
Qed.

Lemma StronglySorted_removelast {A : Type} (R : A -> A -> Prop) (l : list A) :
  StronglySorted R l -> StronglySorted R (removelast l).
Proof.
  induction 1 as [|a l Hl IH Ha]; [constructor|].
  simpl. destruct l; [constructor|].
  constructor; [exact IH|]. apply (Forall_removelast _ (a0 :: l)). exact Ha.
Qed.

Lemma StronglySorted_snoc {A : Type} (R : A -> A -> Prop) (l : list A) (x : A) :
  StronglySorted R l -> Forall (fun a => R a x) l -> StronglySorted R (l ++ [x]).
Proof.
  induction 1 as [|a l Hl IH Ha]; intros Hx; simpl.
  - constructor; constructor.
  - inversion Hx; subst. constructor; [apply IH; assumption|].
    apply Forall_app. split; [assumption|]. constructor; [assumption|constructor].
Qed.

Lemma StronglySorted_filter {A : Type} (R : A -> A -> Prop) (f : A -> bool)
    (l : list A) :
  StronglySorted R l -> StronglySorted R (filter f l).
Proof.
  induction 1 as [|a l Hl IH Ha]; simpl; [constructor|].
  destruct (f a); [|exact IH].
  constructor; [exact IH|].
  rewrite Forall_forall in *. intros b Hb. apply Ha.
  apply filter_In in Hb. apply Hb.
Qed.

Lemma StronglySorted_nth {A : Type} (R : A -> A -> Prop) (l : list A) (d : A) :
  StronglySorted R l ->
  forall i j, i < j < length l -> R (nth i l d) (nth j l d).
Proof.
  induction 1 as [|a l Hl IH Ha]; intros i j Hij; simpl in Hij; [lia|].
  destruct j as [|j]; [lia|]. destruct i as [|i]; simpl.
  - rewrite Forall_forall in Ha. apply Ha. apply nth_In. lia.
  - apply IH. lia.
Qed.

Lemma StronglySorted_map_filter {A B : Type} (R : B -> B -> Prop) (g : A -> B)
    (f : A -> bool) (l : list A) :
  StronglySorted R (map g l) -> StronglySorted R (map g (filter f l)).
Proof.
  induction l as [|a l IH]; simpl; intros H; [constructor|].
  inversion H as [|? ? Hl Ha]; subst.
  destruct (f a); [|apply IH; exact Hl].
  simpl. constructor; [apply IH; exact Hl|].
  rewrite Forall_forall in *. intros b Hb. apply Ha.
  apply in_map_iff in Hb. destruct Hb as (c & <- & Hc).
  apply in_map. apply filter_In in Hc. apply Hc.
Qed.

(** The consecutive pairs of a list. *)
Lemma nth_error_consecutive {A : Type} (l : list A) (d : A) (i : nat) :
  S i < length l ->
  nth_error (combine l (tl l)) i = Some (nth i l d, nth (S i) l d).
Proof.
  revert i. induction l as [|a l IH]; intros i Hi; simpl in Hi; [lia|].
  destruct l as [|b l]; simpl in Hi; [lia|].
  destruct i as [|i]; [reflexivity|].
  change (nth_error (combine (b :: l) (tl (b :: l))) i
          = Some (nth i (b :: l) d, nth (S i) (b :: l) d)).
  apply IH. simpl. lia.
Qed.

Lemma length_consecutive {A : Type} (l : list A) :
  length (combine l (tl l)) = length l - 1.
Proof.
  rewrite length_combine. destruct l; cbn [tl length]; lia.
Qed.

End SortedFacts.

(** ** The rep segmentation engine *)

Module RepFacts.
Import rep_detector Spec ListFacts SortedFacts FloatFacts.
Local Open Scope nat_scope.

Lemma find_peaks_step_below (signal : list float) (min_distance i : nat)
    (peaks : list nat) :
  peaks_below i peaks ->
  peaks_below (S i) (find_peaks_step signal min_distance peaks i).
Proof.
  intros [Hs Hb].
  assert (Hweak : Forall (fun p => p < S i) peaks).
  { eapply Forall_impl; [|exact Hb]. simpl. intros; lia. }
  assert (Hsnoc : forall l, StronglySorted lt l -> Forall (fun p => p < i) l ->
                            peaks_below (S i) (l ++ [i])).
  { intros l Hl Hli. split.
    - apply StronglySorted_snoc; assumption.
    - apply Forall_app. split.
      + eapply Forall_impl; [|exact Hli]. simpl. intros; lia.
      + constructor; [lia|constructor]. }
  unfold find_peaks_step.
  destruct (_ && _); [|split; assumption].
  destruct (_ || _); [apply Hsnoc; assumption|].
  destruct (fgtb _ _); [|split; assumption].
  apply Hsnoc.
  - apply StronglySorted_removelast. exact Hs.
  - apply Forall_removelast. exact Hb.
Qed.

Lemma fold_find_peaks_below (signal : list float) (min_distance : nat) :
  forall (n a : nat) (peaks : list nat),
    peaks_below a peaks ->
    peaks_below (a + n)
      (fold_left (find_peaks_step signal min_distance) (seq a n) peaks).
Proof.
  induction n as [|n IH]; intros a peaks H; simpl.
  - now rewrite Nat.add_0_r.
  - replace (a + S n) with (S a + n) by lia.
    apply IH. apply find_peaks_step_below. exact H.
Qed.

(** The peaks found are in increasing order and are positions of the signal
    other than its last. *)
Lemma find_peaks_below (signal : list float) (min_distance : nat) :
  peaks_below (length signal - 1) (_find_peaks signal min_distance) \/
  _find_peaks signal min_distance = [].
Proof.
  unfold _find_peaks.
  destruct (Nat.le_gt_cases (length signal) 1) as [Hle|Hgt].
  - right. replace (length signal - 1 - 1) with 0 by lia. reflexivity.
  - left. replace (length signal - 1) with (1 + (length signal - 1 - 1)) at 1 by lia.
    apply fold_find_peaks_below. split; constructor.
Qed.

Lemma find_peaks_sorted (signal : list float) (min_distance : nat) :
  peaks_below (length signal) (_find_peaks signal min_distance).
Proof.
  destruct (find_peaks_below signal min_distance) as [[Hs Hb]| ->].
  - split; [exact Hs|]. eapply Forall_impl; [|exact Hb]. simpl. intros; lia.
  - split; constructor.
Qed.


Section WithNumpy.
Context `{NP : Numpy}.

Lemma length_pad_edge (a : list float) (before after : nat) :
  a <> [] -> length (np_pad_edge a before after) = before + length a + after.
Proof.
  destruct a as [|x a]; [congruence|]. intros _. unfold np_pad_edge.
  rewrite !length_app, !repeat_length. lia.
Qed.

Lemma length_smooth_signal (signal : list float) (window : nat) :
  length (_smooth_signal signal window) = length signal.
Proof.
  unfold _smooth_signal.
  destruct (Nat.leb_spec window 1); [reflexivity|].
  destruct (Nat.ltb_spec (length signal) window); [reflexivity|].
  cbn [orb]. unfold np_convolve_valid, range.
  rewrite length_map, length_seq, repeat_length, length_pad_edge.
  - pose proof (Nat.div_lt window 2 ltac:(lia) ltac:(lia)). lia.
  - destruct signal; simpl in *; [lia|congruence].
Qed.

(** Over peaks in increasing order, the segmentation skips nothing: it builds
    one rep per pair of consecutive peaks. *)
Lemma segment_reps_consecutive (self : RepDetector)
    (samples : list schemas.PositionSample) (y_smooth : list float)
    (valleys : list nat) :
  forall peaks : list nat,
    peaks_below (length samples) peaks ->
    _segment_reps self (map schemas.t samples) (map schemas.y samples)
                  y_smooth peaks valleys samples
    = map (fun p => rep_between self samples (fst p) (snd p))
          (combine peaks (tl peaks)).
Proof.
  induction peaks as [|a peaks IH]; intros [Hs Hb]; [reflexivity|].
  destruct peaks as [|b rest]; [reflexivity|].
  inversion Hs as [|? ? Hs' Ha]; subst.
  inversion Hb as [|? ? Hba Hb']; subst.
  assert (Hab : a < b) by (inversion Ha; assumption).
  assert (Hblen : b < length samples) by (inversion Hb'; assumption).
  cbn [_segment_reps].
  replace (Z.of_nat b + 1)%Z with (Z.of_nat (b + 1)) by lia.
  rewrite !slice_nat.
  assert (Hlen : length (firstn (b + 1 - a) (skipn a (map schemas.y samples)))
                 = b + 1 - a).
  { rewrite length_firstn, length_skipn, length_map. lia. }
  destruct (Nat.ltb_spec
              (length (firstn (b + 1 - a) (skipn a (map schemas.y samples)))) 2);
    [lia|].
  cbn [combine tl map fst snd]. f_equal.
  - unfold rep_between.
    replace (Z.of_nat b + 1)%Z with (Z.of_nat (b + 1)) by lia.
    rewrite !slice_nat. reflexivity.
  - apply (IH (conj Hs' Hb')).
Qed.

(** The structure of the output of [detect_reps]: one rep per pair of
    consecutive peaks of an increasing list of positions of the kept samples,
    which is the list of detected peaks whenever a rep is returned. *)
Lemma detect_reps_structure (self : RepDetector)
    (samples : list schemas.PositionSample) :
  let valid := valid_samples_of self samples in
  exists peaks : list nat,
    peaks_below (length valid) peaks /\
    detect_reps self samples
    = map (fun p => rep_between self valid (fst p) (snd p))
          (combine peaks (tl peaks)) /\
    (detect_reps self samples <> [] ->
     peaks = peaks_of self samples /\
     MIN_SAMPLES_BETWEEN_PEAKS * 2 <= length valid).
Proof.
  intros valid.
  assert (Hnil : detect_reps self samples = [] ->
                 exists peaks : list nat,
                   peaks_below (length valid) peaks /\
                   detect_reps self samples
                   = map (fun p => rep_between self valid (fst p) (snd p))
                         (combine peaks (tl peaks)) /\
                   (detect_reps self samples <> [] ->
                    peaks = peaks_of self samples /\
                    MIN_SAMPLES_BETWEEN_PEAKS * 2 <= length valid)).
  { intros E. exists []. split; [split; constructor|].
    split; [exact E|]. intros H. congruence. }
  unfold detect_reps in *. fold valid in Hnil |- *.
  destruct (Nat.ltb_spec (length samples) (MIN_SAMPLES_BETWEEN_PEAKS * 2));
    [apply Hnil; reflexivity|].
  destruct (Nat.ltb_spec (length valid) (MIN_SAMPLES_BETWEEN_PEAKS * 2));
    [apply Hnil; reflexivity|].
  destruct (_ && _); [apply Hnil; reflexivity|].
  exists (peaks_of self samples).
  assert (Hp : peaks_below (length valid) (peaks_of self samples)).
  { unfold peaks_of. fold valid.
    pose proof (find_peaks_sorted
                  (map opp (_smooth_signal (map schemas.y valid)
                                           VELOCITY_SMOOTHING_WINDOW))
                  MIN_SAMPLES_BETWEEN_PEAKS) as H'.
    now rewrite length_map, length_smooth_signal, length_map in H'. }
  split; [exact Hp|]. split.
  - apply segment_reps_consecutive. exact Hp.
  - intros _. split; [reflexivity | assumption].
Qed.

(** The rep at position [i] of the output spans peaks [i] and [i + 1]. *)
Lemma detect_reps_nth (self : RepDetector)
    (samples : list schemas.PositionSample) (i : nat) (r : DetectedRep) :
  let valid := valid_samples_of self samples in
  nth_error (detect_reps self samples) i = Some r ->
  exists a b : nat,
    r = rep_between self valid a b /\
    a < b < length valid /\
    nth_error (peaks_of self samples) i = Some a /\
    nth_error (peaks_of self samples) (S i) = Some b /\
    MIN_SAMPLES_BETWEEN_PEAKS * 2 <= length valid.
Proof.
  intros valid Hr.
  destruct (detect_reps_structure self samples) as (peaks & [Hs Hb] & Heq & Hne).
  fold valid in Hs, Hb, Heq, Hne.
  assert (Hnonempty : detect_reps self samples <> []).
  { intros E. rewrite E in Hr. destruct i; discriminate. }
  destruct (Hne Hnonempty) as [-> Hlen]. clear Hne.
  rewrite Heq in Hr. rewrite nth_error_map in Hr.
  destruct (nth_error (combine _ _) i) as [[a b]|] eqn:Ep; [|discriminate].
  cbn [option_map fst snd] in Hr.
  assert (Hi : S i < length (peaks_of self samples)).
  { assert (H' : i < length (combine (peaks_of self samples)
                                     (tl (peaks_of self samples))))
      by (apply nth_error_Some; congruence).
    rewrite length_consecutive in H'. lia. }
  rewrite (nth_error_consecutive _ 0 i Hi) in Ep.
  exists a, b. split; [congruence|].
  assert (Ea : nth i (peaks_of self samples) 0 = a) by congruence.
  assert (Eb : nth (S i) (peaks_of self samples) 0 = b) by congruence.
  repeat split.
  - rewrite <- Ea, <- Eb. apply StronglySorted_nth; [exact Hs | lia].
  - rewrite <- Eb. rewrite Forall_forall in Hb. apply Hb. apply nth_In. exact Hi.
  - rewrite <- Ea. apply nth_error_nth'. lia.
  - rewrite <- Eb. apply nth_error_nth'. lia.
  - exact Hlen.
Qed.

End WithNumpy.

End RepFacts.

(** ** The streaming rep segmenter *)

Module StreamingFacts.
Import rep_detector Spec ListFacts SortedFacts FloatFacts RepFacts.

Lemma never_evicts_prefix (buf : float) (l : list schemas.PositionSample)
    (s : schemas.PositionSample) :
  never_evicts buf (l ++ [s]) -> never_evicts buf l.
Proof.
  destruct l as [|s0 l]; [constructor|]. cbn [never_evicts app].
  intros H. change (s0 :: l ++ [s]) with ((s0 :: l) ++ [s]) in H.
  apply Forall_app in H. apply H.
Qed.

Lemma never_evicts_last (buf : float) (l : list schemas.PositionSample)
    (s s0 : schemas.PositionSample) :
  never_evicts buf (l ++ [s]) -> hd_error (l ++ [s]) = Some s0 ->
  (schemas.t s0 <? schemas.t s - buf) = false.
Proof.
  intros H Hhd.
  destruct (l ++ [s]) as [|s1 rest] eqn:E; [discriminate|].
  cbn [never_evicts] in H. cbn [hd_error] in Hhd.
  assert (Es : s1 = s0) by congruence. subst s1.
  rewrite Forall_forall in H. apply H. rewrite <- E.
  apply in_or_app. right. now left.
Qed.

Lemma key_in_app (k : time_key) (old new : list DetectedRep) :
  has_key (old ++ new) k = has_key old k || has_key new k.
Proof. unfold has_key, key_in. now rewrite map_app, existsb_app. Qed.

Lemma has_key_In (reps : list DetectedRep) (r : DetectedRep) :
  In r reps -> key_eqb (key_of r) (key_of r) = true ->
  has_key reps (key_of r) = true.
Proof.
  intros Hin Hrefl. unfold has_key, key_in. apply existsb_exists.
  exists (key_of r). split; [now apply in_map | exact Hrefl].
Qed.

Section WithNumpy.
Context `{NP : Numpy}.

(** One [add_sample] that evicts nothing: the buffer grows by the sample and
    the log by the reps of the new buffer whose key it did not hold. *)
Lemma add_sample_no_eviction (self : StreamingRepDetector)
    (s : schemas.PositionSample) :
  never_evicts (buffer_seconds self) (samples self ++ [s]) ->
  let self' := fst (add_sample self s) in
  samples self' = samples self ++ [s] /\
  detector self' = detector self /\
  buffer_seconds self' = buffer_seconds self /\
  detected_reps self' =
    detected_reps self
    ++ filter (fun rep => negb (has_key (detected_reps self) (key_of rep)))
              (detect_reps (detector self) (samples self ++ [s])).
Proof.
  intros Hnever. unfold add_sample.
  destruct (samples self ++ [s]) as [|s0 rest] eqn:E.
  { destruct (samples self); discriminate. }
  assert (Hlast : last (s0 :: rest) s0 = s).
  { rewrite <- E. apply last_last. }
  rewrite Hlast.
  assert (Hkeep : (schemas.t s0 <? schemas.t s - buffer_seconds self) = false).
  { apply (never_evicts_last _ (samples self) s s0).
    - rewrite E. exact Hnever.
    - rewrite E. reflexivity. }
  cbn [prune]. rewrite Hkeep. cbn [fst samples detector buffer_seconds
                                    detected_reps].
  repeat split; reflexivity.
Qed.

Lemma feed_snoc (self : StreamingRepDetector)
    (l : list schemas.PositionSample) (s : schemas.PositionSample) :
  feed self (l ++ [s]) = fst (add_sample (feed self l) s).
Proof. unfold feed. now rewrite fold_left_app. Qed.

(** Feeding a sequence that is never evicted from: the buffer is the
    sequence, and every rep of the log was detected on a prefix of it. *)
Lemma feed_no_eviction (mt : schemas.MovementType) (buf mc : float) :
  forall l : list schemas.PositionSample,
    never_evicts buf l ->
    let st := feed (StreamingRepDetector_init mt buf mc) l in
    samples st = l /\
    detector st = RepDetector_init mt mc /\
    buffer_seconds st = buf /\
    (forall r, In r (detected_reps st) ->
       exists prefix rest,
         l = prefix ++ rest /\
         In r (detect_reps (RepDetector_init mt mc) prefix)).
Proof.
  induction l as [|s l IH] using rev_ind; intros Hnever.
  - cbn. repeat split. intros r [].
  - specialize (IH (never_evicts_prefix _ _ _ Hnever)).
    cbv zeta in IH. destruct IH as (Hs & Hd & Hb & Hlog).
    cbv zeta. rewrite feed_snoc.
    pose proof (add_sample_no_eviction
                  (feed (StreamingRepDetector_init mt buf mc) l) s) as Hadd.
    rewrite Hb, Hs in Hadd. specialize (Hadd Hnever). cbv zeta in Hadd.
    destruct Hadd as (Hs' & Hd' & Hb' & Hlog').
    rewrite Hs', Hd', Hb', Hlog', Hd. repeat split; try assumption.
    intros r Hr. apply in_app_or in Hr. destruct Hr as [Hr|Hr].
    + destruct (Hlog r Hr) as (p & q & -> & Hin).
      exists p, (q ++ [s]). split; [now rewrite app_assoc | exact Hin].
    + apply filter_In in Hr. destruct Hr as [Hr _].
      exists (l ++ [s]), []. split; [now rewrite app_nil_r | exact Hr].
Qed.

(** The last [add_sample] puts the key of every rep of the whole sequence in
    the log. *)
Lemma feed_holds_batch_keys (mt : schemas.MovementType) (buf mc : float)
    (l : list schemas.PositionSample) (r : DetectedRep) :
  never_evicts buf l ->
  In r (detect_reps (RepDetector_init mt mc) l) ->
  key_eqb (key_of r) (key_of r) = true ->
  has_key (detected_reps (feed (StreamingRepDetector_init mt buf mc) l))
          (key_of r) = true.
Proof.
  destruct l as [|s l _] using rev_ind; intros Hnever Hr Hrefl.
  - cbn in Hr. contradiction.
  - pose proof (feed_no_eviction mt buf mc l (never_evicts_prefix _ _ _ Hnever))
      as H. cbv zeta in H. destruct H as (Hs & Hd & Hb & _).
    rewrite feed_snoc.
    pose proof (add_sample_no_eviction
                  (feed (StreamingRepDetector_init mt buf mc) l) s) as Hadd.
    rewrite Hb, Hs in Hadd. specialize (Hadd Hnever). cbv zeta in Hadd.
    destruct Hadd as (_ & _ & _ & Hlog). rewrite Hlog, Hd, key_in_app.
    destruct (has_key (detected_reps
                         (feed (StreamingRepDetector_init mt buf mc) l))
                      (key_of r)) eqn:Eold; [reflexivity|].
    cbn [orb]. apply has_key_In; [|exact Hrefl].
    apply filter_In. split; [exact Hr|]. now rewrite Eold.
Qed.

End WithNumpy.

End StreamingFacts.

(** ** The two methods over the object store *)

Module StatefulFacts.
Import heap rep_detector ant_calculator Spec.
Local Open Scope nat_scope.

Lemma nth_error_last {A : Type} (h : list A) (o : A) :
  nth_error (h ++ [o]) (length h) = Some o.
Proof. rewrite nth_error_app2 by lia. now rewrite Nat.sub_diag. Qed.

Lemma put_last (h : Heap) (o o' : Object) :
  put (length h) o' (h ++ [o]) = Returns tt (h ++ [o']).
Proof.
  unfold put. rewrite length_app. cbn [length].
  destruct (Nat.ltb_spec (length h) (length h + 1)); [|lia].
  rewrite firstn_app, Nat.sub_diag, firstn_all. cbn [firstn].
  rewrite app_nil_r.
  rewrite skipn_all2 by (rewrite length_app; cbn; lia). reflexivity.
Qed.

Lemma get_int_list_at (h : Heap) (r : nat) (l : list nat) :
  nth_error h r = Some (IntList l) -> get_int_list r h = Returns l h.
Proof. unfold get_int_list. now intros ->. Qed.

Lemma get_rep_list_at (h : Heap) (r : nat) (l : list DetectedRep) :
  nth_error h r = Some (RepList l) -> get_rep_list r h = Returns l h.
Proof. unfold get_rep_list. now intros ->. Qed.

Lemma get_float_array_at (h : Heap) (r : nat) (l : list float) :
  nth_error h r = Some (FloatArray l) -> get_float_array r h = Returns l h.
Proof. unfold get_float_array. now intros ->. Qed.

Lemma get_detector_at (h : Heap) (r : nat) (d : RepDetector) :
  nth_error h r = Some (Detector d) -> get_detector r h = Returns d h.
Proof. unfold get_detector. now intros ->. Qed.

Section WithNumpy.
Context `{NP : Numpy}.

Lemma find_peaks_run (signal : list float) (d : nat) (h : Heap) :
  stateful._find_peaks signal d h
  = Returns (length h) (h ++ [IntList (rep_detector._find_peaks signal d)]).
Proof.
  unfold stateful._find_peaks, rep_detector._find_peaks.
  unfold bind at 1. unfold alloc at 1. cbv beta iota.
  match goal with
  | |- context [for_each ?l ?b] => set (body := b); generalize l
  end.
  intros idxs.
  assert (Hloop : forall idxs acc,
             for_each idxs body (h ++ [IntList acc])
             = Returns tt
                 (h ++ [IntList (fold_left (find_peaks_step signal d) idxs acc)])).
  { clear idxs. induction idxs as [|i idxs IH]; intros acc; [reflexivity|].
    cbn [for_each fold_left]. unfold bind.
    assert (Hstep : body i (h ++ [IntList acc])
                    = Returns tt
                        (h ++ [IntList (find_peaks_step signal d acc i)])).
    { unfold body, find_peaks_step.
      destruct (fgtb (nth i signal nan) (nth (i - 1) signal nan)
                && fgtb (nth i signal nan) (nth (i + 1) signal nan));
        [|reflexivity].
      unfold bind. rewrite (get_int_list_at _ _ acc (nth_error_last h _)).
      destruct (match acc with [] => true | _ => false end
                || (Z.of_nat d <=? Z.of_nat i - Z.of_nat (last acc 0%nat))%Z).
      - apply put_last.
      - destruct (fgtb (nth i signal nan) (nth (last acc 0) signal nan)).
        + apply put_last.
        + reflexivity. }
    rewrite Hstep. apply IH. }
  unfold bind. rewrite Hloop. reflexivity.
Qed.

Lemma validate_rep_run (h : Heap) (self : nat) (d : RepDetector)
    (duration displacement : float) (y_segment : list float) :
  nth_error h self = Some (Detector d) ->
  stateful._validate_rep self duration displacement y_segment h
  = Returns (rep_detector._validate_rep d duration displacement y_segment) h.
Proof.
  intros Hd. unfold stateful._validate_rep, rep_detector._validate_rep.
  destruct ((duration <? MIN_REP_DURATION)%float
            || fgtb duration MAX_REP_DURATION); [reflexivity|].
  unfold bind. rewrite (get_detector_at h self d Hd).
  destruct (displacement <? min_vertical_displacement d)%float; [reflexivity|].
  destruct (length y_segment <? 5); [reflexivity|].
  cbv zeta.
  destruct (Nat.max 8 (length y_segment / 3) <? _); reflexivity.
Qed.

Lemma nth_error_app_left {A : Type} (h : list A) (extra : list A) (r : nat)
    (o : A) :
  nth_error h r = Some o -> nth_error (h ++ extra) r = Some o.
Proof.
  intros H. rewrite nth_error_app1; [exact H|].
  apply nth_error_Some. congruence.
Qed.

Lemma skipn_two (ps : list nat) (k : nat) :
  k + 1 < length ps ->
  skipn k ps = nth k ps 0 :: nth (k + 1) ps 0 :: skipn (k + 2) ps.
Proof.
  revert k. induction ps as [|a ps IH]; intros k Hk; [cbn in Hk; lia|].
  destruct k as [|k].
  - destruct ps as [|b ps]; [cbn in Hk; lia|]. reflexivity.
  - cbn [skipn Nat.add nth]. apply IH. cbn in Hk. lia.
Qed.

Lemma segment_reps_cons (d : RepDetector) (times y_raw y_smooth : list float)
    (a b : nat) (l vs : list nat) (samples : list schemas.PositionSample) :
  rep_detector._segment_reps d times y_raw y_smooth (a :: b :: l) vs samples
  = let y_segment := slice y_raw (Z.of_nat a) (Z.of_nat b + 1) in
    if length y_segment <? 2
    then rep_detector._segment_reps d times y_raw y_smooth (b :: l) vs samples
    else
      {| start_idx := a;
         end_idx := b;
         start_time := nth a times nan;
         end_time := nth b times nan;
         duration := nth b times nan - nth a times nan;
         peak_speed :=
           _calculate_peak_speed
             (slice times (Z.of_nat a) (Z.of_nat b + 1))
             (slice samples (Z.of_nat a) (Z.of_nat b + 1));
         vertical_displacement := np_max y_segment - np_min y_segment;
         is_valid :=
           rep_detector._validate_rep d (nth b times nan - nth a times nan)
             (np_max y_segment - np_min y_segment) y_segment |}
      :: rep_detector._segment_reps d times y_raw y_smooth (b :: l) vs samples.
Proof. reflexivity. Qed.

Lemma segment_reps_run (h : Heap) (self peaks valleys : nat) (d : RepDetector)
    (ps vs : list nat) (times y_raw y_smooth : list float)
    (samples : list schemas.PositionSample) :
  nth_error h self = Some (Detector d) ->
  nth_error h peaks = Some (IntList ps) ->
  stateful._segment_reps self times y_raw y_smooth peaks valleys samples h
  = Returns (length h)
      (h ++ [RepList (rep_detector._segment_reps d times y_raw y_smooth ps vs
                        samples)]).
Proof.
  intros Hd Hp. unfold stateful._segment_reps.
  unfold bind at 1. unfold alloc at 1. cbv beta iota.
  unfold bind at 1.
  rewrite (get_int_list_at _ _ ps (nth_error_app_left h _ _ _ Hp)).
  match goal with
  | |- context [for_each _ ?b] => set (body := b)
  end.
  assert (Hloop : forall n k acc,
             k + n = length ps - 1 ->
             for_each (seq k n) body (h ++ [RepList acc])
             = Returns tt
                 (h ++ [RepList
                          (acc ++ rep_detector._segment_reps d times y_raw
                                    y_smooth (skipn k ps) vs samples)])).
  { induction n as [|n IH]; intros k acc Hk.
    - cbn [seq for_each]. unfold ret.
      assert (E : rep_detector._segment_reps d times y_raw y_smooth
                    (skipn k ps) vs samples = []).
      { assert (Hl : length (skipn k ps) <= 1) by (rewrite length_skipn; lia).
        destruct (skipn k ps) as [|a [|b l]]; cbn in Hl; try lia; reflexivity. }
      now rewrite E, app_nil_r.
    - cbn [seq for_each]. unfold bind at 1.
      rewrite (skipn_two ps k) by lia.
      rewrite segment_reps_cons. cbv zeta.
      assert (Hrest : nth (k + 1) ps 0 :: skipn (k + 2) ps = skipn (S k) ps).
      { change (S k) with (1 + k). rewrite <- (skipn_skipn 1 k ps).
        rewrite (skipn_two ps k) by lia. reflexivity. }
      unfold body at 1. unfold bind at 1.
      rewrite (get_int_list_at _ _ ps (nth_error_app_left h _ _ _ Hp)).
      cbv zeta.
      destruct (length (slice y_raw (Z.of_nat (nth k ps 0))
                          (Z.of_nat (nth (k + 1) ps 0) + 1)) <? 2).
      + unfold ret. rewrite Hrest. apply IH. lia.
      + unfold bind at 1.
        rewrite (validate_rep_run _ self d _ _ _
                   (nth_error_app_left h _ _ _ Hd)).
        unfold bind at 1.
        rewrite (get_rep_list_at _ _ acc (nth_error_last h _)).
        rewrite put_last. rewrite Hrest.
        rewrite (IH (S k) _ ltac:(lia)). rewrite <- app_assoc. reflexivity. }
  unfold bind, range. rewrite (Hloop (length ps - 1) 0 [] ltac:(lia)).
  reflexivity.
Qed.

Lemma detect_reps_run (h : Heap) (self samples : nat) (d : RepDetector)
    (ss : list schemas.PositionSample) :
  nth_error h self = Some (Detector d) ->
  nth_error h samples = Some (SampleList ss) ->
  exists extra,
    stateful.detect_reps self samples h
    = Returns (length (h ++ extra))
        ((h ++ extra) ++ [RepList (rep_detector.detect_reps d ss)]).
Proof.
  intros Hd Hs. unfold stateful.detect_reps, rep_detector.detect_reps.
  unfold bind at 1. unfold get_sample_list. rewrite Hs.
  destruct (length ss <? MIN_SAMPLES_BETWEEN_PEAKS * 2).
  { exists []. rewrite app_nil_r. reflexivity. }
  unfold bind at 1. rewrite (get_detector_at h self d Hd).
  fold (valid_samples_of d ss).
  destruct (length (valid_samples_of d ss) <? MIN_SAMPLES_BETWEEN_PEAKS * 2).
  { exists []. rewrite app_nil_r. reflexivity. }
  cbv zeta. unfold bind at 1. rewrite find_peaks_run.
  unfold bind at 1. rewrite find_peaks_run.
  set (peaks := rep_detector._find_peaks _ MIN_SAMPLES_BETWEEN_PEAKS).
  set (valleys := rep_detector._find_peaks _ MIN_SAMPLES_BETWEEN_PEAKS).
  set (h2 := (h ++ [IntList peaks]) ++ [IntList valleys]).
  assert (Hp : nth_error h2 (length h) = Some (IntList peaks)).
  { unfold h2. apply nth_error_app_left. apply nth_error_last. }
  assert (Hv : nth_error h2 (length (h ++ [IntList peaks]))
               = Some (IntList valleys)).
  { unfold h2. apply nth_error_last. }
  unfold bind at 1. rewrite (get_int_list_at _ _ _ Hp).
  unfold bind at 1. rewrite (get_int_list_at _ _ _ Hv).
  exists [IntList peaks; IntList valleys].
  assert (Eh : h ++ [IntList peaks; IntList valleys] = h2).
  { unfold h2. now rewrite <- app_assoc. }
  rewrite Eh.
  destruct ((length peaks <? 2) && (length valleys <? 2)); [reflexivity|].
  apply segment_reps_run; [|exact Hp].
  unfold h2. rewrite <- app_assoc. now apply nth_error_app_left.
Qed.

Lemma smooth_run (data : list float) (window : Z) (h : Heap) :
  stateful._smooth data window h
  = Returns (length h) (h ++ [FloatArray (ant_calculator._smooth data window)]).
Proof.
  unfold stateful._smooth, ant_calculator._smooth.
  destruct ((window <=? 1)%Z || (Z.of_nat (length data) <? window)%Z);
    [reflexivity|].
  unfold bind at 1. unfold alloc at 1. cbv beta iota zeta.
  match goal with
  | |- context [for_each _ ?b] => set (body := b)
  end.
  set (f := fun i : nat =>
              np_mean (slice data (Z.max 0 (Z.of_nat i - window / 2))
                         (Z.min (Z.of_nat (length data))
                                (Z.of_nat i + window / 2 + 1)))).
  assert (Hloop : forall n k arr,
             k + n = length arr ->
             for_each (seq k n) body (h ++ [FloatArray arr])
             = Returns tt (h ++ [FloatArray (firstn k arr ++ map f (seq k n))])).
  { induction n as [|n IH]; intros k arr Hk.
    - cbn [seq for_each map]. unfold ret.
      rewrite app_nil_r, firstn_all2 by lia. reflexivity.
    - cbn [seq for_each map]. unfold bind at 1. unfold body at 1.
      unfold bind at 1.
      rewrite (get_float_array_at _ _ arr (nth_error_last h _)).
      rewrite put_last. fold (f k).
      rewrite (IH (S k)).
      2:{ unfold setitem. rewrite length_app, length_firstn. cbn [length].
          rewrite length_skipn. lia. }
      f_equal. f_equal. f_equal. unfold setitem.
      rewrite firstn_app, length_firstn.
      replace (Nat.min k (length arr)) with k by lia.
      replace (S k - k) with 1 by lia.
      rewrite firstn_firstn. replace (Nat.min (S k) k) with k by lia.
      cbn [firstn]. rewrite <- app_assoc. reflexivity. }
  unfold bind, range.
  rewrite (Hloop (length data) 0 (repeat 0%float (length data)))
    by (rewrite repeat_length; lia).
  reflexivity.
Qed.

Lemma calculate_run (h : Heap) (self reps : nat) (c : ANTCalculator)
    (rs : list DetectedRep) :
  nth_error h self = Some (Calculator c) ->
  nth_error h reps = Some (RepList rs) ->
  exists extra,
    stateful.calculate self reps h
    = outcome_of (ant_calculator.calculate c rs) (h ++ extra).
Proof.
  intros Hc Hr. unfold stateful.calculate, ant_calculator.calculate.
  unfold bind at 1. rewrite (get_rep_list_at h reps rs Hr).
  unfold bind at 1. unfold get_calculator. rewrite Hc.
  destruct (Z.of_nat (length (filter is_valid rs))
            <? baseline_reps c + sustain_count c)%Z.
  { exists []. rewrite app_nil_r. reflexivity. }
  cbv zeta.
  destruct (np_mean _ <=? 0)%float.
  { exists []. rewrite app_nil_r. reflexivity. }
  unfold bind at 1. rewrite smooth_run.
  unfold bind at 1. rewrite (get_float_array_at _ _ _ (nth_error_last h _)).
  exists [FloatArray
            (ant_calculator._smooth (map peak_speed (filter is_valid rs))
               (smoothing_window c))].
  destruct (_find_sustained_drop _ _) as [idx|]; [|reflexivity].
  unfold bind at 1. unfold lift at 1.
  destruct (getitem (filter is_valid rs) idx) as [rep|e]; [|reflexivity].
  cbn [Py.bind]. unfold bind at 1. unfold lift at 1.
  destruct (getitem _ idx) as [s|e]; reflexivity.
Qed.


(** A call that does not get stuck leaves the store it found, followed by
    the objects it created. *)
Lemma detect_reps_extends (h : Heap) (self samples : nat) :
  match stateful.detect_reps self samples h with
  | Returns _ h' | Raises _ h' => exists extra, h' = h ++ extra
  | Stuck => True
  end.
Proof.
  destruct (nth_error h samples) as [[| |ss| | |]|] eqn:Hs;
    try (unfold stateful.detect_reps, bind, get_sample_list; rewrite Hs;
         exact I).
  destruct (nth_error h self) as [[d| | | | |]|] eqn:Hd;
    try (unfold stateful.detect_reps, bind at 1, get_sample_list; rewrite Hs;
         destruct (length ss <? MIN_SAMPLES_BETWEEN_PEAKS * 2);
         [exists [RepList []]; reflexivity
         |unfold bind, get_detector; rewrite Hd; exact I]).
  destruct (detect_reps_run h self samples d ss Hd Hs) as [extra ->].
  exists (extra ++ [RepList (rep_detector.detect_reps d ss)]).
  now rewrite app_assoc.
Qed.

Lemma calculate_extends (h : Heap) (self reps : nat) :
  match stateful.calculate self reps h with
  | Returns _ h' | Raises _ h' => exists extra, h' = h ++ extra
  | Stuck => True
  end.
Proof.
  destruct (nth_error h reps) as [[| | |rs| |]|] eqn:Hr;
    try (unfold stateful.calculate, bind, get_rep_list; rewrite Hr; exact I).
  destruct (nth_error h self) as [[|c| | | |]|] eqn:Hc;
    try (unfold stateful.calculate, bind, get_rep_list, get_calculator;
         rewrite Hr, Hc; exact I).
  destruct (calculate_run h self reps c rs Hc Hr) as [extra ->].
  destruct (ant_calculator.calculate c rs); exists extra; reflexivity.
Qed.

Lemma run_methods_extends (calls : list MethodCall) :
  forall h h1 : Heap,
    run_methods calls h = Some h1 -> exists extra, h1 = h ++ extra.
Proof.
  induction calls as [|call calls IH]; intros h h1 Hrun.
  - cbn in Hrun. exists []. rewrite app_nil_r. congruence.
  - cbn [run_methods] in Hrun.
    destruct (run_method call h) as [h'|] eqn:Hcall; [|discriminate].
    destruct (IH h' h1 Hrun) as [extra2 ->].
    assert (Hext : exists extra1, h' = h ++ extra1).
    { destruct call as [self samples|self reps]; cbn [run_method] in Hcall.
      - pose proof (detect_reps_extends h self samples) as H.
        destruct (stateful.detect_reps self samples h); cbn in Hcall;
          try discriminate; destruct H as [extra1 H]; exists extra1;
          congruence.
      - pose proof (calculate_extends h self reps) as H.
        destruct (stateful.calculate self reps h); cbn in Hcall;
          try discriminate; destruct H as [extra1 H]; exists extra1;
          congruence. }
    destruct Hext as [extra1 ->]. exists (extra1 ++ extra2).
    now rewrite app_assoc.
Qed.

Lemma objects_unchanged_app (h extra : Heap) :
  objects_unchanged h (h ++ extra).
Proof. intros r o. apply nth_error_app_left. Qed.

End WithNumpy.

End StatefulFacts.

(** * The claims *)

Import rep_detector ant_calculator Spec.
Import FloatFacts ListFacts SortedFacts ANTFacts CalculateFacts RepFacts.
Import StreamingFacts StatefulFacts.

(** ** Shared facts *)

Lemma gates_baseline `{Numpy} (br sc : Z) (reps : list DetectedRep) :
  (3 <= br)%Z -> past_gates br sc reps ->
  baseline_of br reps =
    np_mean (slice (map peak_speed (filter is_valid reps)) 0 br) /\
  (baseline_of br reps <=? 0) = false.
Proof.
  intros Hbr [_ Hpos]. split.
  - unfold baseline_of. now rewrite slice_prefix by lia.
  - rewrite (ltb_negb_leb 0 (baseline_of br reps)) in Hpos.
    + now destruct (baseline_of br reps <=? 0).
    + reflexivity.
    + eapply ltb_not_nan_r; eassumption.
Qed.

Lemma peaks_of_sorted `{Numpy} (self : RepDetector)
    (samples : list schemas.PositionSample) :
  StronglySorted lt (peaks_of self samples).
Proof. unfold peaks_of. apply find_peaks_sorted. Qed.

Lemma kept_times_sorted (self : RepDetector)
    (samples : list schemas.PositionSample) :
  strictly_increasing_times samples ->
  strictly_increasing_times (valid_samples_of self samples).
Proof. apply StronglySorted_map_filter. Qed.

Lemma rep_start_before_end `{Numpy} (self : RepDetector)
    (samples : list schemas.PositionSample) (r : DetectedRep) :
  strictly_increasing_times samples ->
  In r (detect_reps self samples) ->
  (start_time r <? end_time r) = true.
Proof.
  intros Hincr Hr. apply In_nth_error in Hr. destruct Hr as [i Hr].
  destruct (detect_reps_nth self samples i r Hr) as (a & b & -> & Hab & _).
  cbn [rep_between start_time end_time].
  apply (StronglySorted_nth _ _ nan (kept_times_sorted self samples Hincr) a b).
  now rewrite length_map.
Qed.

Lemma swing_signal_increasing : strictly_increasing_times swing_signal.
Proof.
  unfold strictly_increasing_times.
  let l := eval vm_compute in (map schemas.t swing_signal) in
  change (StronglySorted (fun a b => (a <? b) = true) l).
  repeat constructor.
Qed.

(** Every vertical coordinate of [swing_signal] is finite. *)
Lemma swing_signal_finite :
  Forall (fun s => is_finite (schemas.y s) = true) swing_signal.
Proof.
  let l := eval vm_compute in swing_signal in change swing_signal with l.
  repeat constructor.
Qed.

Lemma swing_signal_never_evicted : never_evicts 10 swing_signal.
Proof.
  unfold never_evicts.
  let l := eval vm_compute in swing_signal in change swing_signal with l.
  cbv beta iota. repeat constructor.
Qed.

(** ** Claims *)

(** C1. Past the gates, [calculate] reports the position where the first run
    of [sustain_count] or more consecutive True threshold flags begins, the
    start time of that valid rep and the relative drop of its smoothed speed
    from the baseline; with no such run, nothing is reported.  Five valid reps
    of peak speed 1.0 followed by three of 0.5, with a 0.20 drop threshold,
    sustain count 2 and window 1, give position 5 and a drop of 0.5. *)
Theorem C1_ant_index_begins_first_sustained_run :
  (forall (NP : Numpy) (br : Z) (d : float) (w sc : Z)
          (self : ANTCalculator) (reps : list DetectedRep),
     ANTCalculator_init br d w sc = Ok self ->
     past_gates br sc reps ->
     exists res,
       calculate self reps = Ok res /\
       baseline_speed res = baseline_of br reps /\
       sustained_drop_outcome (filter is_valid reps) (Z.to_nat sc) res) /\
  (forall reps : list DetectedRep,
     map peak_speed (filter is_valid reps) = [1; 1; 1; 1; 1; 0.5; 0.5; 0.5] ->
     exists res,
       @calculate numpy_seq (calculator 5 0.20 1 2) reps = Ok res /\
       ant_reached res = true /\
       ant_rep_index res = Some 5%Z /\
       drop_percent_at_ant res = Some 0.5).
Proof.
  split.
  - intros NP br d w sc self reps Hinit Hgates.
    apply init_Ok in Hinit. destruct Hinit as [(Hbr & _ & _ & Hsc) ->].
    destruct (gates_baseline br sc reps Hbr Hgates) as [Hbase Hnle].
    pose proof (calculate_past_gates (calculator br d w sc) reps) as H.
    cbv zeta in H. cbn [sustain_count baseline_reps calculator] in H.
    rewrite <- Hbase in H. specialize (H Hsc (proj1 Hgates) Hnle).
    destruct (_find_sustained_drop _ _) as [idx|].
    + destruct H as (j & rep & s & -> & Hfirst & Hrep & Hs & Hcalc).
      eexists. split; [exact Hcalc|]. split; [reflexivity|].
      split; cbn [threshold_flags ant_reached ant_rep_index
                  ant_timestamp_seconds drop_percent_at_ant smoothed_speeds
                  baseline_speed].
      * intros j' Hj'. rewrite (first_run_unique _ _ _ _ Hj' Hfirst).
        repeat split; eauto.
      * intros Hnone. exfalso. exact (Hnone j (proj1 Hfirst)).
    + destruct H as [Hnone Hcalc].
      eexists. split; [exact Hcalc|]. split; [reflexivity|].
      split; cbn [threshold_flags ant_reached ant_rep_index
                  ant_timestamp_seconds drop_percent_at_ant].
      * intros j [Hrun _]. exfalso. exact (Hnone j Hrun).
      * intros _. repeat split.
  - intros reps Hspeeds.
    unfold calculate. cbn [baseline_reps sustain_count calculator
                           smoothing_window drop_threshold].
    assert (Hlen : length (filter is_valid reps) = 8%nat).
    { rewrite <- (length_map peak_speed), Hspeeds. reflexivity. }
    rewrite Hlen, Hspeeds.
    destruct (filter is_valid reps) as [|r0 [|r1 [|r2 [|r3 [|r4 [|r5 [|r6 [|r7 [|]]]]]]]]];
      try discriminate Hlen.
    eexists. split; [vm_compute; reflexivity|]. repeat split.
Qed.

Lemma C1_witness_sustained_drop :
  exists res,
    @calculate numpy_seq (calculator 5 0.20 1 2) sustained_drop_reps = Ok res /\
    baseline_speed res = @baseline_of numpy_seq 5 sustained_drop_reps /\
    sustained_drop_outcome (filter is_valid sustained_drop_reps) (Z.to_nat 2) res.
Proof.
  apply (proj1 C1_ant_index_begins_first_sustained_run numpy_seq 5%Z 0.20 1%Z 2%Z).
  - reflexivity.
  - split; [vm_compute; intro; discriminate | vm_compute; reflexivity].
Defined.



(** The program's count of sign changes is the number of adjacent positions
    where the sign differs. *)
Lemma sign_change_step (a b : float) :
  fgtb (abs (np_sign b - np_sign a)) 0 = sign_differs (sign_of a) (sign_of b).
Proof.
  unfold np_sign, sign_of.
  destruct (a <? 0), (0 <? a), (a =? 0), (b <? 0), (0 <? b), (b =? 0);
    vm_compute; reflexivity.
Qed.

Lemma sign_changes_count (l : list float) :
  sign_changes l = count_sign_changes l.
Proof.
  unfold sign_changes. induction l as [|a l IH]; [reflexivity|].
  destruct l as [|b l]; [reflexivity|].
  change (np_diff (map np_sign (a :: b :: l)))
    with ((np_sign b - np_sign a) :: np_diff (map np_sign (b :: l))).
  cbn [filter count_sign_changes]. rewrite sign_change_step.
  destruct (sign_differs (sign_of a) (sign_of b)); cbn [length]; rewrite IH;
    reflexivity.
Qed.

(** numpy's first difference, position by position. *)
Lemma np_diff_first_difference (v : list float) :
  np_diff v = first_difference v.
Proof.
  unfold first_difference. induction v as [|x v IH]; [reflexivity|].
  destruct v as [|y v]; [reflexivity|].
  change (np_diff (x :: y :: v)) with ((y - x) :: np_diff (y :: v)).
  rewrite IH.
  replace (length (y :: v) - 1)%nat with (length v) by (cbn [length]; lia).
  replace (length (x :: y :: v) - 1)%nat with (S (length v))
    by (cbn [length]; lia).
  change (seq 0 (S (length v))) with (0%nat :: seq 1 (length v)).
  cbn [map nth Nat.add]. f_equal.
  rewrite <- seq_shift, map_map. apply map_ext. intros i.
  now replace (S i + 1)%nat with (S (i + 1)) by lia.
Qed.

Lemma firstn_three_skipn (l : list float) (i : nat) :
  (i + 3 <= length l)%nat ->
  firstn 3 (skipn i l) = [nth i l nan; nth (i + 1) l nan; nth (i + 2) l nan].
Proof.
  revert i. induction l as [|x l IH]; intros i Hi; [cbn in Hi; lia|].
  destruct i as [|i].
  - destruct l as [|y [|z l]]; cbn in Hi; try lia. reflexivity.
  - cbn [skipn]. rewrite IH by (cbn in Hi; lia). reflexivity.
Qed.

Lemma last_is_nth (l : list float) (d d' : float) :
  l <> [] -> last l d = nth (length l - 1) l d'.
Proof.
  induction l as [|x l IH]; [congruence|]. intros _.
  destruct l as [|y l]; [reflexivity|].
  change (last (x :: y :: l) d) with (last (y :: l) d).
  rewrite IH by discriminate. cbn [length nth Nat.sub].
  now rewrite Nat.sub_0_r.
Qed.

(** With a window of 3, the program's edge-padded convolution is the
    3-sample average around every position. *)
Lemma smooth_signal_three `{Numpy} (d : list float) :
  (3 <= length d)%nat ->
  _smooth_signal d 3 = map (average_of_three d) (seq 0 (length d)).
Proof.
  intros Hlen. unfold _smooth_signal.
  destruct (Nat.ltb_spec (length d) 3) as [|_]; [lia|].
  cbn [Nat.leb orb]. destruct d as [|x0 d']; [cbn in Hlen; lia|].
  set (d := x0 :: d') in *.
  change (3 / 2)%nat with 1%nat. change (3 - 1 - 1)%nat with 1%nat.
  assert (Ek : repeat (1 / float_of_nat 3) 3 = [a_third; a_third; a_third])
    by (vm_compute; reflexivity).
  rewrite Ek. unfold np_convolve_valid, range.
  change (length [a_third; a_third; a_third]) with 3%nat.
  change (rev [a_third; a_third; a_third]) with [a_third; a_third; a_third].
  assert (Epad : np_pad_edge d 1 1 = x0 :: d ++ [last d x0]) by reflexivity.
  rewrite Epad.
  assert (Elen : length (x0 :: d ++ [last d x0]) = (length d + 2)%nat).
  { cbn [length]. rewrite length_app. cbn [length]. lia. }
  rewrite Elen. replace (length d + 2 + 1 - 3)%nat with (length d) by lia.
  apply map_ext_in. intros i Hi. apply in_seq in Hi.
  rewrite firstn_three_skipn by (rewrite Elen; lia).
  unfold average_of_three. f_equal.
  assert (Hmid : forall j, (j < length d)%nat ->
                   nth (S j) (x0 :: d ++ [last d x0]) nan = nth j d nan).
  { intros j Hj. cbn [nth]. now rewrite app_nth1. }
  f_equal; [|f_equal; [|f_equal]].
  - destruct i as [|i]; [reflexivity|].
    rewrite (Hmid i) by lia. now replace (S i - 1)%nat with i by lia.
  - replace (i + 1)%nat with (S i) by lia. apply Hmid. lia.
  - replace (i + 2)%nat with (S (i + 1)) by lia.
    destruct (Nat.eq_dec (i + 1) (length d)) as [E|E].
    + cbn [nth]. rewrite app_nth2 by lia. rewrite E, Nat.sub_diag. cbn [nth].
      replace (Nat.min (length d) (length d - 1)) with (length d - 1)%nat
        by lia.
      apply last_is_nth. unfold d. discriminate.
    + rewrite Hmid by lia.
      now replace (Nat.min (i + 1) (length d - 1)) with (i + 1)%nat by lia.
Qed.

(** What [_validate_rep] counts the sign changes of. *)
Lemma validate_rep_smoothing `{Numpy} (span : list float) :
  (if (3 <=? length (np_diff span))%nat
   then _smooth_signal (np_diff span) 3
   else np_diff span)
  = smoothed_first_difference span.
Proof.
  unfold smoothed_first_difference. rewrite np_diff_first_difference.
  destruct (Nat.leb_spec 3 (length (first_difference span))); [|reflexivity].
  now apply smooth_signal_three.
Qed.

Lemma init_minimum_displacement (m : schemas.MovementType) (mc : float) :
  min_vertical_displacement (RepDetector_init m mc) = minimum_displacement m /\
  is_nan (minimum_displacement m) = false.
Proof. destruct m; split; reflexivity. Qed.

(** [_validate_rep] decides the three criteria, on durations and
    displacements that are numbers. *)
Lemma validate_rep_criteria `{Numpy} (m : schemas.MovementType) (mc : float)
    (duration displacement : float) (span : list float) :
  is_nan duration = false -> is_nan displacement = false ->
  (_validate_rep (RepDetector_init m mc) duration displacement span = true <->
   validity_criteria m duration displacement span).
Proof.
  intros Hd Hv. unfold _validate_rep, validity_criteria, arc_smooth.
  destruct (init_minimum_displacement m mc) as [-> Hmin].
  unfold fgtb, MIN_REP_DURATION, MAX_REP_DURATION.
  rewrite (ltb_negb_leb duration 0.4 Hd eq_refl).
  rewrite (ltb_negb_leb 4.0 duration eq_refl Hd).
  rewrite (ltb_negb_leb displacement (minimum_displacement m) Hv Hmin).
  cbv zeta. rewrite validate_rep_smoothing, sign_changes_count.
  destruct (0.4 <=? duration); cbn [negb orb];
    [|split; [discriminate | intros [[? _] _]; discriminate]].
  destruct (duration <=? 4.0); cbn [negb orb];
    [|split; [discriminate | intros [[_ ?] _]; discriminate]].
  destruct (minimum_displacement m <=? displacement); cbn [negb];
    [|split; [discriminate | intros [_ [? _]]; discriminate]].
  destruct (Nat.ltb_spec (length span) 5).
  - split; auto.
  - destruct (Nat.ltb_spec (Nat.max 8 (length span / 3))
                (count_sign_changes (smoothed_first_difference span))).
    + split; [discriminate|]. intros (_ & _ & [Hs|Hs]); lia.
    + split; auto.
Qed.

(** The criteria can only hold of numbers. *)
Lemma criteria_numbers `{Numpy} (m : schemas.MovementType)
    (duration displacement : float) (span : list float) :
  validity_criteria m duration displacement span ->
  is_nan duration = false /\ is_nan displacement = false.
Proof.
  intros [[Hd _] [Hv _]]. split.
  - eapply leb_not_nan_r; eassumption.
  - eapply leb_not_nan_r; eassumption.
Qed.

(** The extrema numpy picks are elements of the array. *)
Lemma fold_left_picks {A : Type} (f : A -> A -> A) :
  (forall a b, f a b = a \/ f a b = b) ->
  forall (l : list A) (x : A), In (fold_left f l x) (x :: l).
Proof.
  intros Hf. induction l as [|y l IH]; intros x; cbn [fold_left].
  - now left.
  - destruct (IH (f x y)) as [E|Hin].
    + destruct (Hf x y) as [E'|E']; rewrite <- E, E'; [now left|right; now left].
    + right. now right.
Qed.

Lemma np_max_In (l : list float) : l <> [] -> In (np_max l) l.
Proof.
  destruct l as [|x l]; [congruence|]. intros _. apply fold_left_picks.
  intros a b. unfold np_maximum. destruct (_ || _); auto.
Qed.

Lemma np_min_In (l : list float) : l <> [] -> In (np_min l) l.
Proof.
  destruct l as [|x l]; [congruence|]. intros _. apply fold_left_picks.
  intros a b. unfold np_minimum. destruct (_ || _); auto.
Qed.

Lemma In_firstn_skipn {A : Type} (l : list A) (n k : nat) (a : A) :
  In a (firstn n (skipn k l)) -> In a l.
Proof.
  intros H. rewrite <- (firstn_skipn k l). apply in_or_app. right.
  rewrite <- (firstn_skipn n (skipn k l)). apply in_or_app. now left.
Qed.

(** On strictly increasing timestamps and finite vertical coordinates, the
    duration and the displacement of every rep are numbers. *)
Lemma rep_numbers `{Numpy} (self : RepDetector)
    (samples : list schemas.PositionSample) (r : DetectedRep) :
  strictly_increasing_times samples ->
  Forall (fun s => is_finite (schemas.y s) = true) samples ->
  In r (detect_reps self samples) ->
  is_nan (duration r) = false /\ is_nan (vertical_displacement r) = false.
Proof.
  intros Hincr Hfin Hr. split.
  - pose proof (rep_start_before_end self samples r Hincr Hr) as Hlt.
    apply In_nth_error in Hr. destruct Hr as [i Hr].
    destruct (detect_reps_nth self samples i r Hr) as (a & b & E & _).
    rewrite E in Hlt |- *. cbn [rep_between duration start_time end_time] in *.
    apply sub_of_ltb_number. exact Hlt.
  - apply In_nth_error in Hr. destruct Hr as [i Hr].
    destruct (detect_reps_nth self samples i r Hr) as (a & b & -> & Hab & _).
    cbn [rep_between vertical_displacement].
    replace (Z.of_nat b + 1)%Z with (Z.of_nat (b + 1)) by lia.
    rewrite slice_nat.
    set (seg := firstn (b + 1 - a)
                  (skipn a (map schemas.y (valid_samples_of self samples)))).
    assert (Hne : seg <> []).
    { intros E. apply (f_equal (@length float)) in E. unfold seg in E.
      rewrite length_firstn, length_skipn, length_map in E. cbn in E. lia. }
    assert (Hseg : forall v, In v seg -> is_finite v = true).
    { intros v Hv. apply In_firstn_skipn in Hv. apply in_map_iff in Hv.
      destruct Hv as (s & <- & Hs). unfold valid_samples_of in Hs.
      apply filter_In in Hs. rewrite Forall_forall in Hfin.
      apply Hfin. apply Hs. }
    apply sub_of_finite_number; apply Hseg;
      [apply np_max_In | apply np_min_In]; exact Hne.
Qed.

(** C3. For every rep returned by [detect_reps], with the span of the rep
    being the raw vertical coordinates of the kept samples from [start_idx]
    to [end_idx]: when its duration lies in [0.4, 4.0], its vertical
    displacement is at least the minimum of the movement (0.25 for snatches,
    0.15 for swings, [two_arm_swing] included), and its span has fewer than 5
    samples or the first difference of the span (smoothed over 3 samples when
    it has at least 3 points: every difference averaged with the one before
    and the one after it, the first and the last standing in for the
    neighbour they lack) changes sign at most
    [max(8, span_length // 3)] times, the rep is valid; and a valid rep whose
    duration and displacement are numbers meets the three criteria.  Both are
    numbers when the timestamps increase strictly and the vertical
    coordinates are finite. *)
Theorem C3_validity_criteria :
  forall (NP : Numpy) (m : schemas.MovementType) (mc : float)
         (samples : list schemas.PositionSample) (r : DetectedRep),
    In r (detect_reps (RepDetector_init m mc) samples) ->
    let span := span_of (RepDetector_init m mc) samples r in
    length span = (end_idx r - start_idx r + 1)%nat /\
    (validity_criteria m (duration r) (vertical_displacement r) span ->
     is_valid r = true) /\
    (is_nan (duration r) = false ->
     is_nan (vertical_displacement r) = false ->
     (is_valid r = true <->
      validity_criteria m (duration r) (vertical_displacement r) span)) /\
    (strictly_increasing_times samples ->
     Forall (fun s => is_finite (schemas.y s) = true) samples ->
     (is_valid r = true <->
      validity_criteria m (duration r) (vertical_displacement r) span)).
Proof.
  intros NP m mc samples r Hin span.
  pose proof Hin as Hr.
  apply In_nth_error in Hr. destruct Hr as [i Hr].
  destruct (detect_reps_nth _ samples i r Hr) as (a & b & E & Hab & _ & _ & _).
  assert (Hspan : span
                  = slice (map schemas.y
                             (valid_samples_of (RepDetector_init m mc) samples))
                          (Z.of_nat a) (Z.of_nat b + 1)).
  { unfold span, span_of. rewrite E. cbn [rep_between start_idx end_idx].
    replace (Z.of_nat b + 1)%Z with (Z.of_nat (b + 1)) by lia.
    now rewrite slice_nat. }
  assert (Hvalid : is_valid r
                   = _validate_rep (RepDetector_init m mc) (duration r)
                       (vertical_displacement r) span).
  { rewrite Hspan, E.
    cbn [rep_between is_valid duration vertical_displacement]. reflexivity. }
  split; [|split; [|split]].
  - unfold span, span_of. rewrite E. cbn [rep_between start_idx end_idx].
    rewrite length_firstn, length_skipn, length_map. lia.
  - intros Hc. destruct (criteria_numbers _ _ _ _ Hc) as [Hd Hv].
    rewrite Hvalid. now apply validate_rep_criteria.
  - intros Hd Hv. rewrite Hvalid. now apply validate_rep_criteria.
  - intros Hincr Hfin.
    destruct (rep_numbers _ samples r Hincr Hfin Hin) as [Hd Hv].
    rewrite Hvalid. now apply validate_rep_criteria.
Qed.

Lemma C3_witness_swing_rep :
  is_valid swing_rep = true <->
  @validity_criteria numpy_seq schemas.SWING_LEFT
    (duration swing_rep) (vertical_displacement swing_rep)
    (span_of swing_detector swing_signal swing_rep).
Proof.
  refine (proj2 (proj2 (proj2
            (C3_validity_criteria numpy_seq schemas.SWING_LEFT
               default_min_confidence swing_signal swing_rep _)))
            swing_signal_increasing swing_signal_finite).
  vm_compute. left. reflexivity.
Defined.

(** C4 (amended). On strictly increasing timestamps and a buffer from which
    no sample is ever evicted, the cumulative log of the streaming detector,
    fed one sample at a time, holds the [(start_time, end_time)] key of every
    rep of one batch [detect_reps] call over the whole sequence, and every
    rep of the log is a rep of a batch call over a prefix of the sequence. *)
Theorem C4_streaming_log_contains_batch :
  forall (NP : Numpy) (mt : schemas.MovementType) (buf mc : float)
         (samples : list schemas.PositionSample),
    strictly_increasing_times samples ->
    never_evicts buf samples ->
    let streamed :=
      get_all_reps (feed (StreamingRepDetector_init mt buf mc) samples) in
    let batch := detect_reps (RepDetector_init mt mc) samples in
    (forall r, In r batch -> has_key streamed (key_of r) = true) /\
    (forall r, In r streamed ->
       exists prefix rest,
         samples = prefix ++ rest /\
         In r (detect_reps (RepDetector_init mt mc) prefix)).
Proof.
  intros NP mt buf mc samples Hincr Hnever streamed batch. split.
  - intros r Hr. apply feed_holds_batch_keys; try assumption.
    pose proof (rep_start_before_end _ samples r Hincr Hr) as Hlt.
    unfold key_eqb, key_of. cbn [fst snd].
    rewrite (eqb_refl _ (ltb_not_nan_l _ _ Hlt)).
    rewrite (eqb_refl _ (ltb_not_nan_r _ _ Hlt)). reflexivity.
  - intros r Hr.
    destruct (feed_no_eviction mt buf mc samples Hnever) as (_ & _ & _ & Hlog).
    apply Hlog. exact Hr.
Qed.

Lemma C4_witness_swing_signal :
  has_key
    (get_all_reps
       (@feed numpy_seq
          (StreamingRepDetector_init schemas.SWING_LEFT 10 default_min_confidence)
          swing_signal))
    (key_of swing_rep) = true.
Proof.
  apply (proj1 (C4_streaming_log_contains_batch numpy_seq schemas.SWING_LEFT 10
                  default_min_confidence swing_signal
                  swing_signal_increasing swing_signal_never_evicted) swing_rep).
  vm_compute. left. reflexivity.
Defined.

(** C4 as stated fails: fed [swing_signal] one sample at a time with a
    10-second buffer, the streaming detector logs the rep from 0.5 s to 2.0 s
    (detected while the peak at position 8 was the last one), which the batch
    run over the whole signal does not return, the peak at 11 having replaced
    the one at 8. *)
Lemma C4_counterexample_replaced_peak :
  strictly_increasing_times swing_signal /\
  never_evicts 10 swing_signal /\
  has_key
    (get_all_reps
       (@feed numpy_seq
          (StreamingRepDetector_init schemas.SWING_LEFT 10 default_min_confidence)
          swing_signal))
    (0.5, 2) = true /\
  has_key
    (@detect_reps numpy_seq
       (RepDetector_init schemas.SWING_LEFT default_min_confidence) swing_signal)
    (0.5, 2) = false.
Proof.
  split; [exact swing_signal_increasing|].
  split; [exact swing_signal_never_evicted|].
  split; vm_compute; reflexivity.
Qed.

(** What [_smooth] computes: the data unchanged when the window is at most 1
    or longer than the data, the trimmed centred mean otherwise. *)
Lemma smooth_unchanged `{Numpy} (data : list float) (w : Z) :
  (w <= 1 \/ Z.of_nat (length data) < w)%Z -> _smooth data w = data.
Proof.
  intros Hw. unfold _smooth.
  destruct (Z.leb_spec w 1); [reflexivity|].
  destruct (Z.ltb_spec (Z.of_nat (length data)) w); [reflexivity|lia].
Qed.

Lemma smooth_trimmed `{Numpy} (data : list float) (w : Z) (i : nat) :
  (1 < w <= Z.of_nat (length data))%Z -> (i < length data)%nat ->
  nth_error (_smooth data w) i = Some (trimmed_mean data w i).
Proof.
  intros Hw Hi. unfold _smooth.
  destruct (Z.leb_spec w 1); [lia|].
  destruct (Z.ltb_spec (Z.of_nat (length data)) w); [lia|].
  cbn [orb]. unfold range.
  rewrite nth_error_map, nth_error_seq.
  destruct (Nat.ltb_spec i (length data)); [|lia].
  cbn [option_map Nat.add]. f_equal. unfold trimmed_mean. f_equal.
  set (lo := Z.max 0 (Z.of_nat i - w / 2)).
  set (hi := Z.min (Z.of_nat (length data)) (Z.of_nat i + w / 2 + 1)).
  assert (Hhalf : (0 <= w / 2)%Z) by (apply Z.div_pos; lia).
  rewrite <- (Z2Nat.id lo) at 1 by lia.
  rewrite <- (Z2Nat.id hi) at 1 by lia.
  apply slice_nat.
Qed.

(** C5 (amended). Past the gates, the smoothed speed at every position is the
    mean of the raw speeds over the window trimmed to the sequence when the
    window is at least 2 and no longer than the sequence; when the window is
    1 or longer than the sequence, the smoothed speeds are the raw speeds. *)
Theorem C5_smoothed_speeds_window :
  forall (NP : Numpy) (br : Z) (d : float) (w sc : Z)
         (self : ANTCalculator) (reps : list DetectedRep),
    ANTCalculator_init br d w sc = Ok self ->
    past_gates br sc reps ->
    let speeds := map peak_speed (filter is_valid reps) in
    exists res,
      calculate self reps = Ok res /\
      length (smoothed_speeds res) = length speeds /\
      ((w = 1 \/ Z.of_nat (length speeds) < w)%Z ->
       smoothed_speeds res = speeds) /\
      ((1 < w <= Z.of_nat (length speeds))%Z ->
       forall i, (i < length speeds)%nat ->
         nth_error (smoothed_speeds res) i = Some (trimmed_mean speeds w i)).
Proof.
  intros NP br d w sc self reps Hinit Hgates speeds.
  apply init_Ok in Hinit. destruct Hinit as [(Hbr & _ & Hw & Hsc) ->].
  destruct (gates_baseline br sc reps Hbr Hgates) as [Hbase Hnle].
  pose proof (calculate_past_gates (calculator br d w sc) reps) as H.
  cbv zeta in H.
  cbn [sustain_count baseline_reps smoothing_window calculator] in H.
  rewrite <- Hbase in H. specialize (H Hsc (proj1 Hgates) Hnle).
  fold speeds in H.
  assert (Hres : exists res,
            calculate (calculator br d w sc) reps = Ok res /\
            smoothed_speeds res = _smooth speeds w).
  { destruct (_find_sustained_drop _ _).
    - destruct H as (j & rep & s & _ & _ & _ & _ & H).
      eexists. split; [exact H | reflexivity].
    - destruct H as [_ H]. eexists. split; [exact H | reflexivity]. }
  destruct Hres as (res & Hcalc & Hsm). exists res.
  split; [exact Hcalc|]. rewrite Hsm. split; [apply length_smooth|]. split.
  - intros Hcase. apply smooth_unchanged. lia.
  - intros Hcase i Hi. now apply smooth_trimmed.
Qed.

Lemma C5_witness_window_three :
  exists res,
    @calculate numpy_seq (calculator 5 0.20 3 2) sustained_drop_reps = Ok res /\
    length (smoothed_speeds res)
    = length (map peak_speed (filter is_valid sustained_drop_reps)) /\
    ((3 = 1 \/ Z.of_nat (length (map peak_speed (filter is_valid sustained_drop_reps))) < 3)%Z ->
     smoothed_speeds res = map peak_speed (filter is_valid sustained_drop_reps)) /\
    ((1 < 3 <= Z.of_nat (length (map peak_speed (filter is_valid sustained_drop_reps))))%Z ->
     forall i, (i < length (map peak_speed (filter is_valid sustained_drop_reps)))%nat ->
       nth_error (smoothed_speeds res) i
       = Some (@trimmed_mean numpy_seq
                 (map peak_speed (filter is_valid sustained_drop_reps)) 3 i)).
Proof.
  apply (C5_smoothed_speeds_window numpy_seq 5%Z 0.20 3%Z 2%Z).
  - reflexivity.
  - split; [vm_compute; intro; discriminate | vm_compute; reflexivity].
Defined.

(** C5 as stated fails: with a window of 5 and four valid reps of peak speeds
    1, 1, 1, 3 the gates are passed, yet the smoothed speed at position 3 is
    the raw 3.0, not the mean of the speeds at positions 1 to 3. *)
Lemma C5_counterexample_window_longer_than_sequence :
  ANTCalculator_init 3 0.2 5 1 = Ok (calculator 3 0.2 5 1) /\
  @past_gates numpy_seq 3 1 short_reps /\
  exists res,
    @calculate numpy_seq (calculator 3 0.2 5 1) short_reps = Ok res /\
    ~ (forall i, (i < 4)%nat ->
         nth_error (smoothed_speeds res) i
         = Some (@trimmed_mean numpy_seq
                   (map peak_speed (filter is_valid short_reps)) 5 i)).
Proof.
  split; [reflexivity|]. split.
  - split; [vm_compute; intro; discriminate | vm_compute; reflexivity].
  - eexists. split; [vm_compute; reflexivity|].
    intros Hall. specialize (Hall 3%nat ltac:(lia)).
    apply (f_equal (fun o => match o with
                             | Some v => v =? 3
                             | None => false
                             end)) in Hall.
    vm_compute in Hall. discriminate.
Qed.

(** C6. On strictly increasing timestamps every rep returned has
    [start_idx < end_idx], [start_time < end_time] and
    [duration = end_time - start_time]; rep [i] spans the detected peaks [i]
    and [i + 1], so the next rep starts where it ends; start positions
    increase strictly along the output and a later rep starts no earlier
    than an earlier one ends. *)
Theorem C6_rep_sequence_invariants :
  forall (NP : Numpy) (self : RepDetector)
         (samples : list schemas.PositionSample),
    strictly_increasing_times samples ->
    let reps := detect_reps self samples in
    let peaks := peaks_of self samples in
    (forall i r, nth_error reps i = Some r ->
       (start_idx r < end_idx r)%nat /\
       (start_time r <? end_time r) = true /\
       duration r = end_time r - start_time r /\
       nth_error peaks i = Some (start_idx r) /\
       nth_error peaks (S i) = Some (end_idx r)) /\
    (forall i r r',
       nth_error reps i = Some r -> nth_error reps (S i) = Some r' ->
       start_idx r' = end_idx r /\ start_time r' = end_time r) /\
    (forall i j r r', (i < j)%nat ->
       nth_error reps i = Some r -> nth_error reps j = Some r' ->
       (start_idx r < start_idx r')%nat /\
       (end_idx r <= start_idx r')%nat /\
       (end_time r <=? start_time r') = true).
Proof.
  intros NP self samples Hincr reps peaks.
  pose proof (kept_times_sorted self samples Hincr) as Htimes.
  unfold strictly_increasing_times in Htimes.
  set (valid := valid_samples_of self samples) in *.
  assert (Hlt : forall a b, (a < b < length valid)%nat ->
                  (nth a (map schemas.t valid) nan
                   <? nth b (map schemas.t valid) nan) = true).
  { intros a b Hab.
    apply (StronglySorted_nth _ _ nan Htimes a b). now rewrite length_map. }
  assert (Hrep : forall i r, nth_error reps i = Some r ->
            exists a b, r = rep_between self valid a b /\
              (a < b < length valid)%nat /\
              nth_error peaks i = Some a /\ nth_error peaks (S i) = Some b).
  { intros i r Hr. destruct (detect_reps_nth self samples i r Hr)
      as (a & b & E & Hab & Ha & Hb & _). exists a, b. auto. }
  split; [|split].
  - intros i r Hr. destruct (Hrep i r Hr) as (a & b & -> & Hab & Ha & Hb).
    cbn [rep_between start_idx end_idx start_time end_time duration].
    repeat split; try assumption; try lia. apply Hlt. exact Hab.
  - intros i r r' Hr Hr'.
    destruct (Hrep i r Hr) as (a & b & -> & Hab & Ha & Hb).
    destruct (Hrep (S i) r' Hr') as (a' & b' & -> & Hab' & Ha' & Hb').
    cbn [rep_between start_idx end_idx start_time end_time].
    assert (E : a' = b) by congruence. subst a'. split; reflexivity.
  - intros i j r r' Hij Hr Hr'.
    destruct (Hrep i r Hr) as (a & b & -> & Hab & Ha & Hb).
    destruct (Hrep j r' Hr') as (a' & b' & -> & Hab' & Ha' & Hb').
    cbn [rep_between start_idx end_idx start_time end_time].
    pose proof (peaks_of_sorted self samples) as Hsorted. fold peaks in Hsorted.
    assert (Hj : (j < length peaks)%nat) by (apply nth_error_Some; congruence).
    assert (Hbj : (b <= a')%nat).
    { apply (nth_error_nth _ _ 0%nat) in Hb, Ha'.
      destruct (Nat.eq_dec (S i) j) as [E|E].
      - subst j. lia.
      - rewrite <- Hb, <- Ha'. apply Nat.lt_le_incl.
        apply (StronglySorted_nth _ _ 0%nat Hsorted). lia. }
    repeat split; try lia.
    destruct (Nat.eq_dec b a') as [E|E].
    + subst a'. apply leb_refl.
      eapply ltb_not_nan_l. apply (Hlt b b'). exact Hab'.
    + apply ltb_leb. apply Hlt. lia.
Qed.

Lemma C6_witness_swing_signal :
  (start_idx swing_rep < end_idx swing_rep)%nat /\
  (start_time swing_rep <? end_time swing_rep) = true /\
  duration swing_rep = end_time swing_rep - start_time swing_rep /\
  nth_error (@peaks_of numpy_seq swing_detector swing_signal) 0
  = Some (start_idx swing_rep) /\
  nth_error (@peaks_of numpy_seq swing_detector swing_signal) 1
  = Some (end_idx swing_rep).
Proof.
  apply (proj1 (C6_rep_sequence_invariants numpy_seq swing_detector swing_signal
                  swing_signal_increasing) 0%nat swing_rep).
  vm_compute. reflexivity.
Defined.

Lemma filter_filter_implied {A : Type} (f g : A -> bool) (l : list A) :
  (forall a, f a = true -> g a = true) ->
  filter f (filter g l) = filter f l.
Proof.
  intros Himp. induction l as [|a l IH]; [reflexivity|]. simpl.
  destruct (g a) eqn:Eg; simpl.
  - now rewrite IH.
  - rewrite IH. destruct (f a) eqn:Ef; [|reflexivity].
    rewrite (Himp a Ef) in Eg. discriminate.
Qed.

Lemma length_filter_le {A : Type} (f : A -> bool) (l : list A) :
  (length (filter f l) <= length l)%nat.
Proof.
  induction l as [|a l IH]; simpl; [lia|]. destruct (f a); simpl; lia.
Qed.

Lemma kept_after_removal (self : RepDetector)
    (samples : list schemas.PositionSample) :
  valid_samples_of self (remove_low_confidence self samples)
  = valid_samples_of self samples.
Proof.
  unfold valid_samples_of, remove_low_confidence.
  apply filter_filter_implied. intros s Hs. unfold fgeb in Hs.
  now rewrite (leb_true_ltb_false _ _ Hs).
Qed.

(** C7. Samples of confidence below [min_confidence] never influence the
    output: [detect_reps] returns the same reps on the input and on the input
    with those samples removed, and every position in a rep's range from
    [start_idx] to [end_idx] addresses a kept sample of the input, whose
    confidence is at least, and so not below, [min_confidence]. *)
Theorem C7_low_confidence_noninterference :
  forall (NP : Numpy) (self : RepDetector)
         (samples : list schemas.PositionSample),
    detect_reps self (remove_low_confidence self samples)
    = detect_reps self samples /\
    (forall r k,
       In r (detect_reps self samples) ->
       (start_idx r <= k <= end_idx r)%nat ->
       exists s,
         nth_error (valid_samples_of self samples) k = Some s /\
         In s samples /\
         fgeb (schemas.confidence s) (min_confidence self) = true /\
         (schemas.confidence s <? min_confidence self) = false).
Proof.
  intros NP self samples. split.
  - pose proof (kept_after_removal self samples) as Hkept.
    pose proof (length_filter_le
                  (fun s => negb (schemas.confidence s <? min_confidence self))
                  samples) as Hle1.
    pose proof (length_filter_le
                  (fun s => fgeb (schemas.confidence s) (min_confidence self))
                  (remove_low_confidence self samples)) as Hle2.
    fold (remove_low_confidence self samples) in Hle1.
    fold (valid_samples_of self (remove_low_confidence self samples)) in Hle2.
    rewrite Hkept in Hle2.
    unfold detect_reps. rewrite Hkept.
    destruct (Nat.ltb_spec (length (remove_low_confidence self samples))
                (MIN_SAMPLES_BETWEEN_PEAKS * 2)) as [H1|H1];
      destruct (Nat.ltb_spec (length samples) (MIN_SAMPLES_BETWEEN_PEAKS * 2))
        as [H2|H2];
      try reflexivity; try lia.
    destruct (Nat.ltb_spec (length (valid_samples_of self samples))
                (MIN_SAMPLES_BETWEEN_PEAKS * 2)); [reflexivity|lia].
  - intros r k Hr Hk.
    apply In_nth_error in Hr. destruct Hr as [i Hr].
    destruct (detect_reps_nth self samples i r Hr)
      as (a & b & -> & Hab & _ & _ & _).
    cbn [rep_between start_idx end_idx] in Hk.
    destruct (nth_error (valid_samples_of self samples) k) as [s|] eqn:Es.
    2:{ apply nth_error_None in Es. lia. }
    exists s. split; [reflexivity|].
    apply nth_error_In in Es. unfold valid_samples_of in Es.
    apply filter_In in Es. destruct Es as [Hin Hconf].
    repeat split; try assumption.
    apply leb_true_ltb_false. exact Hconf.
Qed.

(** C8. Construction raises a [ValueError] exactly when one of the four
    configuration constraints is violated; when all hold it returns the
    calculator, and [calculate] on that calculator never raises. *)
Theorem C8_configuration_error_iff :
  forall (br : Z) (d : float) (w sc : Z),
    ((exists msg, ANTCalculator_init br d w sc = Raise (ValueError msg)) <->
     ~ valid_configuration br d w sc) /\
    ((exists self, ANTCalculator_init br d w sc = Ok self) <->
     valid_configuration br d w sc) /\
    (forall (NP : Numpy) (self : ANTCalculator) (reps : list DetectedRep),
       ANTCalculator_init br d w sc = Ok self ->
       exists res, calculate self reps = Ok res).
Proof.
  intros br d w sc.
  assert (Hok : (exists self, ANTCalculator_init br d w sc = Ok self) <->
                valid_configuration br d w sc).
  { split.
    - intros [self H]. apply init_Ok in H. apply H.
    - intros H. eexists. apply init_valid. exact H. }
  split; [|split; [exact Hok|]].
  - split.
    + intros [msg H] Hv. rewrite (init_valid _ _ _ _ Hv) in H. discriminate.
    + intros Hv. unfold ANTCalculator_init.
      unfold valid_configuration in Hv.
      destruct (Z.ltb_spec br 3); [eexists; reflexivity|].
      destruct ((0 <? d) && (d <? 1)) eqn:Hd; cbn [negb];
        [|eexists; reflexivity].
      apply andb_prop in Hd.
      destruct (Z.ltb_spec w 1); [eexists; reflexivity|].
      destruct (Z.ltb_spec sc 1); [eexists; reflexivity|].
      exfalso. apply Hv. repeat split; try assumption; apply Hd.
  - intros NP self reps H. apply init_Ok in H.
    destruct H as [(_ & _ & _ & Hsc) ->].
    apply calculate_total. exact Hsc.
Qed.

Lemma C8_witness_default_configuration :
  exists res,
    @calculate numpy_seq (calculator 5 0.20 3 2) sustained_drop_reps = Ok res.
Proof.
  apply (proj2 (proj2 (C8_configuration_error_iff 5 0.20 3 2)) numpy_seq).
  reflexivity.
Defined.

(** C9. [detect_reps] and [calculate], executed statement by statement on a
    store of objects, are functions of their input and of the configuration
    of the object they are called on.  Take a store holding a detector, a
    sample list, a calculator and a rep list, and let any sequence of calls
    of the two methods run first, on whatever objects.  Every object is
    then as it was.  A call of [detect_reps] returns a new list, leaves
    every object as it was, and the list holds what the detector's
    configuration and the samples determine.  A call of [calculate] comes
    to the result or the exception that the calculator's configuration and
    the reps determine, and leaves every object as it was.  So a second
    invocation gives what the first gave, and an invocation of one method
    does not change what the other gives. *)
Theorem C9_detect_reps_and_calculate_are_pure :
  forall (NP : Numpy) (h h1 : heap.Heap) (earlier : list MethodCall)
         (detector samples calculator reps : nat)
         (d : RepDetector) (ss : list schemas.PositionSample)
         (c : ANTCalculator) (rs : list DetectedRep),
    nth_error h detector = Some (heap.Detector d) ->
    nth_error h samples = Some (heap.SampleList ss) ->
    nth_error h calculator = Some (heap.Calculator c) ->
    nth_error h reps = Some (heap.RepList rs) ->
    run_methods earlier h = Some h1 ->
    objects_unchanged h h1 /\
    (exists (out : nat) (h2 : heap.Heap),
       stateful.detect_reps detector samples h1 = heap.Returns out h2 /\
       objects_unchanged h1 h2 /\
       nth_error h1 out = None /\
       nth_error h2 out = Some (heap.RepList (detect_reps d ss))) /\
    (exists h2 : heap.Heap,
       stateful.calculate calculator reps h1
       = outcome_of (calculate c rs) h2 /\
       objects_unchanged h1 h2).
Proof.
  intros NP h h1 earlier detector samples calculator reps d ss c rs
         Hd Hs Hc Hr Hrun.
  destruct (run_methods_extends earlier h h1 Hrun) as [extra ->].
  pose proof (objects_unchanged_app h extra) as Hkept.
  split; [exact Hkept|]. split.
  - destruct (detect_reps_run (h ++ extra) detector samples d ss
                (Hkept _ _ Hd) (Hkept _ _ Hs)) as [extra' Hcall].
    eexists. eexists. split; [exact Hcall|]. split; [|split].
    + rewrite <- app_assoc. apply objects_unchanged_app.
    + apply nth_error_None. rewrite (length_app (h ++ extra) extra'). lia.
    + apply nth_error_last.
  - destruct (calculate_run (h ++ extra) calculator reps c rs
                (Hkept _ _ Hc) (Hkept _ _ Hr)) as [extra' Hcall].
    eexists. split; [exact Hcall|]. apply objects_unchanged_app.
Qed.

Lemma C9_witness_example_store :
  objects_unchanged example_store store_after_example_calls /\
  (exists (out : nat) (h2 : heap.Heap),
     @stateful.detect_reps numpy_seq 0 1 store_after_example_calls
     = heap.Returns out h2 /\
     objects_unchanged store_after_example_calls h2 /\
     nth_error store_after_example_calls out = None /\
     nth_error h2 out
     = Some (heap.RepList (@detect_reps numpy_seq swing_detector swing_signal))) /\
  (exists h2 : heap.Heap,
     @stateful.calculate numpy_seq 2 3 store_after_example_calls
     = outcome_of (@calculate numpy_seq (calculator 5 0.20 1 2)
                     sustained_drop_reps) h2 /\
     objects_unchanged store_after_example_calls h2).
Proof.
  apply (C9_detect_reps_and_calculate_are_pure numpy_seq example_store
           store_after_example_calls example_calls 0 1 2 3);
    vm_compute; reflexivity.
Defined.

(** C10 (amended). Whenever a constructed calculator reports that the
    threshold was reached, the baseline is strictly positive, the reported
    position is a position of the valid reps, the threshold flag there is
    True, that is, the smoothed speed there is below
    [baseline_speed * (1 - drop_threshold)] as the program computes it, and
    the reported drop is the relative drop of that smoothed speed. *)
Theorem C10_ant_reached_invariants :
  forall (NP : Numpy) (br : Z) (d : float) (w sc : Z)
         (self : ANTCalculator) (reps : list DetectedRep) (res : ANTResult),
    ANTCalculator_init br d w sc = Ok self ->
    calculate self reps = Ok res ->
    ant_reached res = true ->
    (0 <? baseline_speed res) = true /\
    exists (j : nat) (s : float),
      ant_rep_index res = Some (Z.of_nat j) /\
      (j < length (filter is_valid reps))%nat /\
      nth_error (smoothed_speeds res) j = Some s /\
      nth_error (threshold_flags res) j = Some true /\
      (s <? baseline_speed res * (1 - d)) = true /\
      drop_percent_at_ant res
      = Some ((baseline_speed res - s) / baseline_speed res).
Proof.
  intros NP br d w sc self reps res Hinit Hcalc Hreached.
  apply init_Ok in Hinit. destruct Hinit as [(Hbr & _ & _ & Hsc) ->].
  destruct (Z.ltb_spec (Z.of_nat (length (filter is_valid reps))) (br + sc))
    as [Hlt|Hge].
  { unfold calculate in Hcalc.
    cbn [baseline_reps sustain_count calculator] in Hcalc.
    destruct (Z.ltb_spec (Z.of_nat (length (filter is_valid reps))) (br + sc));
      [|lia].
    assert (E : res = insufficient_data) by congruence.
    rewrite E in Hreached. discriminate. }
  destruct (np_mean (slice (map peak_speed (filter is_valid reps)) 0 br) <=? 0)
    eqn:Hb.
  { unfold calculate in Hcalc.
    cbn [baseline_reps sustain_count calculator] in Hcalc.
    destruct (Z.ltb_spec (Z.of_nat (length (filter is_valid reps))) (br + sc));
      [lia|].
    rewrite Hb in Hcalc.
    assert (E : ant_reached res = false)
      by (injection Hcalc as <-; reflexivity).
    congruence. }
  pose proof (calculate_past_gates (calculator br d w sc) reps Hsc Hge Hb) as H.
  cbv zeta in H.
  cbn [baseline_reps sustain_count smoothing_window drop_threshold calculator] in H.
  destruct (_find_sustained_drop _ _) as [idx|].
  - destruct H as (j & rep & s & -> & Hfirst & Hrep & Hs & H).
    rewrite H in Hcalc.
    assert (E : res = _) by (symmetry; injection Hcalc as Hres; exact Hres).
    clear Hcalc H. subst res.
    cbn [baseline_speed ant_rep_index smoothed_speeds threshold_flags
         drop_percent_at_ant].
    assert (Hflag : (s <? np_mean (slice (map peak_speed (filter is_valid reps)) 0 br)
                          * (1 - d)) = true).
    { destruct Hfirst as [[Hlen Hall] _].
      specialize (Hall j ltac:(lia)).
      rewrite <- Hall.
      erewrite (nth_error_nth _ _ false); [reflexivity|].
      rewrite nth_error_map, Hs. reflexivity. }
    split.
    + eapply positive_of_not_leb; eassumption.
    + exists j, s. repeat split; try assumption.
      * apply nth_error_Some. congruence.
      * rewrite nth_error_map, Hs. cbn [option_map]. now rewrite Hflag.
  - destruct H as [_ H]. rewrite H in Hcalc.
    assert (E : ant_reached res = false)
      by (injection Hcalc as <-; reflexivity).
    congruence.
Qed.

Lemma C10_witness_sustained_drop :
  (0 <? 1) = true /\
  exists (j : nat) (s : float),
    Some 5%Z = Some (Z.of_nat j) /\
    (j < length (filter is_valid sustained_drop_reps))%nat /\
    nth_error [1; 1; 1; 1; 1; 0.5; 0.5; 0.5] j = Some s /\
    nth_error [false; false; false; false; false; true; true; true] j
    = Some true /\
    (s <? 1 * (1 - 0.20)) = true /\
    Some 0.5 = Some ((1 - s) / 1).
Proof.
  apply (C10_ant_reached_invariants numpy_seq 5%Z 0.20 1%Z 2%Z
           (calculator 5 0.20 1 2) sustained_drop_reps
           {| ant_reached := true;
              ant_rep_index := Some 5%Z;
              ant_timestamp_seconds := Some 5;
              baseline_speed := 1;
              drop_percent_at_ant := Some 0.5;
              smoothed_speeds := [1; 1; 1; 1; 1; 0.5; 0.5; 0.5];
              threshold_flags :=
                [false; false; false; false; false; true; true; true] |});
    vm_compute; reflexivity.
Defined.

(** C10 as stated fails under binary64 rounding: with baseline 1.0, a drop
    threshold of 0.5 and a smoothed speed that is the largest number below
    0.5, the threshold is reached and the reported drop is exactly 0.5, which
    is not strictly greater than the threshold. *)
Lemma C10_counterexample_drop_rounds_to_threshold :
  ANTCalculator_init 3 0.5 1 1 = Ok (calculator 3 0.5 1 1) /\
  exists res,
    @calculate numpy_seq (calculator 3 0.5 1 1) rounding_reps = Ok res /\
    ant_reached res = true /\
    drop_percent_at_ant res = Some 0.5 /\
    fgtb 0.5 (drop_threshold (calculator 3 0.5 1 1)) = false.
Proof.
  split; [reflexivity|].
  eexists. split; [vm_compute; reflexivity|]. repeat split.
Qed.

(** * Further properties of the code *)

Module SA := streaming_ant_calculator.
Module PE := pose_estimator.
Module VP := video_processor.

(** ** The threshold detector *)

(** The three ways [calculate] returns on a calculator that was
    constructed. *)
Lemma calculate_cases `{Numpy} (self : ANTCalculator) (reps : list DetectedRep) :
  (1 <= sustain_count self)%Z ->
  let valid := filter is_valid reps in
  let speeds := map peak_speed valid in
  let baseline := np_mean (slice speeds 0 (baseline_reps self)) in
  let smoothed := _smooth speeds (smoothing_window self) in
  let flags := map (fun s => s <? baseline * (1 - drop_threshold self)) smoothed in
  ((Z.of_nat (length valid) < baseline_reps self + sustain_count self)%Z /\
   calculate self reps = Ok insufficient_data) \/
  ((baseline_reps self + sustain_count self <= Z.of_nat (length valid))%Z /\
   (baseline <=? 0) = true /\
   exists res,
     calculate self reps = Ok res /\
     ant_reached res = false /\ ant_rep_index res = None /\
     smoothed_speeds res = speeds /\
     threshold_flags res = repeat false (length speeds)) \/
  ((baseline_reps self + sustain_count self <= Z.of_nat (length valid))%Z /\
   (baseline <=? 0) = false /\
   exists res,
     calculate self reps = Ok res /\
     baseline_speed res = baseline /\
     smoothed_speeds res = smoothed /\
     threshold_flags res = flags /\
     ant_rep_index res = _find_sustained_drop flags (sustain_count self) /\
     (ant_reached res = true <-> ant_rep_index res <> None) /\
     (forall idx, ant_rep_index res = Some idx ->
        exists rep s,
          getitem valid idx = Ok rep /\ getitem smoothed idx = Ok s /\
          ant_timestamp_seconds res = Some (start_time rep) /\
          drop_percent_at_ant res = Some ((baseline - s) / baseline))).
Proof.
  intros Hsc valid speeds baseline smoothed flags.
  destruct (Z.ltb_spec (Z.of_nat (length valid))
              (baseline_reps self + sustain_count self)) as [Hlt|Hge].
  - left. split; [exact Hlt|]. unfold calculate. fold valid.
    destruct (Z.ltb_spec (Z.of_nat (length valid))
                (baseline_reps self + sustain_count self)); [reflexivity|lia].
  - right. destruct (baseline <=? 0) eqn:Hb.
    + left. split; [exact Hge|]. split; [reflexivity|].
      eexists. split.
      * unfold calculate. fold valid.
        destruct (Z.ltb_spec (Z.of_nat (length valid))
                    (baseline_reps self + sustain_count self)); [lia|].
        fold speeds. fold baseline. rewrite Hb. reflexivity.
      * repeat split.
    + right. split; [exact Hge|]. split; [reflexivity|].
      pose proof (calculate_past_gates self reps Hsc Hge Hb) as H'.
      cbv zeta in H'. fold valid speeds baseline smoothed flags in H'.
      destruct (_find_sustained_drop flags (sustain_count self)) as [idx|] eqn:E.
      * destruct H' as (j & rep & s & -> & _ & Hrep & Hs & Hcalc).
        eexists. split; [exact Hcalc|].
        cbn [baseline_speed smoothed_speeds threshold_flags ant_rep_index
             ant_reached ant_timestamp_seconds drop_percent_at_ant].
        repeat split; try congruence.
        intros idx [= <-]. exists rep, s.
        rewrite (getitem_nat _ _ _ Hrep), (getitem_nat _ _ _ Hs).
        repeat split.
      * destruct H' as [_ Hcalc]. eexists. split; [exact Hcalc|].
        cbn [baseline_speed smoothed_speeds threshold_flags ant_rep_index
             ant_reached ant_timestamp_seconds drop_percent_at_ant].
        repeat split; try congruence.
Qed.

(** X1. The result of a constructed calculator has as many smoothed speeds
    as threshold flags: none when the valid reps are too few, one per valid
    rep otherwise. *)
Theorem X1_result_arrays_are_aligned :
  forall (NP : Numpy) (br : Z) (d : float) (w sc : Z)
         (self : ANTCalculator) (reps : list DetectedRep) (res : ANTResult),
    ANTCalculator_init br d w sc = Ok self ->
    calculate self reps = Ok res ->
    let n := length (filter is_valid reps) in
    length (smoothed_speeds res) = length (threshold_flags res) /\
    ((Z.of_nat n < br + sc)%Z -> length (threshold_flags res) = 0%nat) /\
    ((br + sc <= Z.of_nat n)%Z -> length (threshold_flags res) = n).
Proof.
  intros NP br d w sc self reps res Hinit Hcalc n.
  apply init_Ok in Hinit. destruct Hinit as [(_ & _ & _ & Hsc) ->].
  pose proof (calculate_cases (calculator br d w sc) reps Hsc) as H.
  cbv zeta in H. cbn [baseline_reps sustain_count calculator] in H.
  fold n in H.
  destruct H as [[Hlt E]|[(Hge & _ & res' & E & _ & _ & Hs & Hf)
                         |(Hge & _ & res' & E & _ & Hs & Hf & _)]];
    rewrite E in Hcalc;
    assert (Eres : res = _) by (symmetry; injection Hcalc as Hc; exact Hc);
    subst res.
  - cbn. repeat split; try reflexivity. lia.
  - rewrite Hs, Hf, repeat_length, length_map. fold n.
    repeat split; try reflexivity. lia.
  - rewrite Hs, Hf, length_map, length_smooth, length_map. fold n.
    repeat split; try reflexivity. lia.
Qed.

Lemma X1_witness_sustained_drop :
  length [1; 1; 1; 1; 1; 0.5; 0.5; 0.5]
  = length [false; false; false; false; false; true; true; true] /\
  ((Z.of_nat (length (filter is_valid sustained_drop_reps)) < 5 + 2)%Z ->
   length [false; false; false; false; false; true; true; true] = 0%nat) /\
  ((5 + 2 <= Z.of_nat (length (filter is_valid sustained_drop_reps)))%Z ->
   length [false; false; false; false; false; true; true; true]
   = length (filter is_valid sustained_drop_reps)).
Proof.
  apply (X1_result_arrays_are_aligned numpy_seq 5%Z 0.20 1%Z 2%Z
           (calculator 5 0.20 1 2) sustained_drop_reps
           {| ant_reached := true;
              ant_rep_index := Some 5%Z;
              ant_timestamp_seconds := Some 5;
              baseline_speed := 1;
              drop_percent_at_ant := Some 0.5;
              smoothed_speeds := [1; 1; 1; 1; 1; 0.5; 0.5; 0.5];
              threshold_flags :=
                [false; false; false; false; false; true; true; true] |});
    vm_compute; reflexivity.
Defined.

(** The scan stops at its first hit, so a longer flag sequence gives the
    same answer. *)
Lemma find_sustained_drop_from_app (flags more : list bool) (k : Z) :
  forall (i c r : Z),
    find_sustained_drop_from flags k i c = Some r ->
    find_sustained_drop_from (flags ++ more) k i c = Some r.
Proof.
  induction flags as [|b flags IH]; intros i c r H; [discriminate|].
  cbn [app find_sustained_drop_from] in *.
  destruct b.
  - destruct (c + 1 >=? k)%Z; [exact H | apply IH; exact H].
  - apply IH. exact H.
Qed.

(** X2. When [_find_sustained_drop] finds a sustained drop, the position it
    returns is not negative, the [sustain_count] flags from it on lie within
    the sequence, and it returns the same position on every extension of the
    sequence. *)
Theorem X2_sustained_drop_is_in_range_and_stable :
  forall (flags more : list bool) (k i : Z),
    (1 <= k)%Z ->
    _find_sustained_drop flags k = Some i ->
    (0 <= i)%Z /\
    (i + k <= Z.of_nat (length flags))%Z /\
    _find_sustained_drop (flags ++ more) k = Some i.
Proof.
  intros flags more k i Hk H.
  pose proof (find_sustained_drop_spec flags k Hk) as Hspec.
  rewrite H in Hspec. destruct Hspec as (j & -> & [Hlen _] & _).
  repeat split; try lia.
  unfold _find_sustained_drop in *. now apply find_sustained_drop_from_app.
Qed.

Lemma X2_witness_two_of_three :
  (0 <= 1)%Z /\
  (1 + 2 <= Z.of_nat (length [false; true; true]))%Z /\
  _find_sustained_drop ([false; true; true] ++ [false; true]) 2 = Some 1%Z.
Proof.
  apply (X2_sustained_drop_is_in_range_and_stable
           [false; true; true] [false; true] 2%Z 1%Z);
    [lia | reflexivity].
Defined.

Lemma sustained_drop_not_negative (flags : list bool) (k idx : Z) :
  (1 <= k)%Z -> _find_sustained_drop flags k = Some idx -> (0 <= idx)%Z.
Proof.
  intros Hk H. pose proof (find_sustained_drop_spec flags k Hk) as Hspec.
  rewrite H in Hspec. destruct Hspec as (j & -> & _). lia.
Qed.

Lemma getitem_app {A : Type} (l more : list A) (i : Z) (a : A) :
  (0 <= i)%Z -> getitem l i = Ok a -> getitem (l ++ more) i = Ok a.
Proof.
  intros Hi. unfold getitem.
  destruct (Z.ltb_spec i 0); [lia|].
  destruct (Z.ltb_spec i 0); [lia|].
  destruct (nth_error l (Z.to_nat i)) as [a'|] eqn:E; [|discriminate].
  intros [= <-]. rewrite nth_error_app1 by (apply nth_error_Some; congruence).
  now rewrite E.
Qed.

(** X3. With a smoothing window of 1, a threshold that a constructed
    calculator has reached is kept when more reps follow: the position, the
    timestamp, the baseline and the drop reported stay the same. *)
Theorem X3_reached_threshold_is_kept_with_window_one :
  forall (NP : Numpy) (br : Z) (d : float) (sc : Z)
         (self : ANTCalculator) (reps more : list DetectedRep) (res : ANTResult),
    ANTCalculator_init br d 1 sc = Ok self ->
    calculate self reps = Ok res ->
    ant_reached res = true ->
    exists res',
      calculate self (reps ++ more) = Ok res' /\
      ant_reached res' = true /\
      ant_rep_index res' = ant_rep_index res /\
      ant_timestamp_seconds res' = ant_timestamp_seconds res /\
      baseline_speed res' = baseline_speed res /\
      drop_percent_at_ant res' = drop_percent_at_ant res.
Proof.
  intros NP br d sc self reps more res Hinit Hcalc Hreached.
  apply init_Ok in Hinit. destruct Hinit as [(Hbr & _ & _ & Hsc) ->].
  pose proof (calculate_cases (calculator br d 1 sc) reps Hsc) as H.
  pose proof (calculate_cases (calculator br d 1 sc) (reps ++ more) Hsc) as H'.
  cbv zeta in H, H'.
  cbn [baseline_reps sustain_count smoothing_window drop_threshold calculator]
    in H, H'.
  rewrite filter_app, map_app in H'.
  set (valid := filter is_valid reps) in *.
  set (speeds := map peak_speed valid) in *.
  set (valid2 := filter is_valid more) in *.
  set (speeds2 := map peak_speed valid2) in *.
  rewrite !smooth_unchanged in H, H' by lia.
  destruct H as [[_ E]|[(_ & _ & r0 & E & Hr & _)|(Hge & Hb & r0 & E & Hbase
                         & Hsm & Hfl & Hidx & Hiff & Hat)]];
    rewrite E in Hcalc.
  { assert (Eres : res = insufficient_data) by congruence.
    rewrite Eres in Hreached. discriminate. }
  { assert (Eres : res = r0) by congruence.
    rewrite Eres, Hr in Hreached. discriminate. }
  assert (Eres : res = r0) by congruence. subst r0. clear Hcalc E.
  assert (Hslice : slice (speeds ++ speeds2) 0 br = slice speeds 0 br).
  { rewrite !slice_prefix by lia. rewrite firstn_app.
    assert (Hlen : (Z.to_nat br <= length speeds)%nat)
      by (unfold speeds; rewrite length_map; lia).
    replace (Z.to_nat br - length speeds)%nat with 0%nat by lia.
    cbn [firstn]. now rewrite app_nil_r. }
  rewrite Hslice in H'.
  set (baseline := np_mean (slice speeds 0 br)) in *.
  destruct (ant_rep_index res) as [idx|] eqn:Eidx;
    [|exfalso; apply (proj1 Hiff Hreached); reflexivity].
  destruct (Hat idx eq_refl) as (rep & s & Hrep & Hs & Hts & Hdrop).
  assert (Hidx0 : (0 <= idx)%Z).
  { symmetry in Hidx.
    apply (sustained_drop_not_negative _ _ _ Hsc Hidx). }
  destruct H' as [[Hlt _]|[(_ & Hb' & _)|(_ & _ & r1 & E' & Hbase' & Hsm'
                           & Hfl' & Hidx' & Hiff' & Hat')]].
  { rewrite length_app in Hlt. lia. }
  { congruence. }
  exists r1. split; [exact E'|].
  assert (Eidx' : ant_rep_index r1 = Some idx).
  { rewrite Hidx', map_app. unfold _find_sustained_drop.
    apply find_sustained_drop_from_app. symmetry. exact Hidx. }
  destruct (Hat' idx Eidx') as (rep' & s' & Hrep' & Hs' & Hts' & Hdrop').
  rewrite (getitem_app _ _ _ _ Hidx0 Hrep) in Hrep'.
  rewrite (getitem_app _ _ _ _ Hidx0 Hs) in Hs'.
  assert (Er : rep' = rep) by congruence.
  assert (Es : s' = s) by congruence. subst rep' s'.
  repeat split; try congruence.
  apply (proj2 Hiff'). congruence.
Qed.

Lemma X3_witness_sustained_drop :
  exists res',
    @calculate numpy_seq (calculator 5 0.20 1 2)
      (sustained_drop_reps ++ reps_with_speeds [1; 1]) = Ok res' /\
    ant_reached res' = true /\
    ant_rep_index res' = Some 5%Z /\
    ant_timestamp_seconds res' = Some 5 /\
    baseline_speed res' = 1 /\
    drop_percent_at_ant res' = Some 0.5.
Proof.
  apply (X3_reached_threshold_is_kept_with_window_one numpy_seq 5%Z 0.20 2%Z
           (calculator 5 0.20 1 2) sustained_drop_reps (reps_with_speeds [1; 1])
           {| ant_reached := true;
              ant_rep_index := Some 5%Z;
              ant_timestamp_seconds := Some 5;
              baseline_speed := 1;
              drop_percent_at_ant := Some 0.5;
              smoothed_speeds := [1; 1; 1; 1; 1; 0.5; 0.5; 0.5];
              threshold_flags :=
                [false; false; false; false; false; true; true; true] |});
    vm_compute; reflexivity.
Defined.

(** ** The streaming calculator *)

(** What a streaming calculator holds for a log and a flag telling whether a
    rep was added since the last reset. *)
Lemma run_calls_invariant `{Numpy} (c : ANTCalculator) :
  (1 <= sustain_count c)%Z ->
  forall (calls : list StreamingCall) (st : SA.StreamingANTCalculator)
         (log : list DetectedRep) (added : bool),
    SA.calculator st = c ->
    SA.reps st = log ->
    (if added
     then exists res, calculate c log = Ok res /\ SA._last_result st = Some res
     else SA._last_result st = None) ->
    let final := run_calls st calls in
    SA.calculator final = c /\
    SA.reps final = log_after log calls /\
    (if add_called_after added calls
     then exists res,
         calculate c (log_after log calls) = Ok res /\
         SA._last_result final = Some res
     else SA._last_result final = None).
Proof.
  intros Hsc.
  assert (Hrecalc : forall st reps,
             SA.calculator st = c ->
             let st' := fst (SA.recalculate st reps) in
             SA.calculator st' = c /\ SA.reps st' = reps /\
             exists res, calculate c reps = Ok res /\
                         SA._last_result st' = Some res).
  { intros st reps Hc. unfold SA.recalculate. rewrite Hc.
    destruct (calculate_total c reps Hsc) as [res Hres]. rewrite Hres.
    cbn. repeat split. exists res. split; reflexivity. }
  induction calls as [|call calls IH]; intros st log added Hc Hr Hl.
  - cbn. repeat split; assumption.
  - cbn [run_calls fold_left log_after add_called_after].
    destruct call as [rep|new_reps|]; cbn [run_call].
    + unfold SA.add_rep. rewrite Hr.
      destruct (Hrecalc st (log ++ [rep]) Hc) as (Hc' & Hr' & Hl').
      apply (IH _ _ true Hc' Hr' Hl').
    + unfold SA.add_reps. rewrite Hr.
      destruct (Hrecalc st (log ++ new_reps) Hc) as (Hc' & Hr' & Hl').
      apply (IH _ _ true Hc' Hr' Hl').
    + apply (IH (SA.reset st) [] false); [exact Hc | reflexivity | reflexivity].
Qed.

(** X4. A streaming calculator that was constructed, after any sequence of
    [add_rep], [add_reps] and [reset] calls, holds the reps added since the
    last reset.  When [add_rep] or [add_reps] was called since the last reset
    (or since construction), its current result is what [calculate] returns
    on that whole log, also when the call was an [add_reps] of no reps and
    the log is empty: the result is then the insufficient-data one, not
    [None].  When no such call was made, there is no current result. *)
Theorem X4_streaming_calculator_recomputes_its_log :
  forall (NP : Numpy) (br : Z) (d : float) (w sc : Z)
         (st : SA.StreamingANTCalculator) (calls : list StreamingCall),
    SA.StreamingANTCalculator_init br d w sc = Ok st ->
    let final := run_calls st calls in
    SA.reps final = log_after [] calls /\
    (add_called_after false calls = true ->
     exists res,
       calculate (calculator br d w sc) (log_after [] calls) = Ok res /\
       SA.get_current_result final = Some res) /\
    (add_called_after false calls = true -> log_after [] calls = [] ->
     SA.get_current_result final = Some insufficient_data) /\
    (add_called_after false calls = false ->
     SA.get_current_result final = None /\ log_after [] calls = []).
Proof.
  intros NP br d w sc st calls Hinit final.
  unfold SA.StreamingANTCalculator_init in Hinit.
  destruct (ANTCalculator_init br d w sc) as [c|e] eqn:Ec; [|discriminate].
  cbn [bind] in Hinit.
  assert (Est : st = {| SA.calculator := c; SA.reps := [];
                        SA._last_result := None |}) by congruence.
  pose proof Ec as Ec'.
  apply init_Ok in Ec. destruct Ec as [(_ & _ & _ & Hsc) ->].
  destruct (run_calls_invariant (calculator br d w sc) Hsc calls st [] false)
    as (_ & Hr & Hl); try (rewrite Est; reflexivity).
  fold final in Hr, Hl. split; [exact Hr|].
  unfold SA.get_current_result.
  destruct (add_called_after false calls) eqn:Ecalled.
  - split; [intros _; exact Hl|]. split; [|discriminate].
    intros _ Hempty. destruct Hl as (res & Hres & ->).
    rewrite Hempty in Hres. unfold calculate in Hres.
    cbn [filter length calculator baseline_reps sustain_count] in Hres.
    destruct (Z.ltb_spec (Z.of_nat 0) (br + sc)); [congruence|].
    apply init_Ok in Ec'. destruct Ec' as [(Hbr & _) _]. cbn in *. lia.
  - split; [discriminate|]. split; [discriminate|]. intros _.
    split; [exact Hl|].
    clear -Ecalled. revert Ecalled.
    assert (Hgen : forall log called,
               add_called_after called calls = false ->
               (called = false -> log = []) ->
               log_after log calls = []).
    { induction calls as [|c calls IH]; intros log called Hc Hlog.
      - cbn in *. auto.
      - cbn [add_called_after log_after fold_left] in *.
        destruct c; (eapply IH; [exact Hc|]); try discriminate.
        reflexivity. }
    intros E. exact (Hgen [] false E (fun _ => eq_refl)).
Qed.

Lemma X4_witness_two_calls :
  SA.reps
    (@run_calls numpy_seq
       {| SA.calculator := calculator 5 0.20 1 2; SA.reps := [];
          SA._last_result := None |}
       [AddReps sustained_drop_reps; AddRep (rep_at 8 1)])
  = log_after [] [AddReps sustained_drop_reps; AddRep (rep_at 8 1)].
Proof.
  apply (X4_streaming_calculator_recomputes_its_log numpy_seq 5%Z 0.20 1%Z 2%Z).
  reflexivity.
Defined.

(** ** The rep segmentation engine *)

Lemma consecutive_snoc (l : list nat) (x : nat) :
  consecutive (l ++ [x])
  = consecutive l ++ match l with [] => [] | _ => [(last l 0%nat, x)] end.
Proof.
  unfold consecutive. induction l as [|a l IH]; [reflexivity|].
  destruct l as [|b l]; [reflexivity|].
  change (combine ((a :: b :: l) ++ [x]) (tl ((a :: b :: l) ++ [x])))
    with ((a, b) :: combine ((b :: l) ++ [x]) (tl ((b :: l) ++ [x]))).
  rewrite IH. reflexivity.
Qed.

Lemma spaced_snoc (d : nat) (l : list nat) (x : nat) :
  spaced d l -> (l <> [] -> (last l 0 + d <= x)%nat) -> spaced d (l ++ [x]).
Proof.
  intros Hl Hx a b Hin. rewrite consecutive_snoc in Hin.
  apply in_app_or in Hin. destruct Hin as [Hin|Hin]; [now apply Hl|].
  destruct l as [|c l]; [contradiction|].
  destruct Hin as [[= <- <-]|[]]. apply Hx. discriminate.
Qed.

Lemma spaced_removelast (d : nat) (l : list nat) :
  spaced d l -> spaced d (removelast l).
Proof.
  intros Hl a b Hin. destruct l as [|c l]; [contradiction|].
  apply Hl.
  rewrite (app_removelast_last 0%nat (l := c :: l)) by discriminate.
  rewrite consecutive_snoc. apply in_or_app. now left.
Qed.

Lemma spaced_replace_last (d : nat) (l : list nat) (x : nat) :
  spaced d l -> (last l 0 < x)%nat -> spaced d (removelast l ++ [x]).
Proof.
  intros Hl Hx. apply spaced_snoc; [now apply spaced_removelast|].
  intros Hne. destruct l as [|c l]; [contradiction|].
  assert (Hpair : In (last (removelast (c :: l)) 0%nat, last (c :: l) 0%nat)
                     (consecutive (c :: l))).
  { rewrite (app_removelast_last 0%nat (l := c :: l)) at 3 by discriminate.
    rewrite consecutive_snoc. apply in_or_app. right.
    destruct (removelast (c :: l)); [contradiction|]. now left. }
  apply Hl in Hpair. lia.
Qed.

Lemma last_below (bound : nat) (l : list nat) :
  l <> [] -> Forall (fun p => (p < bound)%nat) l -> (last l 0 < bound)%nat.
Proof.
  intros Hne Hl. rewrite Forall_forall in Hl. apply Hl.
  rewrite (app_removelast_last 0%nat Hne) at 2.
  apply in_or_app. right. now left.
Qed.

(** One iteration of [_find_peaks] keeps the peaks local maxima and
    spaced. *)
Lemma find_peaks_step_spaced (signal : list float) (d i : nat)
    (peaks : list nat) :
  (1 <= i)%nat -> (i + 1 < length signal)%nat ->
  Forall (fun p => (p < i)%nat) peaks ->
  Forall (local_maximum signal) peaks /\ spaced d peaks ->
  Forall (local_maximum signal) (find_peaks_step signal d peaks i) /\
  spaced d (find_peaks_step signal d peaks i).
Proof.
  intros Hi1 Hi2 Hb [Hmax Hsp]. unfold find_peaks_step.
  destruct (fgtb (nth i signal nan) (nth (i - 1) signal nan)
            && fgtb (nth i signal nan) (nth (i + 1) signal nan)) eqn:Hloc;
    [|split; assumption].
  apply andb_prop in Hloc.
  assert (Hi : local_maximum signal i) by (repeat split; try apply Hloc; lia).
  destruct (match peaks with [] => true | _ => false end
            || (Z.of_nat d <=? Z.of_nat i - Z.of_nat (last peaks 0%nat))%Z)
    eqn:Hfar.
  - split.
    + apply Forall_app. split; [exact Hmax | constructor; [exact Hi|constructor]].
    + apply spaced_snoc; [exact Hsp|]. intros Hne.
      destruct peaks as [|c peaks]; [contradiction|]. cbn [orb] in Hfar.
      apply Z.leb_le in Hfar. lia.
  - destruct (fgtb (nth i signal nan) (nth (last peaks 0%nat) signal nan));
      [|split; assumption].
    split.
    + apply Forall_app. split; [apply Forall_removelast; exact Hmax|].
      constructor; [exact Hi|constructor].
    + apply spaced_replace_last; [exact Hsp|].
      apply last_below; [|exact Hb].
      destruct peaks; [discriminate | discriminate].
Qed.

Lemma fold_find_peaks_spaced (signal : list float) (d : nat) :
  forall (n a : nat) (peaks : list nat),
    (1 <= a)%nat -> (a + n + 1 <= length signal)%nat ->
    peaks_below a peaks ->
    Forall (local_maximum signal) peaks /\ spaced d peaks ->
    Forall (local_maximum signal)
      (fold_left (find_peaks_step signal d) (seq a n) peaks) /\
    spaced d (fold_left (find_peaks_step signal d) (seq a n) peaks).
Proof.
  induction n as [|n IH]; intros a peaks Ha Hlen Hbelow Hinv; [exact Hinv|].
  cbn [seq fold_left]. apply IH; try lia.
  - apply find_peaks_step_below. exact Hbelow.
  - apply find_peaks_step_spaced; try lia; [apply Hbelow | exact Hinv].
Qed.

Lemma find_peaks_spaced (signal : list float) (d : nat) :
  Forall (local_maximum signal) (_find_peaks signal d) /\
  spaced d (_find_peaks signal d).
Proof.
  unfold _find_peaks.
  destruct (Nat.le_gt_cases (length signal) 2) as [Hle|Hgt].
  - replace (length signal - 1 - 1)%nat with 0%nat by lia. cbn.
    split; [constructor | intros a b []].
  - apply fold_find_peaks_spaced; try lia.
    + split; constructor.
    + split; [constructor | intros a b []].
Qed.

(** X5. Every position [_find_peaks] returns is a strict local maximum of
    the signal that is neither its first nor its last position, the positions
    are in increasing order, and consecutive ones are at least
    [min_distance] apart. *)
Theorem X5_peaks_are_spaced_local_maxima :
  forall (signal : list float) (min_distance : nat),
    let peaks := _find_peaks signal min_distance in
    Forall (local_maximum signal) peaks /\
    StronglySorted lt peaks /\
    spaced min_distance peaks.
Proof.
  intros signal d peaks.
  destruct (find_peaks_spaced signal d) as [Hmax Hsp].
  split; [exact Hmax|]. split; [|exact Hsp].
  apply (find_peaks_sorted signal d).
Qed.

Lemma spaced_span (d : nat) (l : list nat) :
  spaced d l -> l <> [] ->
  (hd 0 l + d * (length l - 1) <= last l 0)%nat.
Proof.
  induction l as [|a l IH]; intros Hsp Hne; [contradiction|].
  destruct l as [|b l]; [cbn; lia|].
  assert (Hab : (a + d <= b)%nat) by (apply Hsp; now left).
  assert (Hrest : spaced d (b :: l)).
  { intros x y Hin. apply Hsp. now right. }
  specialize (IH Hrest ltac:(discriminate)).
  change (last (a :: b :: l) 0%nat) with (last (b :: l) 0%nat).
  cbn [hd length] in *. nia.
Qed.

Lemma detect_reps_span :
  forall (NP : Numpy) (self : RepDetector)
         (samples : list schemas.PositionSample),
    let reps := detect_reps self samples in
    let n := length (valid_samples_of self samples) in
    (forall r, In r reps ->
       (1 <= start_idx r)%nat /\
       (start_idx r + 5 <= end_idx r)%nat /\
       (end_idx r + 1 < n)%nat) /\
    (reps <> [] -> (5 * length reps + 3 <= n)%nat /\ (10 <= n)%nat).
Proof.
  intros NP self samples reps n.
  destruct (detect_reps_structure self samples) as (peaks & _ & Heq & Hne).
  fold reps in Heq, Hne. fold n in Hne.
  destruct reps as [|r0 reps'] eqn:Ereps.
  { split; [intros r []|]. intros H. now contradiction H. }
  destruct (Hne ltac:(discriminate)) as [-> Hn]. clear Hne.
  rewrite <- Ereps in *. clear Ereps r0 reps'.
  set (signal := map opp (_smooth_signal
                            (map schemas.y (valid_samples_of self samples))
                            VELOCITY_SMOOTHING_WINDOW)).
  assert (Hsig : length signal = n).
  { unfold signal. now rewrite length_map, length_smooth_signal, length_map. }
  destruct (find_peaks_spaced signal MIN_SAMPLES_BETWEEN_PEAKS) as [Hmax Hsp].
  change (_find_peaks signal MIN_SAMPLES_BETWEEN_PEAKS)
    with (peaks_of self samples) in Hmax, Hsp.
  rewrite Forall_forall in Hmax.
  split.
  - intros r Hr. rewrite Heq in Hr. apply in_map_iff in Hr.
    destruct Hr as ([a b] & <- & Hab).
    cbn [rep_between start_idx end_idx fst snd].
    pose proof (Hsp a b Hab) as Hd.
    pose proof (Hmax a (in_combine_l _ _ _ _ Hab)) as (Ha & _).
    assert (Hb : In b (peaks_of self samples)).
    { apply in_combine_r in Hab. destruct (peaks_of self samples); [contradiction|].
      now right. }
    pose proof (Hmax b Hb) as (_ & Hb2 & _).
    unfold MIN_SAMPLES_BETWEEN_PEAKS in Hd. lia.
  - intros Hne. split; [|exact Hn].
    assert (Hlen : length reps = (length (peaks_of self samples) - 1)%nat).
    { rewrite Heq, length_map. apply length_consecutive. }
    assert (Hpne : peaks_of self samples <> []).
    { intros E. rewrite E in Hlen. cbn in Hlen.
      destruct reps; [contradiction | discriminate]. }
    pose proof (spaced_span _ _ Hsp Hpne) as Hspan.
    assert (Hhd : (1 <= hd 0 (peaks_of self samples))%nat).
    { destruct (peaks_of self samples) as [|p ps]; [contradiction|].
      destruct (Hmax p (or_introl eq_refl)) as [H1 _]. exact H1. }
    assert (Hlast : (last (peaks_of self samples) 0 + 1 < n)%nat).
    { assert (Hin : In (last (peaks_of self samples) 0%nat)
                       (peaks_of self samples)).
      { rewrite (app_removelast_last 0%nat Hpne) at 2.
        apply in_or_app. right. now left. }
      destruct (Hmax _ Hin) as (_ & H2 & _). rewrite <- Hsig. exact H2. }
    unfold MIN_SAMPLES_BETWEEN_PEAKS in Hspan. lia.
Qed.

(** X6. Every rep [detect_reps] returns spans at least [5] positions of the
    kept samples, starts after the first and ends before the last of them;
    and [k] reps need at least [5 * k + 3] kept samples, and never fewer
    than 10. *)
Theorem X6_reps_span_five_positions :
  forall (NP : Numpy) (self : RepDetector)
         (samples : list schemas.PositionSample),
    let reps := detect_reps self samples in
    let n := length (valid_samples_of self samples) in
    (forall r, In r reps ->
       (1 <= start_idx r)%nat /\
       (start_idx r + 5 <= end_idx r)%nat /\
       (end_idx r + 1 < n)%nat) /\
    (reps <> [] -> (5 * length reps + 3 <= n)%nat /\ (10 <= n)%nat).
Proof.
  exact detect_reps_span.
Qed.

(** X7. [_smooth_signal] returns a signal of the length of its input, for
    every window; the input itself when the window is at most 1 or longer
    than the input. *)
Theorem X7_smooth_signal_keeps_length :
  forall (NP : Numpy) (signal : list float) (window : nat),
    length (_smooth_signal signal window) = length signal /\
    ((window <= 1 \/ length signal < window)%nat ->
     _smooth_signal signal window = signal).
Proof.
  intros NP signal window. split; [apply length_smooth_signal|].
  intros H. unfold _smooth_signal.
  destruct (Nat.leb_spec window 1); [reflexivity|].
  destruct (Nat.ltb_spec (length signal) window); [reflexivity|lia].
Qed.

(** ** The streaming rep segmenter *)

(** The pruning loop drops a prefix: the samples older than the cutoff, up
    to the first one that is not. *)
Lemma prune_spec (cutoff : float) :
  forall (l : list schemas.PositionSample) (idx : Z),
  exists k : nat,
    (k <= length l)%nat /\
    fst (prune cutoff l idx) = skipn k l /\
    Forall (fun s => (schemas.t s <? cutoff) = true) (firstn k l) /\
    (forall s0, hd_error (skipn k l) = Some s0 ->
                (schemas.t s0 <? cutoff) = false) /\
    ((0 <= idx)%Z -> (0 <= snd (prune cutoff l idx))%Z).
Proof.
  induction l as [|s l IH]; intros idx.
  - exists 0%nat. cbn. repeat split; try lia; try constructor.
    intros s0 [=].
  - cbn [prune]. destruct (schemas.t s <? cutoff) eqn:E.
    + destruct (IH (Z.max 0 (idx - 1))) as (k & Hk & Hs & Hold & Hhd & Hidx).
      exists (S k). cbn [length skipn firstn].
      split; [lia|]. split; [exact Hs|].
      split; [constructor; assumption|]. split; [exact Hhd|].
      intros _. apply Hidx. lia.
    + exists 0%nat. cbn [length skipn firstn fst snd hd_error].
      repeat split; try lia; try constructor.
      intros s0 [= <-]. exact E.
Qed.

(** What one [add_sample] does to the buffer, the log and the
    configuration. *)
Lemma add_sample_spec `{Numpy} (self : StreamingRepDetector)
    (sample : schemas.PositionSample) :
  let self' := fst (add_sample self sample) in
  let cutoff := schemas.t sample - buffer_seconds self in
  (exists k : nat,
     (k <= length (samples self) + 1)%nat /\
     samples self' = skipn k (samples self ++ [sample]) /\
     Forall (fun s => (schemas.t s <? cutoff) = true)
            (firstn k (samples self ++ [sample])) /\
     (forall s0, hd_error (samples self') = Some s0 ->
                 (schemas.t s0 <? cutoff) = false)) /\
  detected_reps self' =
    detected_reps self
    ++ filter (fun rep => negb (has_key (detected_reps self) (key_of rep)))
              (detect_reps (detector self) (samples self')) /\
  snd (add_sample self sample) =
    filter (fun rep => negb (has_key (detected_reps self) (key_of rep)))
           (detect_reps (detector self) (samples self')) /\
  (s_movement_type self' = s_movement_type self /\
   buffer_seconds self' = buffer_seconds self /\
   s_min_confidence self' = s_min_confidence self /\
   detector self' = detector self) /\
  ((0 <= _last_processed_idx self)%Z -> (0 <= _last_processed_idx self')%Z).
Proof.
  intros self' cutoff. unfold self', add_sample.
  destruct (samples self ++ [sample]) as [|s0 rest] eqn:E.
  { destruct (samples self); discriminate. }
  assert (Hlast : last (s0 :: rest) s0 = sample)
    by (rewrite <- E; apply last_last).
  rewrite Hlast. fold cutoff.
  destruct (prune_spec cutoff (s0 :: rest) (_last_processed_idx self))
    as (k & Hk & Hs & Hold & Hhd & Hidx).
  destruct (prune cutoff (s0 :: rest) (_last_processed_idx self))
    as [samples2 idx2] eqn:Ep.
  cbn [fst snd] in Hs, Hidx |- *. cbn [samples detected_reps s_movement_type
    buffer_seconds s_min_confidence detector _last_processed_idx].
  split; [|repeat split; try reflexivity; exact Hidx].
  exists k. rewrite Hs. repeat split; try assumption.
  apply (f_equal (@length _)) in E. rewrite length_app in E. cbn in E, Hk. lia.
Qed.

(** X8. One [add_sample] evicts a prefix of the buffer extended by the new
    sample: every sample it drops is older than the cutoff
    [sample.t - buffer_seconds], the first sample it keeps is not, and it
    never makes [_last_processed_idx] negative. *)
Theorem X8_add_sample_evicts_older_prefix :
  forall (NP : Numpy) (self : StreamingRepDetector)
         (sample : schemas.PositionSample),
    let self' := fst (add_sample self sample) in
    let cutoff := schemas.t sample - buffer_seconds self in
    (exists k : nat,
       (k <= length (samples self) + 1)%nat /\
       samples self' = skipn k (samples self ++ [sample]) /\
       Forall (fun s => (schemas.t s <? cutoff) = true)
              (firstn k (samples self ++ [sample])) /\
       (forall s0, hd_error (samples self') = Some s0 ->
                   (schemas.t s0 <? cutoff) = false)) /\
    ((0 <= _last_processed_idx self)%Z -> (0 <= _last_processed_idx self')%Z).
Proof.
  intros NP self sample self' cutoff.
  destruct (add_sample_spec self sample) as (Hbuf & _ & _ & _ & Hidx).
  split; [exact Hbuf | exact Hidx].
Qed.

Lemma ForallOrdPairs_app {A : Type} (R : A -> A -> Prop) (l1 l2 : list A) :
  ForallOrdPairs R l1 -> ForallOrdPairs R l2 ->
  (forall a b, In a l1 -> In b l2 -> R a b) ->
  ForallOrdPairs R (l1 ++ l2).
Proof.
  intros H1 H2 H12. induction H1 as [|a l1 Ha H1 IH]; [exact H2|].
  cbn [app]. constructor.
  - apply Forall_app. split; [exact Ha|].
    apply Forall_forall. intros b Hb. apply H12; [now left | exact Hb].
  - apply IH. intros x y Hx Hy. apply H12; [now right | exact Hy].
Qed.

Lemma ForallOrdPairs_filter {A : Type} (R : A -> A -> Prop) (f : A -> bool)
    (l : list A) :
  ForallOrdPairs R l -> ForallOrdPairs R (filter f l).
Proof.
  induction 1 as [|a l Ha Hl IH]; [constructor|].
  cbn [filter]. destruct (f a); [|exact IH].
  constructor; [|exact IH].
  rewrite Forall_forall in *. intros b Hb. apply Ha.
  apply filter_In in Hb. apply Hb.
Qed.

Lemma ForallOrdPairs_of_nth {A : Type} (R : A -> A -> Prop) (l : list A) :
  (forall i j a b, (i < j)%nat ->
     nth_error l i = Some a -> nth_error l j = Some b -> R a b) ->
  ForallOrdPairs R l.
Proof.
  induction l as [|x l IH]; intros H; [constructor|].
  constructor.
  - apply Forall_forall. intros b Hb. apply In_nth_error in Hb.
    destruct Hb as [j Hj]. apply (H 0%nat (S j) x b); [lia | reflexivity | exact Hj].
  - apply IH. intros i j a b Hij Ha Hb.
    apply (H (S i) (S j) a b); [lia | exact Ha | exact Hb].
Qed.

Lemma StronglySorted_skipn {A : Type} (R : A -> A -> Prop) (k : nat) :
  forall l : list A, StronglySorted R l -> StronglySorted R (skipn k l).
Proof.
  induction k as [|k IH]; intros l Hl; [exact Hl|].
  destruct l as [|a l]; [constructor|].
  cbn [skipn]. apply IH. now inversion Hl.
Qed.

(** On strictly increasing timestamps the reps of one run start at strictly
    increasing times, so no two of them have the same key. *)
Lemma detect_reps_distinct_keys `{Numpy} (self : RepDetector)
    (samples : list schemas.PositionSample) :
  strictly_increasing_times samples ->
  distinct_keys (detect_reps self samples).
Proof.
  intros Hincr. apply ForallOrdPairs_of_nth. intros i j r r' Hij Hr Hr'.
  destruct (detect_reps_nth self samples i r Hr) as (a & b & -> & Hab & Ha & _).
  destruct (detect_reps_nth self samples j r' Hr')
    as (a' & b' & -> & Hab' & Ha' & _).
  unfold key_eqb, key_of. cbn [rep_between start_time end_time fst snd].
  assert (Haa : (a < a')%nat).
  { assert (Hj : (j < length (peaks_of self samples))%nat)
      by (apply nth_error_Some; congruence).
    apply (nth_error_nth _ _ 0%nat) in Ha, Ha'. rewrite <- Ha, <- Ha'.
    apply (StronglySorted_nth _ _ 0%nat (peaks_of_sorted self samples)).
    split; assumption. }
  rewrite ltb_eqb_false; [reflexivity|].
  apply (StronglySorted_nth _ _ nan (kept_times_sorted self samples Hincr) a a').
  rewrite length_map. lia.
Qed.

(** Feeding keeps the configuration, keeps a suffix of what was fed in the
    buffer, and logs no key twice. *)
Lemma feed_invariant `{Numpy} (mt : schemas.MovementType) (buf mc : float) :
  forall fed : list schemas.PositionSample,
    strictly_increasing_times fed ->
    let st := feed (StreamingRepDetector_init mt buf mc) fed in
    (s_movement_type st = mt /\ buffer_seconds st = buf /\
     s_min_confidence st = mc /\ detector st = RepDetector_init mt mc) /\
    (exists k : nat, (k <= length fed)%nat /\ samples st = skipn k fed) /\
    distinct_keys (detected_reps st).
Proof.
  induction fed as [|s fed IH] using rev_ind; intros Hincr.
  - cbn. repeat split. exists 0%nat. split; [lia | reflexivity]. constructor.
  - assert (Hfed : strictly_increasing_times fed).
    { unfold strictly_increasing_times in *. rewrite map_app in Hincr.
      clear IH. induction (map schemas.t fed) as [|a l IHl]; [constructor|].
      cbn [app] in Hincr. inversion Hincr as [|? ? Hl Ha]; subst.
      constructor; [apply IHl; exact Hl|].
      apply Forall_app in Ha. apply Ha. }
    destruct (IH Hfed) as ((Hm & Hb & Hc & Hd) & (k & Hk & Hs) & Hkeys).
    cbv zeta. rewrite feed_snoc.
    set (st := feed (StreamingRepDetector_init mt buf mc) fed) in *.
    destruct (add_sample_spec st s)
      as ((k2 & Hk2 & Hs2 & _ & _) & Hlog & _ & (Hm' & Hb' & Hc' & Hd') & _).
    split; [repeat split; congruence|].
    assert (Hbuf : samples (fst (add_sample st s)) = skipn (k2 + k) (fed ++ [s])).
    { rewrite Hs2, Hs, <- (skipn_skipn k2 k (fed ++ [s])), (skipn_app k fed [s]).
      replace (k - length fed)%nat with 0%nat by lia. reflexivity. }
    split.
    + exists (Nat.min (k2 + k) (length fed + 1)).
      rewrite length_app. cbn [length]. split; [lia|].
      rewrite Hbuf.
      destruct (Nat.le_gt_cases (k2 + k) (length fed + 1)).
      * now rewrite Nat.min_l by lia.
      * rewrite Nat.min_r by lia.
        rewrite !skipn_all2; try reflexivity; rewrite length_app; cbn; lia.
    + rewrite Hlog. apply ForallOrdPairs_app.
      * exact Hkeys.
      * apply ForallOrdPairs_filter. apply detect_reps_distinct_keys.
        rewrite Hbuf. unfold strictly_increasing_times.
        rewrite <- (firstn_skipn (k2 + k) (fed ++ [s])) in Hincr.
        unfold strictly_increasing_times in Hincr.
        rewrite map_app in Hincr.
        clear -Hincr.
        induction (map schemas.t (firstn (k2 + k) (fed ++ [s]))) as [|a l IHl];
          [exact Hincr|].
        apply IHl. cbn [app] in Hincr. now inversion Hincr.
      * intros a b Ha Hb0. apply filter_In in Hb0. destruct Hb0 as [_ Hb0].
        apply negb_true_iff in Hb0. unfold has_key, key_in in Hb0.
        assert (Hab : key_eqb (key_of b) (key_of a) = false).
        { destruct (key_eqb (key_of b) (key_of a)) eqn:E; [|reflexivity].
          rewrite <- Hb0. symmetry. apply existsb_exists.
          exists (key_of a). split; [now apply in_map | exact E]. }
        unfold key_eqb in *.
        now rewrite (eqb_sym (fst (key_of a))), (eqb_sym (snd (key_of a))).
Qed.

(** X9. On strictly increasing timestamps, whatever the buffer length, the
    buffer of the streaming detector is always a suffix of the samples fed,
    and its cumulative log never holds two reps with the same
    [(start_time, end_time)] key. *)
Theorem X9_streaming_log_has_distinct_keys :
  forall (NP : Numpy) (mt : schemas.MovementType) (buf mc : float)
         (fed : list schemas.PositionSample),
    strictly_increasing_times fed ->
    let st := feed (StreamingRepDetector_init mt buf mc) fed in
    (exists k : nat, (k <= length fed)%nat /\ samples st = skipn k fed) /\
    distinct_keys (get_all_reps st).
Proof.
  intros NP mt buf mc fed Hincr st.
  destruct (feed_invariant mt buf mc fed Hincr) as (_ & Hbuf & Hkeys).
  split; [exact Hbuf | exact Hkeys].
Qed.

Lemma X9_witness_swing_signal :
  (exists k : nat,
     (k <= length swing_signal)%nat /\
     samples (@feed numpy_seq
                (StreamingRepDetector_init schemas.SWING_LEFT 1
                   default_min_confidence) swing_signal)
     = skipn k swing_signal) /\
  distinct_keys
    (get_all_reps
       (@feed numpy_seq
          (StreamingRepDetector_init schemas.SWING_LEFT 1 default_min_confidence)
          swing_signal)).
Proof.
  exact (X9_streaming_log_has_distinct_keys numpy_seq schemas.SWING_LEFT 1
           default_min_confidence swing_signal swing_signal_increasing).
Defined.

(** X10. [reset] after any feed gives back the detector as it was
    constructed: feeding never changes its configuration, and the reset
    forgets the buffer and the log. *)
Theorem X10_reset_restores_the_constructed_detector :
  forall (NP : Numpy) (mt : schemas.MovementType) (buf mc : float)
         (fed : list schemas.PositionSample),
    reset (feed (StreamingRepDetector_init mt buf mc) fed)
    = StreamingRepDetector_init mt buf mc.
Proof.
  intros NP mt buf mc fed.
  assert (Hcfg : let st := feed (StreamingRepDetector_init mt buf mc) fed in
                 s_movement_type st = mt /\ buffer_seconds st = buf /\
                 s_min_confidence st = mc /\
                 detector st = RepDetector_init mt mc).
  { induction fed as [|s fed IH] using rev_ind; [cbn; repeat split|].
    cbv zeta in *. rewrite feed_snoc.
    destruct (add_sample_spec (feed (StreamingRepDetector_init mt buf mc) fed) s)
      as (_ & _ & _ & (Hm & Hb & Hc & Hd) & _).
    destruct IH as (Hm0 & Hb0 & Hc0 & Hd0). repeat split; congruence. }
  cbv zeta in Hcfg. destruct Hcfg as (Hm & Hb & Hc & Hd).
  unfold reset. rewrite Hm, Hb, Hc, Hd. reflexivity.
Qed.

(** ** The analysis orchestrator *)

Lemma build_rep_metrics_from_nth (flags : list bool) :
  forall (valid : list DetectedRep) (i0 i : nat),
    nth_error (VP.build_rep_metrics_from i0 valid flags) i
    = option_map
        (fun rep =>
           {| schemas.rep_index := i0 + i;
              schemas.start_time := start_time rep;
              schemas.end_time := end_time rep;
              schemas.duration := duration rep;
              schemas.peak_speed := peak_speed rep;
              schemas.is_valid := true;
              schemas.is_below_threshold := nth (i0 + i) flags false |})
        (nth_error valid i).
Proof.
  induction valid as [|rep valid IH]; intros i0 i.
  - destruct i; reflexivity.
  - destruct i as [|i]; cbn [VP.build_rep_metrics_from nth_error option_map].
    + rewrite Nat.add_0_r.
      destruct (Nat.ltb_spec i0 (length flags)); [reflexivity|].
      now rewrite nth_overflow by lia.
    + rewrite IH. now replace (S i0 + i)%nat with (i0 + S i)%nat by lia.
Qed.

(** X11. The metrics built for the valid reps of an analysis are one per
    valid rep, numbered by position, carrying the times and the speed of that
    rep and its threshold flag; and when the calculator reports a position,
    the metrics of the [sustain_count] reps from that position on are all
    flagged below threshold. *)
Theorem X11_rep_metrics_follow_the_result :
  forall (NP : Numpy) (br : Z) (d : float) (w sc : Z)
         (self : ANTCalculator) (reps : list DetectedRep) (res : ANTResult),
    ANTCalculator_init br d w sc = Ok self ->
    calculate self reps = Ok res ->
    let valid := filter is_valid reps in
    let metrics := VP._build_rep_metrics valid res in
    length metrics = length valid /\
    (forall i m, nth_error metrics i = Some m ->
       schemas.rep_index m = i /\
       schemas.is_valid m = true /\
       schemas.is_below_threshold m = nth i (threshold_flags res) false /\
       exists rep,
         nth_error valid i = Some rep /\
         schemas.start_time m = start_time rep /\
         schemas.end_time m = end_time rep /\
         schemas.duration m = duration rep /\
         schemas.peak_speed m = peak_speed rep) /\
    (forall j : nat, ant_rep_index res = Some (Z.of_nat j) ->
       forall i, (j <= i < j + Z.to_nat sc)%nat ->
         exists m, nth_error metrics i = Some m /\
                   schemas.is_below_threshold m = true).
Proof.
  intros NP br d w sc self reps res Hinit Hcalc valid metrics.
  assert (Hnth : forall i,
             nth_error metrics i
             = option_map
                 (fun rep =>
                    {| schemas.rep_index := i;
                       schemas.start_time := start_time rep;
                       schemas.end_time := end_time rep;
                       schemas.duration := duration rep;
                       schemas.peak_speed := peak_speed rep;
                       schemas.is_valid := true;
                       schemas.is_below_threshold :=
                         nth i (threshold_flags res) false |})
                 (nth_error valid i)).
  { intros i. unfold metrics, VP._build_rep_metrics.
    now rewrite build_rep_metrics_from_nth. }
  assert (Hlen : length metrics = length valid).
  { destruct (Nat.lt_trichotomy (length metrics) (length valid)) as [Hl|[Hl|Hl]];
      [|exact Hl|].
    - pose proof (Hnth (length metrics)) as E.
      rewrite (proj2 (nth_error_None metrics (length metrics)) (le_n _)) in E.
      destruct (nth_error valid (length metrics)) eqn:Ev; [discriminate|].
      apply nth_error_None in Ev. lia.
    - pose proof (Hnth (length valid)) as E.
      rewrite (proj2 (nth_error_None valid (length valid)) (le_n _)) in E.
      apply nth_error_None in E. lia. }
  split; [exact Hlen|]. split.
  - intros i m Hm. rewrite Hnth in Hm.
    destruct (nth_error valid i) as [rep|]; [|discriminate].
    cbn [option_map] in Hm.
    assert (Em : m = _) by (symmetry; injection Hm as Hm; exact Hm).
    subst m. cbn. repeat split. exists rep. repeat split.
  - intros j Hj i Hi.
    apply init_Ok in Hinit. destruct Hinit as [(_ & _ & _ & Hsc) ->].
    pose proof (calculate_cases (calculator br d w sc) reps Hsc) as H.
    cbv zeta in H.
    cbn [baseline_reps sustain_count smoothing_window drop_threshold calculator]
      in H.
    fold valid in H.
    destruct H as [[_ E]|[(_ & _ & r0 & E & _ & Hr & _)
                         |(_ & _ & r0 & E & _ & Hsm & Hfl & Hidx & _)]];
      rewrite E in Hcalc;
      assert (Eres : res = _) by (symmetry; injection Hcalc as Hc; exact Hc);
      subst res; try discriminate; try congruence.
    rewrite Hidx in Hj.
    assert (Hfl_len : length (threshold_flags r0) = length valid).
    { rewrite Hfl, length_map, length_smooth, length_map. reflexivity. }
    rewrite <- Hfl in Hj.
    pose proof (find_sustained_drop_spec (threshold_flags r0) sc Hsc) as Hspec.
    rewrite Hj in Hspec.
    destruct Hspec as (j' & Ej & [Hlenf Hall] & _).
    assert (j' = j) by lia. subst j'.
    destruct (nth_error valid i) as [rep|] eqn:Ev.
    2:{ apply nth_error_None in Ev. lia. }
    eexists. split.
    + rewrite Hnth, Ev. reflexivity.
    + cbn. apply Hall. exact Hi.
Qed.

Lemma X11_witness_sustained_drop :
  length
    (VP._build_rep_metrics (filter is_valid sustained_drop_reps)
       {| ant_reached := true;
          ant_rep_index := Some 5%Z;
          ant_timestamp_seconds := Some 5;
          baseline_speed := 1;
          drop_percent_at_ant := Some 0.5;
          smoothed_speeds := [1; 1; 1; 1; 1; 0.5; 0.5; 0.5];
          threshold_flags :=
            [false; false; false; false; false; true; true; true] |})
  = length (filter is_valid sustained_drop_reps).
Proof.
  apply (X11_rep_metrics_follow_the_result numpy_seq 5%Z 0.20 1%Z 2%Z
           (calculator 5 0.20 1 2) sustained_drop_reps
           {| ant_reached := true;
              ant_rep_index := Some 5%Z;
              ant_timestamp_seconds := Some 5;
              baseline_speed := 1;
              drop_percent_at_ant := Some 0.5;
              smoothed_speeds := [1; 1; 1; 1; 1; 0.5; 0.5; 0.5];
              threshold_flags :=
                [false; false; false; false; false; true; true; true] |});
    vm_compute; reflexivity.
Defined.

(** ** Extraction of the samples *)

Lemma extract_positions_samples (self : VP.VideoProcessor)
    (use_left use_right use_both : bool) (total_frames : Z) :
  forall (poses : list PE.FramePose) (frame_idx : nat),
    fst (VP.extract_positions_from self poses use_left use_right use_both
           total_frames frame_idx)
    = samples_of_poses use_left use_right use_both poses.
Proof.
  induction poses as [|pose rest IH]; intros frame_idx; [reflexivity|].
  cbn [VP.extract_positions_from samples_of_poses flat_map].
  specialize (IH (S frame_idx)).
  destruct (VP.extract_positions_from self rest use_left use_right use_both
              total_frames (S frame_idx)) as [samples later].
  cbn [fst] in *. rewrite IH.
  destruct (VP._pose_to_sample pose use_left use_right use_both); reflexivity.
Qed.

Lemma pose_to_sample_Some (pose : PE.FramePose) (ul ur ub : bool)
    (s : schemas.PositionSample) :
  VP._pose_to_sample pose ul ur ub = Some s ->
  PE.frame_valid pose = true /\ schemas.t s = PE.timestamp pose.
Proof.
  unfold VP._pose_to_sample.
  destruct (PE.frame_valid pose); cbn [negb]; [|discriminate].
  destruct ub.
  - destruct (PE.left_wrist pose), (PE.right_wrist pose);
      intros [= <-]; split; reflexivity.
  - destruct (if ul then PE.left_wrist pose else None).
    + intros [= <-]; split; reflexivity.
    + destruct (if ur then PE.right_wrist pose else None);
        intros [= <-]; split; reflexivity.
Qed.

Lemma samples_of_poses_In (ul ur ub : bool) (poses : list PE.FramePose)
    (s : schemas.PositionSample) :
  In s (samples_of_poses ul ur ub poses) ->
  exists pose, In pose poses /\ VP._pose_to_sample pose ul ur ub = Some s.
Proof.
  unfold samples_of_poses. rewrite in_flat_map. intros (pose & Hin & Hs).
  exists pose. split; [exact Hin|].
  destruct (VP._pose_to_sample pose ul ur ub) as [s'|]; [|destruct Hs].
  destruct Hs as [->|[]]. reflexivity.
Qed.

Lemma samples_of_poses_length (ul ur ub : bool) (poses : list PE.FramePose) :
  (length (samples_of_poses ul ur ub poses) <= length poses)%nat.
Proof.
  induction poses as [|pose rest IH]; [apply le_n|].
  cbn [samples_of_poses flat_map]. rewrite length_app.
  fold (samples_of_poses ul ur ub rest).
  destruct (VP._pose_to_sample pose ul ur ub); cbn [length]; lia.
Qed.

Lemma samples_of_poses_sorted (R : float -> float -> Prop) (ul ur ub : bool)
    (poses : list PE.FramePose) :
  StronglySorted R (map PE.timestamp poses) ->
  StronglySorted R (map schemas.t (samples_of_poses ul ur ub poses)).
Proof.
  induction poses as [|pose rest IH]; intros Hs; [constructor|].
  cbn [map] in Hs. apply StronglySorted_inv in Hs. destruct Hs as [Hrest Hall].
  cbn [samples_of_poses flat_map]. fold (samples_of_poses ul ur ub rest).
  destruct (VP._pose_to_sample pose ul ur ub) as [s|] eqn:Es;
    cbn [app map]; [|exact (IH Hrest)].
  constructor; [exact (IH Hrest)|].
  apply pose_to_sample_Some in Es. destruct Es as [_ ->].
  apply Forall_forall. intros t' Ht'. apply in_map_iff in Ht'.
  destruct Ht' as (s' & <- & Hs').
  apply samples_of_poses_In in Hs'. destruct Hs' as (pose' & Hin & Es').
  apply pose_to_sample_Some in Es'. destruct Es' as [_ ->].
  rewrite Forall_forall in Hall. apply Hall. now apply in_map.
Qed.

(** X12. The samples [_extract_positions] returns do not depend on the
    progress callback or on [total_frames]; there is at most one per pose,
    each carries the timestamp of a valid pose, and pose timestamps that
    increase strictly give samples whose timestamps increase strictly. *)
Theorem X12_extracted_samples_follow_the_poses :
  forall (self self' : VP.VideoProcessor) (poses : list PE.FramePose)
         (m : schemas.MovementType) (total_frames total_frames' : Z),
    let samples := fst (VP._extract_positions self poses m total_frames) in
    samples = fst (VP._extract_positions self' poses m total_frames') /\
    (length samples <= length poses)%nat /\
    (forall s, In s samples ->
       exists pose, In pose poses /\ PE.frame_valid pose = true /\
                    schemas.t s = PE.timestamp pose) /\
    (StronglySorted (fun a b => (a <? b) = true) (map PE.timestamp poses) ->
     strictly_increasing_times samples).
Proof.
  intros self self' poses m total_frames total_frames' samples.
  unfold samples, VP._extract_positions.
  rewrite !extract_positions_samples. split; [reflexivity|].
  split; [apply samples_of_poses_length|]. split.
  - intros s Hs. apply samples_of_poses_In in Hs.
    destruct Hs as (pose & Hin & Es). apply pose_to_sample_Some in Es.
    exists pose. tauto.
  - apply samples_of_poses_sorted.
Qed.

Lemma pose_to_sample_tracked (m : schemas.MovementType)
    (r r' : option (PE.NormalizedLandmark * PE.NormalizedLandmark) * float) :
  tracked_landmarks m r = tracked_landmarks m r' ->
  let ul := match m with
            | schemas.SNATCH_LEFT | schemas.SWING_LEFT => true
            | _ => false
            end in
  let ur := match m with
            | schemas.SNATCH_RIGHT | schemas.SWING_RIGHT => true
            | _ => false
            end in
  let ub := match m with schemas.TWO_ARM_SWING => true | _ => false end in
  VP._pose_to_sample (PE.process_frame (fst r) (snd r)) ul ur ub
  = VP._pose_to_sample (PE.process_frame (fst r') (snd r')) ul ur ub.
Proof.
  destruct r as [[[l rt]|] ts], r' as [[[l' rt']|] ts'];
    unfold tracked_landmarks; cbn [fst snd option_map];
    intros E; try discriminate.
  - assert (Ets : ts = ts') by congruence. subst ts'.
    destruct m; cbn zeta.
    + assert (l = l') by congruence. subst l'.
      unfold VP._pose_to_sample, PE.process_frame. cbn.
      repeat match goal with
             | |- context [(?a <=? ?b)] => destruct (a <=? b)
             end; reflexivity.
    + assert (rt = rt') by congruence. subst rt'.
      unfold VP._pose_to_sample, PE.process_frame. cbn.
      repeat match goal with
             | |- context [(?a <=? ?b)] => destruct (a <=? b)
             end; reflexivity.
    + assert (l = l') by congruence. subst l'.
      unfold VP._pose_to_sample, PE.process_frame. cbn.
      repeat match goal with
             | |- context [(?a <=? ?b)] => destruct (a <=? b)
             end; reflexivity.
    + assert (rt = rt') by congruence. subst rt'.
      unfold VP._pose_to_sample, PE.process_frame. cbn.
      repeat match goal with
             | |- context [(?a <=? ?b)] => destruct (a <=? b)
             end; reflexivity.
    + assert (l = l' /\ rt = rt') by (split; congruence).
      destruct H as [<- <-]. reflexivity.
  - destruct m; reflexivity.
Qed.

(** X13. For a left-hand movement the samples extracted from the poses of
    [process_frame] depend only on the timestamps and the left wrist
    landmarks of the frames where a pose was found, for a right-hand movement
    only on the right wrist landmarks: whatever the other wrist's landmark
    holds, the samples are the same. *)
Theorem X13_samples_depend_on_the_tracked_wrist_only :
  forall (self : VP.VideoProcessor) (m : schemas.MovementType)
         (results results' :
            list (option (PE.NormalizedLandmark * PE.NormalizedLandmark)
                  * float))
         (total_frames : Z),
    map (tracked_landmarks m) results = map (tracked_landmarks m) results' ->
    fst (VP._extract_positions self (poses_of results) m total_frames)
    = fst (VP._extract_positions self (poses_of results') m total_frames).
Proof.
  intros self m results results' total_frames E.
  unfold VP._extract_positions. rewrite !extract_positions_samples.
  revert results' E.
  induction results as [|r results IH]; intros [|r' results'] E;
    try discriminate; [reflexivity|].
  cbn [map] in E.
  assert (Er : tracked_landmarks m r = tracked_landmarks m r') by congruence.
  assert (Erest : map (tracked_landmarks m) results
                  = map (tracked_landmarks m) results') by congruence.
  cbn [poses_of map samples_of_poses flat_map].
  fold (poses_of results). fold (poses_of results').
  change (flat_map ?f (poses_of results))
    with (samples_of_poses
            match m with
            | schemas.SNATCH_LEFT | schemas.SWING_LEFT => true
            | _ => false
            end
            match m with
            | schemas.SNATCH_RIGHT | schemas.SWING_RIGHT => true
            | _ => false
            end
            match m with schemas.TWO_ARM_SWING => true | _ => false end
            (poses_of results)).
  change (flat_map ?f (poses_of results'))
    with (samples_of_poses
            match m with
            | schemas.SNATCH_LEFT | schemas.SWING_LEFT => true
            | _ => false
            end
            match m with
            | schemas.SNATCH_RIGHT | schemas.SWING_RIGHT => true
            | _ => false
            end
            match m with schemas.TWO_ARM_SWING => true | _ => false end
            (poses_of results')).
  rewrite (IH results' Erest).
  rewrite (pose_to_sample_tracked m r r' Er). reflexivity.
Qed.

Lemma X13_witness_other_wrist_changed :
  fst (VP._extract_positions {| VP.progress_callback := false |}
         (poses_of three_frames) schemas.SWING_LEFT 3)
  = fst (VP._extract_positions {| VP.progress_callback := false |}
           (poses_of [(Some (wrist_landmark 0.3, wrist_landmark 0.9), 0);
                      (None, 0.5);
                      (Some (wrist_landmark 0.6, wrist_landmark 0.8), 1)])
           schemas.SWING_LEFT 3).
Proof.
  apply (X13_samples_depend_on_the_tracked_wrist_only
           {| VP.progress_callback := false |} schemas.SWING_LEFT
           three_frames
           [(Some (wrist_landmark 0.3, wrist_landmark 0.9), 0);
            (None, 0.5);
            (Some (wrist_landmark 0.6, wrist_landmark 0.8), 1)] 3%Z).
  reflexivity.
Defined.

Lemma filter_all {A : Type} (f : A -> bool) (l : list A) :
  Forall (fun a => f a = true) l -> filter f l = l.
Proof.
  induction 1 as [|a l Ha _ IH]; [reflexivity|].
  cbn [filter]. now rewrite Ha, IH.
Qed.

Lemma one_wrist_sample_confidence (m : schemas.MovementType)
    (r : option (PE.NormalizedLandmark * PE.NormalizedLandmark) * float)
    (s : schemas.PositionSample) :
  one_wrist m ->
  VP._pose_to_sample (PE.process_frame (fst r) (snd r))
    match m with
    | schemas.SNATCH_LEFT | schemas.SWING_LEFT => true
    | _ => false
    end
    match m with
    | schemas.SNATCH_RIGHT | schemas.SWING_RIGHT => true
    | _ => false
    end
    match m with schemas.TWO_ARM_SWING => true | _ => false end = Some s ->
  fgeb (schemas.confidence s) PE.MIN_VISIBILITY = true.
Proof.
  intros Hm. destruct r as [[[l rt]|] ts]; cbn [fst snd].
  2:{ destruct m; discriminate. }
  unfold VP._pose_to_sample, PE.process_frame, fgeb.
  destruct m; try (exfalso; apply Hm; reflexivity);
    destruct (PE.MIN_VISIBILITY <=? PE.visibility l) eqn:El;
    destruct (PE.MIN_VISIBILITY <=? PE.visibility rt) eqn:Er;
    cbn; try discriminate; intros [= <-]; first [exact El | exact Er].
Qed.

(** X14. For a movement that tracks one wrist, every sample extracted from
    the poses of [process_frame] has a confidence of at least
    [MIN_VISIBILITY], so the confidence filter of a detector constructed with
    the default [min_confidence] keeps all of them. *)
Theorem X14_default_filter_keeps_extracted_samples :
  forall (self : VP.VideoProcessor) (m : schemas.MovementType)
         (results :
            list (option (PE.NormalizedLandmark * PE.NormalizedLandmark)
                  * float))
         (total_frames : Z),
    one_wrist m ->
    let samples :=
      fst (VP._extract_positions self (poses_of results) m total_frames) in
    Forall (fun s => fgeb (schemas.confidence s) PE.MIN_VISIBILITY = true)
           samples /\
    valid_samples_of (RepDetector_init m default_min_confidence) samples
    = samples.
Proof.
  intros self m results total_frames Hm samples.
  assert (Hall : Forall (fun s => fgeb (schemas.confidence s) PE.MIN_VISIBILITY
                                  = true) samples).
  { unfold samples, VP._extract_positions.
    rewrite extract_positions_samples. apply Forall_forall. intros s Hs.
    apply samples_of_poses_In in Hs. destruct Hs as (pose & Hin & Es).
    unfold poses_of in Hin. apply in_map_iff in Hin.
    destruct Hin as (r & <- & _).
    exact (one_wrist_sample_confidence m r s Hm Es). }
  split; [exact Hall|].
  unfold valid_samples_of. apply filter_all. exact Hall.
Qed.

Lemma X14_witness_left_swing :
  valid_samples_of (RepDetector_init schemas.SWING_LEFT default_min_confidence)
    (fst (VP._extract_positions {| VP.progress_callback := false |}
            (poses_of three_frames) schemas.SWING_LEFT 3))
  = fst (VP._extract_positions {| VP.progress_callback := false |}
           (poses_of three_frames) schemas.SWING_LEFT 3).
Proof.
  apply (X14_default_filter_keeps_extracted_samples
           {| VP.progress_callback := false |} schemas.SWING_LEFT
           three_frames 3%Z).
  unfold one_wrist. discriminate.
Defined.

(** ** Progress reports *)

Lemma extract_positions_reports (self : VP.VideoProcessor)
    (ul ur ub : bool) (total_frames : Z) :
  forall (poses : list PE.FramePose) (frame_idx : nat),
    let reports :=
      snd (VP.extract_positions_from self poses ul ur ub total_frames
             frame_idx) in
    length reports
    = (if VP.progress_callback self && (total_frames >? 0)%Z
       then length poses else 0%nat) /\
    forall i p msg, nth_error reports i = Some (p, msg) ->
      (p <=? 0.7) = true /\
      msg = ("Processing frame " ++ VP.str_of_nat (frame_idx + i) ++ "...")%string.
Proof.
  induction poses as [|pose rest IH]; intros frame_idx.
  - cbn. split; [now destruct (_ && _)|]. intros [|i] p msg; discriminate.
  - cbn [VP.extract_positions_from]. specialize (IH (S frame_idx)).
    destruct (VP.extract_positions_from self rest ul ur ub total_frames
                (S frame_idx)) as [samples later].
    cbn [snd] in *. destruct IH as [IHlen IHnth].
    unfold VP._report_progress.
    destruct (VP.progress_callback self), (total_frames >? 0)%Z;
      cbn [andb app length] in *.
    + split; [now rewrite IHlen|].
      intros [|i] p msg; cbn [nth_error].
      * intros [= <- <-]. rewrite Nat.add_0_r. split; [|reflexivity].
        match goal with
        | |- ((if ?a <? 0.7 then _ else _) <=? _) = true =>
          destruct (a <? 0.7) eqn:E
        end.
        -- now apply ltb_leb.
        -- apply leb_refl. reflexivity.
      * intros H. replace (frame_idx + S i)%nat with (S frame_idx + i)%nat by lia.
        exact (IHnth i p msg H).
    + split; [exact IHlen|]. intros i p msg H.
      destruct later; [destruct i; discriminate | discriminate].
    + split; [exact IHlen|]. intros i p msg H.
      destruct later; [destruct i; discriminate | discriminate].
    + split; [exact IHlen|]. intros i p msg H.
      destruct later; [destruct i; discriminate | discriminate].
Qed.

(** X15. While the positions are extracted, the callback is called once per
    pose, in order, when a callback is set and [total_frames] is positive,
    and not at all otherwise; the i-th call reports a progress of at most
    0.7 and the message of frame i. *)
Theorem X15_extraction_progress_stays_within_its_share :
  forall (self : VP.VideoProcessor) (poses : list PE.FramePose)
         (m : schemas.MovementType) (total_frames : Z),
    (total_frames < 2 ^ 63)%Z ->
    (Z.of_nat (length poses) < 2 ^ 63)%Z ->
    let reports := snd (VP._extract_positions self poses m total_frames) in
    length reports
    = (if VP.progress_callback self && (total_frames >? 0)%Z
       then length poses else 0%nat) /\
    forall i p msg, nth_error reports i = Some (p, msg) ->
      (p <=? 0.7) = true /\
      msg = ("Processing frame " ++ VP.str_of_nat i ++ "...")%string.
Proof.
  intros self poses m total_frames _ _ reports.
  exact (extract_positions_reports self _ _ _ total_frames poses 0).
Qed.

Lemma X15_witness_three_frames :
  length (snd (VP._extract_positions {| VP.progress_callback := true |}
                 (poses_of three_frames) schemas.SWING_LEFT 6))
  = 3%nat.
Proof.
  apply (X15_extraction_progress_stays_within_its_share
           {| VP.progress_callback := true |} (poses_of three_frames)
           schemas.SWING_LEFT 6%Z); vm_compute; reflexivity.
Defined.

(** ** The analysis of a sample stream *)

(** X16. [analyze_position_stream] raises exactly when the configuration is
    refused by the calculator's constructor, and then a ValueError; with a
    valid configuration it returns the reps of a default detector over the
    samples with the calculator's result for them, and for fewer than ten
    samples no rep and the insufficient-data result. *)
Theorem X16_analyze_position_stream_outcomes :
  forall (NP : Numpy) (samples : list schemas.PositionSample)
         (m : schemas.MovementType) (br : Z) (d : float),
    let reps := detect_reps (RepDetector_init m default_min_confidence)
                            samples in
    (valid_configuration br d 3 2 ->
     exists res,
       VP.analyze_position_stream samples m br d = Ok (reps, res) /\
       calculate (calculator br d 3 2) reps = Ok res) /\
    (~ valid_configuration br d 3 2 ->
     exists msg,
       VP.analyze_position_stream samples m br d = Raise (ValueError msg)) /\
    (valid_configuration br d 3 2 -> (length samples < 10)%nat ->
     VP.analyze_position_stream samples m br d = Ok ([], insufficient_data)).
Proof.
  intros NP samples m br d reps. unfold VP.analyze_position_stream.
  fold reps. split; [|split].
  - intros Hv. rewrite (init_valid _ _ _ _ Hv). cbn.
    destruct (calculate_total (calculator br d 3 2) reps ltac:(cbn; lia))
      as [res Hres].
    exists res. rewrite Hres. split; reflexivity.
  - intros Hnv.
    destruct (ANTCalculator_init br d 3 2) as [self|[msg|]] eqn:E.
    + exfalso. apply Hnv. apply (init_Ok _ _ _ _ _ E).
    + exists msg. reflexivity.
    + exfalso. unfold ANTCalculator_init in E.
      repeat match type of E with
             | (if ?c then _ else _) = _ => destruct c; try discriminate
             end.
  - intros Hv Hlen. rewrite (init_valid _ _ _ _ Hv). cbn.
    assert (Hreps : reps = []).
    { unfold reps, detect_reps.
      destruct (Nat.ltb_spec (length samples) (MIN_SAMPLES_BETWEEN_PEAKS * 2));
        [reflexivity|].
      unfold MIN_SAMPLES_BETWEEN_PEAKS in *. lia. }
    rewrite Hreps. destruct Hv as (Hbr & _).
    unfold calculate. cbn [filter length calculator baseline_reps sustain_count].
    destruct (Z.ltb_spec (Z.of_nat 0) (br + 2)); [reflexivity|lia].
Qed.

(** X18. When [analyze_position_stream] reports that the threshold was
    reached, at least [baseline_reps + 2] of the detected reps are valid and
    the stream holds at least [5 * (baseline_reps + 2) + 3] samples: 38 with
    the default of five baseline reps. *)
Theorem X18_threshold_needs_enough_samples :
  forall (NP : Numpy) (samples : list schemas.PositionSample)
         (m : schemas.MovementType) (br : Z) (d : float)
         (reps : list DetectedRep) (res : ANTResult),
    VP.analyze_position_stream samples m br d = Ok (reps, res) ->
    ant_reached res = true ->
    (br + 2 <= Z.of_nat (length (filter is_valid reps)))%Z /\
    (5 * (br + 2) + 3 <= Z.of_nat (length samples))%Z.
Proof.
  intros NP samples m br d reps res. unfold VP.analyze_position_stream.
  destruct (ANTCalculator_init br d 3 2) as [self|e] eqn:Einit;
    [|discriminate].
  apply init_Ok in Einit. destruct Einit as [(Hbr & _) ->]. cbn [bind].
  destruct (calculate (calculator br d 3 2) _) as [res'|e] eqn:Ecalc;
    [|discriminate].
  intros E Hreached.
  assert (Ereps : reps = detect_reps (RepDetector_init m default_min_confidence)
                                     samples)
    by (injection E as E1 E2; symmetry; exact E1).
  assert (Eres : res' = res) by (injection E as E1 E2; exact E2).
  subst res'. rewrite <- Ereps in Ecalc. clear E.
  assert (Hvalid : (br + 2 <= Z.of_nat (length (filter is_valid reps)))%Z).
  { pose proof (calculate_cases (calculator br d 3 2) reps ltac:(cbn; lia))
      as H.
    cbv zeta in H.
    cbn [baseline_reps sustain_count smoothing_window drop_threshold calculator]
      in H.
    destruct H as [[_ E]|[(_ & _ & r0 & E & Hr & _)|(Hge & _)]].
    - rewrite E in Ecalc. assert (res = insufficient_data) by congruence.
      subst res. discriminate.
    - rewrite E in Ecalc. assert (res = r0) by congruence. congruence.
    - exact Hge. }
  split; [exact Hvalid|].
  pose proof (filter_length_le is_valid reps) as Hle.
  assert (Hne : reps <> []).
  { intros ->. cbn in Hvalid. lia. }
  rewrite Ereps in Hne.
  destruct (detect_reps_span NP (RepDetector_init m default_min_confidence)
              samples) as [_ Hcount].
  destruct (Hcount Hne) as [Hn _]. rewrite <- Ereps in Hn.
  pose proof (filter_length_le
                (fun s => fgeb (schemas.confidence s)
                               (min_confidence
                                  (RepDetector_init m default_min_confidence)))
                samples) as Hkept.
  unfold valid_samples_of in Hn. lia.
Qed.

Lemma X18_witness_fatigue_signal :
  (5 + 2 <= Z.of_nat
              (length
                 (filter is_valid
                    (@detect_reps numpy_seq
                       (RepDetector_init schemas.SWING_LEFT
                          default_min_confidence) fatigue_signal))))%Z /\
  (5 * (5 + 2) + 3 <= Z.of_nat (length fatigue_signal))%Z.
Proof.
  apply (X18_threshold_needs_enough_samples numpy_seq fatigue_signal
           schemas.SWING_LEFT 5%Z 0.2
           (@detect_reps numpy_seq
              (RepDetector_init schemas.SWING_LEFT default_min_confidence)
              fatigue_signal)
           (match @calculate numpy_seq (calculator 5 0.2 3 2)
                    (@detect_reps numpy_seq
                       (RepDetector_init schemas.SWING_LEFT
                          default_min_confidence) fatigue_signal) with
            | Ok res => res
            | Raise _ => insufficient_data
            end)); vm_compute; reflexivity.
Defined.
